(** * Zombie Survivor: a shallow embedding of the simulation core

    Source files: constants.py, zombie.py, grenade.py, player.py, game.py.

    Python floats are kept abstract behind the [FloatOps] interface: every
    arithmetic operation the code performs on a float goes through it, so the
    results below hold for any implementation of IEEE arithmetic and of the
    trigonometric functions.  Integer quantities of the code (health, ammo,
    counters, pygame ticks in milliseconds) are [Z].  The pygame clock
    ([pygame.time.get_ticks()]) is an explicit argument, read once per tick,
    and the Python [random] module is an explicit generator state behind the
    [RandomOps] interface. *)

From Stdlib Require Import ZArith List Bool QArith Lia.
Import ListNotations.

Open Scope Z_scope.

(** ** Float interface *)

Class FloatOps (F : Type) := {
  fadd : F -> F -> F;
  fsub : F -> F -> F;
  fmul : F -> F -> F;
  fdiv : F -> F -> F;
  fneg : F -> F;
  fsqrt : F -> F;
  fcos : F -> F;
  fsin : F -> F;
  fatan2 : F -> F -> F;        (* math.atan2(y, x) *)
  flt : F -> F -> bool;        (* Python < on floats *)
  fle : F -> F -> bool;        (* Python <= on floats *)
  fofZ : Z -> F;               (* an int used in float arithmetic *)
  flit : Q -> F;               (* a float literal such as 0.3 *)
  fpi : F;                     (* math.pi *)
  finf : F;                    (* float('inf') *)
  rect_coord : F -> Z          (* pygame.Rect's conversion of a float coordinate *)
}.

(** The [random] module: its hidden generator state [R] and the two calls
    the code makes. *)
Class RandomOps (F R : Type) := {
  random_random : R -> F * R;          (* random.random() *)
  randint : Z -> Z -> R -> Z * R       (* random.randint(a, b) *)
}.

(** ** pygame.Rect *)

Record rect := mk_rect { rx : Z; ry : Z; rw : Z; rh : Z }.

(** [Rect.colliderect]: rectangles of positive area that overlap. *)
Definition colliderect (a b : rect) : bool :=
  (negb (rw a =? 0) && negb (rh a =? 0) && negb (rw b =? 0) && negb (rh b =? 0)) &&
  (rx a <? rx b + rw b) && (ry a <? ry b + rh b) &&
  (rx b <? rx a + rw a) && (ry b <? ry a + rh a).

(** ** Constants (constants.py) *)

Definition ZOMBIE_SIZE : Z := 18.
Definition ZOMBIE_HEALTH : Z := 3.
Definition FAST_ZOMBIE_SIZE : Z := 16.
Definition FAST_ZOMBIE_HEALTH : Z := 2.
Definition ZOMBIE_STUCK_THRESHOLD : Z := 30.
Definition ZOMBIE_AVOIDANCE_DURATION : Z := 60.
Definition ZOMBIE_MIN_SPAWN_DISTANCE : Z := 200.
Definition MAP_SIZE : Z := 1500.
Definition PLAYER_MAX_HEALTH : Z := 5.

Section Sim.

Context {F R : Type} {FO : FloatOps F} {RO : RandomOps F R}.

Local Infix "+." := fadd (at level 50, left associativity).
Local Infix "-." := fsub (at level 50, left associativity).
Local Infix "*." := fmul (at level 40, left associativity).
Local Infix "/." := fdiv (at level 40, left associativity).

(** [random.uniform(a, b)] is [a + (b - a) * random.random()]. *)
Definition uniform (a b : F) (r : R) : F * R :=
  let (u, r') := random_random r in (a +. (b -. a) *. u, r').

(** ** Zombies (zombie.py) *)

Inductive zkind := Standard | Fast | Boss.

(** A zombie object; [zid] is its Python object identity. *)
Record zombie := mk_zombie {
  zid : nat;
  zkind_of : zkind;
  zx : F; zy : F;
  zsize : Z;
  zspeed : F;
  zhealth : Z;
  zmax_health : Z;
  last_damage_time : Z;
  angle_to_player : F;
  stuck_counter : Z;
  last_x : F; last_y : F;
  avoidance_angle : F;
  avoidance_timer : Z;
  boss_pulse_time : Z
}.

Definition set_pos (z : zombie) (x y : F) : zombie :=
  mk_zombie (zid z) (zkind_of z) x y (zsize z) (zspeed z) (zhealth z) (zmax_health z)
    (last_damage_time z) (angle_to_player z) (stuck_counter z) (last_x z) (last_y z)
    (avoidance_angle z) (avoidance_timer z) (boss_pulse_time z).

Definition set_ai (z : zombie) (a : F) (sc : Z) (av : F) (at_ : Z) : zombie :=
  mk_zombie (zid z) (zkind_of z) (zx z) (zy z) (zsize z) (zspeed z) (zhealth z)
    (zmax_health z) (last_damage_time z) a sc (last_x z) (last_y z) av at_
    (boss_pulse_time z).

Definition set_health (z : zombie) (h t : Z) : zombie :=
  mk_zombie (zid z) (zkind_of z) (zx z) (zy z) (zsize z) (zspeed z) h
    (zmax_health z) t (angle_to_player z) (stuck_counter z) (last_x z) (last_y z)
    (avoidance_angle z) (avoidance_timer z) (boss_pulse_time z).

Definition set_pulse (z : zombie) (n : Z) : zombie :=
  mk_zombie (zid z) (zkind_of z) (zx z) (zy z) (zsize z) (zspeed z) (zhealth z)
    (zmax_health z) (last_damage_time z) (angle_to_player z) (stuck_counter z)
    (last_x z) (last_y z) (avoidance_angle z) (avoidance_timer z) n.

(** [Zombie.__init__] followed by the subclass constructors. *)
Definition new_zombie (k : zkind) (id : nat) (x y : F) : zombie :=
  let base := mk_zombie id k x y ZOMBIE_SIZE (fofZ 3) ZOMBIE_HEALTH ZOMBIE_HEALTH 0
                (fofZ 0) 0 x y (fofZ 0) 0 0 in
  match k with
  | Standard => base
  | Fast =>
      mk_zombie id k x y FAST_ZOMBIE_SIZE (fofZ 4) FAST_ZOMBIE_HEALTH
        FAST_ZOMBIE_HEALTH 0 (fofZ 0) 0 x y (fofZ 0) 0 0
  | Boss =>
      mk_zombie id k x y 35 (flit (3 # 2)) 30 30 0 (fofZ 0) 0 x y (fofZ 0) 0 0
  end.

Definition sq (a : F) : F := a *. a.

Definition dist (x1 y1 x2 y2 : F) : F := fsqrt (sq (x1 -. x2) +. sq (y1 -. y2)).

(** The zombie's bounding square at [(x, y)], as built in [_check_collision]. *)
Definition zombie_rect (z : zombie) (x y : F) : rect :=
  mk_rect (rect_coord (x -. fofZ (zsize z / 2))) (rect_coord (y -. fofZ (zsize z / 2)))
    (zsize z) (zsize z).

(** [Zombie._check_collision]; [others = None] is the default argument. *)
Definition check_collision (z : zombie) (x y : F) (obstacles : list rect)
    (others : option (list zombie)) : bool :=
  if existsb (colliderect (zombie_rect z x y)) obstacles then true
  else match others with
       | None | Some [] => false
       | Some os =>
           existsb (fun o =>
             negb (Nat.eqb (zid o) (zid z)) &&
             (let d := dist x y (zx o) (zy o) in
              flt d (fofZ (zsize z + zsize o) *. flit (6 # 10)) && flt d (fofZ 20))) os
       end.

(** [_determine_movement_angle]: returns the angle and the updated zombie. *)
Definition determine_movement_angle (z : zombie) (distance_to_player : F) (r : R)
    : F * zombie * R :=
  let t := if 0 <? avoidance_timer z then avoidance_timer z - 1 else avoidance_timer z in
  if 0 <? t then
    (avoidance_angle z, set_ai z (angle_to_player z) (stuck_counter z) (avoidance_angle z) t, r)
  else if ZOMBIE_STUCK_THRESHOLD <? stuck_counter z then
    let (off, r') := uniform (fneg fpi /. fofZ 2) (fpi /. fofZ 2) r in
    let a := angle_to_player z +. off in
    (a, set_ai z (angle_to_player z) (Z.max 0 (stuck_counter z - 10)) a
          ZOMBIE_AVOIDANCE_DURATION, r')
  else (angle_to_player z, set_ai z (angle_to_player z) (stuck_counter z) (avoidance_angle z) t, r).

Definition try_direct_movement (z : zombie) (angle : F) (obstacles : list rect)
    (others : option (list zombie)) : option zombie :=
  let dx := fcos angle *. zspeed z in
  let dy := fsin angle *. zspeed z in
  let nx := zx z +. dx in
  let ny := zy z +. dy in
  if negb (check_collision z nx ny obstacles others) then Some (set_pos z nx ny) else None.

Definition try_axis_aligned_movement (z : zombie) (angle : F) (obstacles : list rect)
    (others : option (list zombie)) : option zombie :=
  let dx := fcos angle *. zspeed z in
  let dy := fsin angle *. zspeed z in
  if negb (check_collision z (zx z +. dx) (zy z) obstacles others)
  then Some (set_pos z (zx z +. dx) (zy z))
  else if negb (check_collision z (zx z) (zy z +. dy) obstacles others)
  then Some (set_pos z (zx z) (zy z +. dy))
  else None.

Definition slide_angles (angle : F) : list F :=
  [angle +. flit (3 # 10); angle -. flit (3 # 10);
   angle +. flit (6 # 10); angle -. flit (6 # 10);
   angle +. flit (9 # 10); angle -. flit (9 # 10);
   angle +. fpi /. fofZ 2; angle -. fpi /. fofZ 2].

(** The first candidate of a list of headings that is collision-free. *)
Fixpoint first_free (z : zombie) (scale : F) (angles : list F) (obstacles : list rect)
    (others : option (list zombie)) : option zombie :=
  match angles with
  | [] => None
  | a :: rest =>
      let dx := fcos a *. zspeed z *. scale in
      let dy := fsin a *. zspeed z *. scale in
      let nx := zx z +. dx in
      let ny := zy z +. dy in
      if negb (check_collision z nx ny obstacles others) then Some (set_pos z nx ny)
      else first_free z scale rest obstacles others
  end.

Definition try_wall_sliding (z : zombie) (angle : F) (obstacles : list rect)
    (others : option (list zombie)) : option zombie :=
  first_free z (flit (8 # 10)) (slide_angles angle) obstacles others.

(** [_try_unstuck_movement]: up to 8 draws of [random.uniform(0, 2*pi)]; a draw is
    consumed per attempt, also when the attempt fails. *)
Fixpoint try_unstuck_loop (n : nat) (z : zombie) (obstacles : list rect)
    (others : option (list zombie)) (r : R) : option zombie * R :=
  match n with
  | O => (None, r)
  | S n' =>
      let (a, r') := uniform (fofZ 0) (fofZ 2 *. fpi) r in
      let dx := fcos a *. zspeed z *. flit (1 # 2) in
      let dy := fsin a *. zspeed z *. flit (1 # 2) in
      let nx := zx z +. dx in
      let ny := zy z +. dy in
      if negb (check_collision z nx ny obstacles others) then (Some (set_pos z nx ny), r')
      else try_unstuck_loop n' z obstacles others r'
  end.

Definition try_unstuck_movement (z : zombie) (obstacles : list rect)
    (others : option (list zombie)) (r : R) : option zombie * R :=
  try_unstuck_loop 8 z obstacles others r.

Definition update_stuck_detection (z : zombie) (prev_x prev_y : F) (success : bool) : zombie :=
  let movement_distance := dist (zx z) (zy z) prev_x prev_y in
  let sc := if success && flt (flit (1 # 10)) movement_distance
            then Z.max 0 (stuck_counter z - 2) else stuck_counter z + 1 in
  let sc := Z.min sc (ZOMBIE_STUCK_THRESHOLD * 2) in
  set_ai z (angle_to_player z) sc (avoidance_angle z) (avoidance_timer z).

(** [Zombie.update]. *)
Definition zombie_base_update (z : zombie) (player_x player_y : F) (obstacles : list rect)
    (others : option (list zombie)) (r : R) : zombie * R :=
  let prev_x := zx z in
  let prev_y := zy z in
  let z := set_ai z (fatan2 (player_y -. zy z) (player_x -. zx z)) (stuck_counter z)
             (avoidance_angle z) (avoidance_timer z) in
  let distance_to_player := dist player_x player_y (zx z) (zy z) in
  let '(movement_angle, z, r) := determine_movement_angle z distance_to_player r in
  match try_direct_movement z movement_angle obstacles others with
  | Some z' => (update_stuck_detection z' prev_x prev_y true, r)
  | None =>
  match try_axis_aligned_movement z movement_angle obstacles others with
  | Some z' => (update_stuck_detection z' prev_x prev_y true, r)
  | None =>
  match try_wall_sliding z movement_angle obstacles others with
  | Some z' => (update_stuck_detection z' prev_x prev_y true, r)
  | None =>
      let (res, r') := try_unstuck_movement z obstacles others r in
      let z' := match res with Some z' => z' | None => z end in
      (update_stuck_detection z' prev_x prev_y false, r')
  end end end.

(** Dispatch on the class: [ZombieBoss.update] also advances its pulse. *)
Definition zombie_update (z : zombie) (player_x player_y : F) (obstacles : list rect)
    (others : option (list zombie)) (r : R) : zombie * R :=
  let '(z', r') := zombie_base_update z player_x player_y obstacles others r in
  match zkind_of z with
  | Boss => (set_pulse z' (boss_pulse_time z' + 1), r')
  | _ => (z', r')
  end.

(** [Zombie.take_damage] and [ZombieBoss.take_damage]: returns the zombie and
    whether it died.  [now] is [pygame.time.get_ticks()]. *)
Definition zombie_take_damage (z : zombie) (damage now : Z) : zombie * bool :=
  let damage := match zkind_of z with
                | Boss => if 1000 <=? damage then damage / 500 else damage
                | _ => damage
                end in
  let z' := set_health z (zhealth z - damage) now in
  (z', zhealth z' <=? 0).

(** [Zombie.can_damage_player]. *)
Definition can_damage_player (z : zombie) (player_x player_y : F) : bool :=
  flt (dist (zx z) (zy z) player_x player_y) (fofZ (zsize z + 20)).

(** ** Weapons (constants.py) *)

Inductive weapon := PISTOL | SHOTGUN | MACHINE_GUN | GRENADE | MINIGUN.

Definition weapon_eqb (a b : weapon) : bool :=
  match a, b with
  | PISTOL, PISTOL | SHOTGUN, SHOTGUN | MACHINE_GUN, MACHINE_GUN
  | GRENADE, GRENADE | MINIGUN, MINIGUN => true
  | _, _ => false
  end.

(** An ammunition count: an int, or [float('inf')]. *)
Inductive amount := Fin (n : Z) | Inf.

Definition amount_lt (a b : amount) : bool :=
  match a, b with
  | Fin m, Fin n => m <? n
  | Fin _, Inf => true
  | Inf, _ => false
  end.

Definition amount_ge (a b : amount) : bool := negb (amount_lt a b).

Definition amount_add (a : amount) (k : Z) : amount :=
  match a with Fin m => Fin (m + k) | Inf => Inf end.

Record weapon_stats := mk_stats {
  w_damage : Z;
  w_cooldown : Z;
  w_bullet_speed : Z;
  w_explosion_radius : Z;   (* only the grenade has this key *)
  w_max_ammo : amount;
  w_reload_time : Z
}.

Definition WEAPON_STATS (w : weapon) : weapon_stats :=
  match w with
  | PISTOL => mk_stats 1 300 10 0 (Fin 12) 2000
  | SHOTGUN => mk_stats 3 500 8 0 (Fin 5) 1000
  | MACHINE_GUN => mk_stats 2 100 12 0 (Fin 30) 3000
  | GRENADE => mk_stats 5 1500 6 80 Inf 0
  | MINIGUN => mk_stats 4 50 15 0 (Fin 200) 5000
  end.

Inductive hero := NATHAN | KELLY.

(** ** Projectiles (bullet.py, grenade.py) *)

Record bullet := mk_bullet {
  bx : F; by_ : F; bdx : F; bdy : F;
  bdamage : Z;
  bsize : Z;
  homing : bool;             (* a HomingBullet *)
  homing_duration : Z;
  creation_time : Z;
  bspeed : F
}.

(** [Bullet.__init__] / [HomingBullet.__init__] (default duration 10000). *)
Definition new_bullet (x y speed angle : F) (damage : Z) (is_homing : bool) (now : Z) : bullet :=
  mk_bullet x y (fcos angle *. speed) (fsin angle *. speed) damage 5 is_homing 10000 now speed.

Record grenade := mk_grenade {
  gx : F; gy : F;
  gdx : F; gdy : F;
  gdamage : Z;
  explosion_radius : Z;
  gsize : Z;
  exploded : bool;
  explosion_timer : Z;
  max_explosion_time : Z;
  flight_time : Z;
  max_flight_time : Z
}.

(** [Grenade.__init__]. *)
Definition new_grenade (x y speed angle : F) (damage radius : Z) : grenade :=
  mk_grenade x y (fcos angle *. speed) (fsin angle *. speed) damage radius 8 false 0 20 0 90.

(** ** The player (player.py) *)

Record reload_state := mk_reload {
  is_reloading : bool;
  reload_start_time : Z;
  reload_weapon : option weapon;
  shotgun_shells_reloaded : Z
}.

Definition no_reload : reload_state := mk_reload false 0 None 0.

Record scoring := mk_scoring {
  score : Z;
  kills_normal : Z;
  kills_fast : Z;
  kills_boss : Z;
  total_kills : Z;
  kills_without_hit : Z;
  last_skill_bonus_at : Z
}.

Record hero_state := mk_hero {
  hero_type : hero;
  ability_charge : Z;
  ability_active : bool;
  ability_end_time : Z
}.

(** The attributes of [Player] that the simulation reads ([weapon_angle] and
    [hero_color] are only drawn).  [weapons] holds the two slots. *)
Record player := mk_player {
  px : F; py : F;
  psize : Z;
  pspeed : Z;
  phealth : Z;
  pmax_health : Z;
  weapons : list (option weapon);
  current_weapon_index : nat;
  last_shot : Z;
  grenade_count : Z;
  ammo : weapon -> amount;
  reload : reload_state;
  insta_kill_active : bool;
  insta_kill_end_time : Z;
  scores : scoring;
  heroes : hero_state
}.

Definition set_phealth (p : player) (h : Z) : player :=
  mk_player (px p) (py p) (psize p) (pspeed p) h (pmax_health p) (weapons p)
    (current_weapon_index p) (last_shot p) (grenade_count p) (ammo p) (reload p)
    (insta_kill_active p) (insta_kill_end_time p) (scores p) (heroes p).

Definition set_last_shot (p : player) (t : Z) : player :=
  mk_player (px p) (py p) (psize p) (pspeed p) (phealth p) (pmax_health p) (weapons p)
    (current_weapon_index p) t (grenade_count p) (ammo p) (reload p)
    (insta_kill_active p) (insta_kill_end_time p) (scores p) (heroes p).

Definition set_grenade_count (p : player) (n : Z) : player :=
  mk_player (px p) (py p) (psize p) (pspeed p) (phealth p) (pmax_health p) (weapons p)
    (current_weapon_index p) (last_shot p) n (ammo p) (reload p)
    (insta_kill_active p) (insta_kill_end_time p) (scores p) (heroes p).

Definition set_weapons (p : player) (ws : list (option weapon)) : player :=
  mk_player (px p) (py p) (psize p) (pspeed p) (phealth p) (pmax_health p) ws
    (current_weapon_index p) (last_shot p) (grenade_count p) (ammo p) (reload p)
    (insta_kill_active p) (insta_kill_end_time p) (scores p) (heroes p).

(** [self.ammo[w] = a]. *)
Definition set_ammo (p : player) (w : weapon) (a : amount) : player :=
  mk_player (px p) (py p) (psize p) (pspeed p) (phealth p) (pmax_health p) (weapons p)
    (current_weapon_index p) (last_shot p) (grenade_count p)
    (fun w' => if weapon_eqb w' w then a else ammo p w') (reload p)
    (insta_kill_active p) (insta_kill_end_time p) (scores p) (heroes p).

Definition set_reload (p : player) (r : reload_state) : player :=
  mk_player (px p) (py p) (psize p) (pspeed p) (phealth p) (pmax_health p) (weapons p)
    (current_weapon_index p) (last_shot p) (grenade_count p) (ammo p) r
    (insta_kill_active p) (insta_kill_end_time p) (scores p) (heroes p).

Definition set_insta_kill (p : player) (b : bool) (t : Z) : player :=
  mk_player (px p) (py p) (psize p) (pspeed p) (phealth p) (pmax_health p) (weapons p)
    (current_weapon_index p) (last_shot p) (grenade_count p) (ammo p) (reload p)
    b t (scores p) (heroes p).

Definition set_scores (p : player) (s : scoring) : player :=
  mk_player (px p) (py p) (psize p) (pspeed p) (phealth p) (pmax_health p) (weapons p)
    (current_weapon_index p) (last_shot p) (grenade_count p) (ammo p) (reload p)
    (insta_kill_active p) (insta_kill_end_time p) s (heroes p).

Definition set_heroes (p : player) (h : hero_state) : player :=
  mk_player (px p) (py p) (psize p) (pspeed p) (phealth p) (pmax_health p) (weapons p)
    (current_weapon_index p) (last_shot p) (grenade_count p) (ammo p) (reload p)
    (insta_kill_active p) (insta_kill_end_time p) (scores p) h.

(** [Player.get_current_weapon]; the index always addresses one of the slots. *)
Definition get_current_weapon (p : player) : option weapon :=
  match nth_error (weapons p) (current_weapon_index p) with
  | Some w => w
  | None => None
  end.

(** [Player.take_damage]: returns the player and whether it died. *)
Definition player_take_damage (p : player) : player * bool :=
  let s := scores p in
  let p := set_phealth p (phealth p - 1) in
  let p := set_scores p (mk_scoring (score s) (kills_normal s) (kills_fast s)
                           (kills_boss s) (total_kills s) 0 0) in
  (p, phealth p <=? 0).

(** [Player._clear_reload_state]. *)
Definition clear_reload_state (p : player) : player := set_reload p no_reload.

(** [Player.start_reload]: returns whether a reload started. *)
Definition start_reload (p : player) (now : Z) : player * bool :=
  match get_current_weapon p with
  | None | Some GRENADE => (p, false)
  | Some cw =>
      if is_reloading (reload p) then (p, false)
      else
        let max_ammo := w_max_ammo (WEAPON_STATS cw) in
        if amount_ge (ammo p cw) max_ammo || match max_ammo with Inf => true | _ => false end
        then (p, false)
        else (set_reload p (mk_reload true now (Some cw) 0), true)
  end.

(** The shell-loading [while] loop of [update_reload]; it runs at most
    [due - shells] times, since each iteration increments [shells]. *)
Fixpoint load_shells (fuel : nat) (p : player) (w : weapon) (due : Z) (max_ammo : amount)
    : player :=
  match fuel with
  | O => p
  | S fuel' =>
      let r := reload p in
      if (shotgun_shells_reloaded r <? due) && amount_lt (ammo p w) max_ammo then
        let p := set_ammo p w (amount_add (ammo p w) 1) in
        let p := set_reload p (mk_reload (is_reloading r) (reload_start_time r)
                                 (reload_weapon r) (shotgun_shells_reloaded r + 1)) in
        load_shells fuel' p w due max_ammo
      else p
  end.

Definition set_reloading_flag (p : player) (b : bool) : player :=
  let r := reload p in
  set_reload p (mk_reload b (reload_start_time r) (reload_weapon r) (shotgun_shells_reloaded r)).

(** [Player.update_reload]; [None] is the [KeyError] raised by
    [WEAPON_STATS[None]], which is unreachable while [is_reloading] holds. *)
Definition update_reload (p : player) (now : Z) : option player :=
  let r := reload p in
  if negb (is_reloading r) then Some p
  else match reload_weapon r with
  | None => None
  | Some w =>
      let st := WEAPON_STATS w in
      let reload_time := w_reload_time st in
      let max_ammo := w_max_ammo st in
      match w with
      | SHOTGUN =>
          let time_per_shell := reload_time in
          let elapsed_time := now - reload_start_time r in
          let due := elapsed_time / time_per_shell in
          let p := load_shells (Z.to_nat (due - shotgun_shells_reloaded r)) p w due max_ammo in
          if amount_ge (ammo p w) max_ammo then Some (set_reloading_flag p false) else Some p
      | _ =>
          if reload_time <=? now - reload_start_time r
          then Some (set_reloading_flag (set_ammo p w max_ammo) false)
          else Some p
      end
  end.

(** [Player.shoot]: returns the player and the new (bullets, grenades). *)
Definition shoot (p : player) (target_x target_y : F) (now : Z)
    : player * (list bullet * list grenade) :=
  match get_current_weapon p with
  | None => (p, ([], []))
  | Some cw =>
    if is_reloading (reload p) && negb (weapon_eqb cw SHOTGUN) then (p, ([], [])) else
    if is_reloading (reload p) && weapon_eqb cw SHOTGUN && amount_lt (ammo p cw) (Fin 1)
    then (p, ([], [])) else
    let p := if is_reloading (reload p) && weapon_eqb cw SHOTGUN
             then set_reloading_flag p false else p in
    let st := WEAPON_STATS cw in
    let no_ammo := if weapon_eqb cw GRENADE then grenade_count p <=? 0
                   else negb (amount_lt (Fin 0) (ammo p cw)) in
    if no_ammo then (p, ([], [])) else
    if w_cooldown st <? now - last_shot p then
      let p := set_last_shot p now in
      let angle := fatan2 (target_y -. py p) (target_x -. px p) in
      let speed := fofZ (w_bullet_speed st) in
      let damage := if insta_kill_active p then 1000 else w_damage st in
      let unlimited := match hero_type (heroes p) with
                       | NATHAN => ability_active (heroes p) | KELLY => false end in
      let consume (p : player) : player :=
        let p := set_ammo p cw (amount_add (ammo p cw) (-1)) in
        if negb (amount_lt (Fin 0) (ammo p cw)) then fst (start_reload p now) else p in
      match cw with
      | GRENADE =>
          let p := set_grenade_count p (grenade_count p - 1) in
          (p, ([], [new_grenade (px p) (py p) speed angle damage (w_explosion_radius st)]))
      | SHOTGUN =>
          let p := if negb unlimited then consume p else p in
          (p, (map (fun i => new_bullet (px p) (py p) speed (angle +. fofZ i *. flit (2 # 10))
                               damage false now) [-2; -1; 0; 1; 2], []))
      | _ =>
          let p := match ammo p cw with
                   | Inf => p
                   | Fin _ => if negb unlimited then consume p else p
                   end in
          (p, ([new_bullet (px p) (py p) speed angle damage unlimited now], []))
      end
    else (p, ([], []))
  end.

Inductive kill_type := normal | fast | boss.

(** [Player.add_kill]: returns the player and the skill bonus (0 if none). *)
Definition add_kill (p : player) (zombie_type : kill_type) : player * Z :=
  let s := scores p in
  let '(kn, kf, kb, score_points) :=
    match zombie_type with
    | normal => (kills_normal s + 1, kills_fast s, kills_boss s, 100)
    | fast => (kills_normal s, kills_fast s + 1, kills_boss s, 150)
    | boss => (kills_normal s, kills_fast s, kills_boss s + 1, 1500)
    end in
  let streak := kills_without_hit s + 1 in
  let sc := score s + score_points in
  let h := heroes p in
  let charge := if ability_charge h <? 100 then Z.min 100 (ability_charge h + 20)
                else ability_charge h in
  let p := set_heroes p (mk_hero (hero_type h) charge (ability_active h) (ability_end_time h)) in
  let skill_bonus_milestone := (streak / 10) * 10 in
  if (last_skill_bonus_at s <? skill_bonus_milestone) && (10 <=? skill_bonus_milestone) then
    let skill_bonus := skill_bonus_milestone * 50 in
    (set_scores p (mk_scoring (sc + skill_bonus) kn kf kb (total_kills s + 1) streak
                     skill_bonus_milestone), skill_bonus)
  else
    (set_scores p (mk_scoring sc kn kf kb (total_kills s + 1) streak (last_skill_bonus_at s)), 0).

(** [Player.update_powerups]. *)
Definition update_powerups (p : player) (now : Z) : player :=
  let p := if insta_kill_active p && (insta_kill_end_time p <? now)
           then set_insta_kill p false (insta_kill_end_time p) else p in
  let h := heroes p in
  if ability_active h && (ability_end_time h <? now) then
    let p := set_heroes p (mk_hero (hero_type h) (ability_charge h) false (ability_end_time h)) in
    match hero_type h, get_current_weapon p with
    | NATHAN, Some cw =>
        match w_max_ammo (WEAPON_STATS cw) with
        | Inf => p
        | max_ammo => clear_reload_state (set_ammo p cw max_ammo)
        end
    | _, _ => p
    end
  else p.

(** [Player.activate_insta_kill]. *)
Definition activate_insta_kill (p : player) (duration now : Z) : player :=
  set_insta_kill p true (now + duration).

Definition has_weapon (ws : list (option weapon)) (w : weapon) : bool :=
  existsb (fun o => match o with Some w' => weapon_eqb w' w | None => false end) ws.

(** Fill the first empty slot, if there is one. *)
Fixpoint fill_empty_slot (ws : list (option weapon)) (w : weapon) : option (list (option weapon)) :=
  match ws with
  | [] => None
  | None :: rest => Some (Some w :: rest)
  | o :: rest => option_map (cons o) (fill_empty_slot rest w)
  end.

Fixpoint replace_slot (ws : list (option weapon)) (i : nat) (w : weapon) : list (option weapon) :=
  match ws, i with
  | [], _ => []
  | _ :: rest, O => Some w :: rest
  | o :: rest, S i' => o :: replace_slot rest i' w
  end.

(** [Player.add_weapon] (called through [upgrade_weapon]). *)
Definition add_weapon (p : player) (w : weapon) : player :=
  match w with
  | GRENADE =>
      let p := set_grenade_count p (grenade_count p + 1) in
      if negb (has_weapon (weapons p) GRENADE) then
        match fill_empty_slot (weapons p) w with
        | Some ws => set_weapons p ws
        | None => set_weapons p (replace_slot (weapons p) (current_weapon_index p) w)
        end
      else p
  | _ =>
      if has_weapon (weapons p) w then set_ammo p w (w_max_ammo (WEAPON_STATS w))
      else match fill_empty_slot (weapons p) w with
           | Some ws => set_ammo (set_weapons p ws) w (w_max_ammo (WEAPON_STATS w))
           | None =>
               let p := clear_reload_state p in
               let p := set_weapons p (replace_slot (weapons p) (current_weapon_index p) w) in
               set_ammo p w (w_max_ammo (WEAPON_STATS w))
           end
  end.

(** ** Grenades (grenade.py) *)

Definition grenade_set (gr : grenade) (x y : F) (ex : bool) (et ft : Z) : grenade :=
  mk_grenade x y (gdx gr) (gdy gr) (gdamage gr) (explosion_radius gr) (gsize gr) ex et
    (max_explosion_time gr) ft (max_flight_time gr).

(** [Grenade.update]. *)
Definition grenade_update (gr : grenade) : grenade :=
  if negb (exploded gr) then
    let ft := flight_time gr + 1 in
    grenade_set gr (gx gr +. gdx gr) (gy gr +. gdy gr) (max_flight_time gr <=? ft)
      (explosion_timer gr) ft
  else grenade_set gr (gx gr) (gy gr) true (explosion_timer gr + 1) (flight_time gr).

(** [Grenade.check_collision]: returns the grenade and whether it exploded now. *)
Definition grenade_check_collision (gr : grenade) (zs : list zombie) (obstacles : list rect)
    : grenade * bool :=
  if exploded gr then (gr, false)
  else if existsb (fun z => flt (dist (gx gr) (gy gr) (zx z) (zy z)) (fofZ (gsize gr + zsize z))) zs
  then (grenade_set gr (gx gr) (gy gr) true (explosion_timer gr) (flight_time gr), true)
  else
    let grect := mk_rect (rect_coord (gx gr -. fofZ (gsize gr / 2)))
                   (rect_coord (gy gr -. fofZ (gsize gr / 2))) (gsize gr) (gsize gr) in
    if existsb (colliderect grect) obstacles
    then (grenade_set gr (gx gr) (gy gr) true (explosion_timer gr) (flight_time gr), true)
    else (gr, false).

(** [Grenade.get_explosion_damage_targets]. *)
Definition get_explosion_damage_targets (gr : grenade) (zs : list zombie) (p : player)
    : list zombie * bool :=
  if negb (exploded gr) then ([], false)
  else (filter (fun z => fle (dist (gx gr) (gy gr) (zx z) (zy z)) (fofZ (explosion_radius gr))) zs,
        fle (dist (gx gr) (gy gr) (px p) (py p)) (fofZ (explosion_radius gr))).

Definition grenade_is_finished (gr : grenade) : bool :=
  exploded gr && (max_explosion_time gr <=? explosion_timer gr).

Definition grenade_is_out_of_bounds (gr : grenade) : bool :=
  flt (gx gr) (fofZ 0) || flt (fofZ 1500) (gx gr) || flt (gy gr) (fofZ 0) || flt (fofZ 1500) (gy gr).

(** ** Bullets (bullet.py) *)

Definition bullet_move (b : bullet) (dx dy : F) : bullet :=
  mk_bullet (bx b +. dx) (by_ b +. dy) dx dy (bdamage b) (bsize b) (homing b)
    (homing_duration b) (creation_time b) (bspeed b).

Definition check_obstacle_collision (b : bullet) (obstacles : list rect) : bool :=
  existsb (colliderect (mk_rect (rect_coord (bx b -. fofZ (bsize b)))
                          (rect_coord (by_ b -. fofZ (bsize b))) (bsize b * 2) (bsize b * 2)))
    obstacles.

(** The nearest zombie, as the [min_distance] scan of [HomingBullet.update]. *)
Definition nearest_zombie (b : bullet) (zs : list zombie) : option zombie :=
  fst (fold_left (fun '(best, m) z =>
         let d := dist (zx z) (zy z) (bx b) (by_ b) in
         if flt d m then (Some z, d) else (best, m)) zs (None, finf)).

(** [Bullet.update] and [HomingBullet.update]: the bullet and whether it hit an obstacle. *)
Definition bullet_update (b : bullet) (obstacles : list rect) (zs : list zombie) (now : Z)
    : bullet * bool :=
  let '(dx, dy) :=
    if homing b && (now - creation_time b <? homing_duration b) && negb (match zs with [] => true | _ => false end)
    then match nearest_zombie b zs with
         | Some nz =>
             let a := fatan2 (zy nz -. by_ b) (zx nz -. bx b) in
             (fcos a *. bspeed b, fsin a *. bspeed b)
         | None => (bdx b, bdy b)
         end
    else (bdx b, bdy b) in
  let b := bullet_move b dx dy in
  (b, negb (match obstacles with [] => true | _ => false end) && check_obstacle_collision b obstacles).

Definition bullet_is_out_of_bounds (b : bullet) : bool :=
  flt (bx b) (fofZ 0) || flt (fofZ MAP_SIZE) (bx b) || flt (by_ b) (fofZ 0) ||
  flt (fofZ MAP_SIZE) (by_ b).

(** ** Pickups (weapon.py, powerup.py) *)

Record weapon_pickup := mk_pickup {
  wpx : F; wpy : F; weapon_type : weapon; wsize : Z; wcollected : bool
}.

Definition new_weapon_pickup (x y : F) (w : weapon) : weapon_pickup := mk_pickup x y w 15 false.

(** [WeaponPickup.check_pickup]. *)
Definition weapon_check_pickup (k : weapon_pickup) (x y : F) : weapon_pickup * bool :=
  if wcollected k then (k, false)
  else if flt (dist (wpx k) (wpy k) x y) (fofZ (wsize k + 20))
  then (mk_pickup (wpx k) (wpy k) (weapon_type k) (wsize k) true, true)
  else (k, false).

(** An [InstaKillPowerUp]. *)
Record powerup := mk_powerup {
  pux : F; puy : F; pickup_radius : Z; pcollected : bool; pulse_time : Z; duration : Z
}.

(** [PowerUp.update] then [PowerUp.check_pickup]. *)
Definition powerup_update_and_check (u : powerup) (x y : F) : powerup * bool :=
  let u := mk_powerup (pux u) (puy u) (pickup_radius u) (pcollected u) (pulse_time u + 1) (duration u) in
  if pcollected u then (u, false)
  else if flt (dist (pux u) (puy u) x y) (fofZ (pickup_radius u))
  then (mk_powerup (pux u) (puy u) (pickup_radius u) true (pulse_time u) (duration u), true)
  else (u, false).

(** ** The game (game.py) *)

Inductive phase := Menu | HeroSelect | Playing | Won | Lost.

Definition is_playing (s : phase) : bool := match s with Playing => true | _ => false end.

(** The spawning system of [Game.__init__]. *)
Record spawn_state := mk_spawn {
  zombie_spawn_timer : Z;
  zombies_spawned : Z;
  max_zombies : Z;
  spawn_interval : Z;
  zombies_per_wave : Z;
  boss_spawned : bool;
  boss_killed : bool;
  current_wave : Z
}.

(** The entity collections; [next_id] supplies identities of new objects. *)
Record entities := mk_entities {
  bullets : list bullet;
  grenades : list grenade;
  zombies : list zombie;
  weapon_pickups : list weapon_pickup;
  powerups : list powerup;
  next_id : nat
}.

Record game := mk_game {
  gplayer : player;
  ents : entities;
  obstacles : list rect;
  exit_rect : rect;
  spawner : spawn_state;
  last_zombie_damage : Z;
  game_state : phase;
  skill_bonus_notification : option Z;
  skill_bonus_notification_time : Z
}.

Definition set_player (g : game) (p : player) : game :=
  mk_game p (ents g) (obstacles g) (exit_rect g) (spawner g) (last_zombie_damage g)
    (game_state g) (skill_bonus_notification g) (skill_bonus_notification_time g).

Definition set_ents (g : game) (e : entities) : game :=
  mk_game (gplayer g) e (obstacles g) (exit_rect g) (spawner g) (last_zombie_damage g)
    (game_state g) (skill_bonus_notification g) (skill_bonus_notification_time g).

Definition set_spawner (g : game) (s : spawn_state) : game :=
  mk_game (gplayer g) (ents g) (obstacles g) (exit_rect g) s (last_zombie_damage g)
    (game_state g) (skill_bonus_notification g) (skill_bonus_notification_time g).

Definition set_last_zombie_damage (g : game) (t : Z) : game :=
  mk_game (gplayer g) (ents g) (obstacles g) (exit_rect g) (spawner g) t
    (game_state g) (skill_bonus_notification g) (skill_bonus_notification_time g).

Definition set_state (g : game) (s : phase) : game :=
  mk_game (gplayer g) (ents g) (obstacles g) (exit_rect g) (spawner g) (last_zombie_damage g)
    s (skill_bonus_notification g) (skill_bonus_notification_time g).

Definition set_notification (g : game) (b : Z) (t : Z) : game :=
  mk_game (gplayer g) (ents g) (obstacles g) (exit_rect g) (spawner g) (last_zombie_damage g)
    (game_state g) (Some b) t.

Definition set_bullets (g : game) (bs : list bullet) : game :=
  let e := ents g in
  set_ents g (mk_entities bs (grenades e) (zombies e) (weapon_pickups e) (powerups e) (next_id e)).

Definition set_grenades (g : game) (gs : list grenade) : game :=
  let e := ents g in
  set_ents g (mk_entities (bullets e) gs (zombies e) (weapon_pickups e) (powerups e) (next_id e)).

Definition set_zombies (g : game) (zs : list zombie) : game :=
  let e := ents g in
  set_ents g (mk_entities (bullets e) (grenades e) zs (weapon_pickups e) (powerups e) (next_id e)).

Definition set_pickups (g : game) (ks : list weapon_pickup) : game :=
  let e := ents g in
  set_ents g (mk_entities (bullets e) (grenades e) (zombies e) ks (powerups e) (next_id e)).

Definition set_powerups (g : game) (us : list powerup) : game :=
  let e := ents g in
  set_ents g (mk_entities (bullets e) (grenades e) (zombies e) (weapon_pickups e) us (next_id e)).

Definition set_next_id (g : game) (n : nat) : game :=
  let e := ents g in
  set_ents g (mk_entities (bullets e) (grenades e) (zombies e) (weapon_pickups e) (powerups e) n).

Definition game_zombies (g : game) : list zombie := zombies (ents g).

(** [self.zombies.remove(zombie)]: drops the first occurrence of the object. *)
Fixpoint remove_zombie (id : nat) (zs : list zombie) : list zombie :=
  match zs with
  | [] => []
  | z :: rest => if Nat.eqb (zid z) id then rest else z :: remove_zombie id rest
  end.

(** Writes a mutated zombie object back where the list holds it. *)
Definition replace_zombie (z' : zombie) (zs : list zombie) : list zombie :=
  map (fun z => if Nat.eqb (zid z) (zid z') then z' else z) zs.

Definition find_zombie (id : nat) (zs : list zombie) : option zombie :=
  find (fun z => Nat.eqb (zid z) id) zs.

(** The replacement object built in [_handle_boss_death]. *)
Definition to_fast (z : zombie) (id : nat) : zombie :=
  let f := new_zombie Fast id (zx z) (zy z) in
  let f := set_health f (zhealth z) (last_damage_time f) in
  set_ai f (angle_to_player z) (stuck_counter f) (avoidance_angle f) (avoidance_timer f).

(** The conversion loop of [_handle_boss_death]; new objects take fresh identities. *)
Fixpoint convert_to_fast (zs : list zombie) (next : nat) : list zombie * nat :=
  match zs with
  | [] => ([], next)
  | z :: rest =>
      match zkind_of z with
      | Fast => let (rest', n) := convert_to_fast rest next in (z :: rest', n)
      | _ => let (rest', n) := convert_to_fast rest (S next) in (to_fast z next :: rest', n)
      end
  end.

(** [Game._handle_boss_death]. *)
Definition handle_boss_death (g : game) (boss_x boss_y : F) : game :=
  let s := spawner g in
  let g := set_spawner g (mk_spawn (zombie_spawn_timer s) (zombies_spawned s) (max_zombies s)
                            (spawn_interval s) (zombies_per_wave s) (boss_spawned s) true
                            (current_wave s)) in
  let g := set_pickups g (weapon_pickups (ents g) ++ [new_weapon_pickup boss_x boss_y MINIGUN]) in
  let (zs, n) := convert_to_fast (game_zombies g) (next_id (ents g)) in
  set_next_id (set_zombies g zs) n.

(** The kill bookkeeping shared by the grenade and bullet passes of
    [update_game]: scoring, notification, removal, then the boss handler. *)
Definition on_zombie_killed (g : game) (z : zombie) (now : Z) : game :=
  let zombie_type := match zkind_of z with Boss => boss | Fast => fast | Standard => normal end in
  let (p, skill_bonus) := add_kill (gplayer g) zombie_type in
  let g := set_player g p in
  let g := if 0 <? skill_bonus then set_notification g skill_bonus now else g in
  let g := set_zombies g (remove_zombie (zid z) (game_zombies g)) in
  match zkind_of z with
  | Boss => handle_boss_death g (zx z) (zy z)
  | _ => g
  end.

(** The [for zombie in damaged_zombies] loop.  A listed object that is no
    longer in [self.zombies] (replaced by a boss-death conversion) is damaged
    but fails the [zombie in self.zombies] test, with no visible effect. *)
Definition damage_targets (g : game) (targets : list zombie) (damage now : Z) : game :=
  fold_left (fun g t =>
    match find_zombie (zid t) (game_zombies g) with
    | None => g
    | Some z =>
        let (z', died) := zombie_take_damage z damage now in
        let g := set_zombies g (replace_zombie z' (game_zombies g)) in
        if died then on_zombie_killed g z' now else g
    end) targets g.

(** The [for grenade in self.grenades[:]] loop; [kept] holds the processed
    grenades that stay in the list.  A fatal blast sets the game to lost and
    returns from [update_game] with the remaining grenades untouched. *)
Fixpoint grenade_loop (gs kept : list grenade) (g : game) (now : Z) : game :=
  match gs with
  | [] => set_grenades g (rev kept)
  | gr :: rest =>
      let gr := grenade_update gr in
      let gr := if negb (exploded gr)
                then fst (grenade_check_collision gr (game_zombies g) (obstacles g)) else gr in
      let next (g : game) :=
        if grenade_is_finished gr || grenade_is_out_of_bounds gr
        then grenade_loop rest kept g now
        else grenade_loop rest (gr :: kept) g now in
      if exploded gr then
        let (damaged, player_in_range) := get_explosion_damage_targets gr (game_zombies g) (gplayer g) in
        let g := damage_targets g damaged (gdamage gr) now in
        if player_in_range then
          let (p, died) := player_take_damage (gplayer g) in
          let g := set_player g p in
          if died then set_state (set_grenades g (rev kept ++ gr :: rest)) Lost
          else next g
        else next g
      else next g
  end.

Definition grenade_phase (g : game) (now : Z) : game :=
  grenade_loop (grenades (ents g)) [] g now.

(** The first loop of [update_game]: move bullets, drop the ones that hit an
    obstacle or left the map. *)
Definition bullet_move_phase (g : game) (now : Z) : game :=
  set_bullets g (fold_right (fun b acc =>
    let (b', hit) := bullet_update b (obstacles g) (game_zombies g) now in
    if hit || bullet_is_out_of_bounds b' then acc else b' :: acc) [] (bullets (ents g))).

(** [for zombie in self.zombies: zombie.update(..., self.zombies)]: each
    zombie sees the already-updated positions of the ones before it. *)
Fixpoint zombie_move_loop (done todo : list zombie) (player_x player_y : F)
    (obstacles : list rect) (r : R) : list zombie * R :=
  match todo with
  | [] => (rev done, r)
  | z :: rest =>
      let (z', r') := zombie_update z player_x player_y obstacles (Some (rev done ++ todo)) r in
      zombie_move_loop (z' :: done) rest player_x player_y obstacles r'
  end.

Definition zombie_move_phase (g : game) (r : R) : game * R :=
  let (zs, r') := zombie_move_loop [] (game_zombies g) (px (gplayer g)) (py (gplayer g))
                    (obstacles g) r in
  (set_zombies g zs, r').

(** [Game._spawn_single_zombie]: up to [max_attempts] random points. *)
Fixpoint spawn_attempts (n : nat) (g : game) (k : zkind) (r : R) : game * R :=
  match n with
  | O => (g, r)
  | S n' =>
      let (x, r) := randint 50 (MAP_SIZE - 50) r in
      let (y, r) := randint 50 (MAP_SIZE - 50) r in
      let p := gplayer g in
      let distance_to_player := fsqrt (sq (fofZ x -. px p) +. sq (fofZ y -. py p)) in
      if flt (fofZ ZOMBIE_MIN_SPAWN_DISTANCE) distance_to_player then
        let z := new_zombie k (next_id (ents g)) (fofZ x) (fofZ y) in
        if negb (check_collision z (fofZ x) (fofZ y) (obstacles g) None)
        then (set_next_id (set_zombies g (game_zombies g ++ [z])) (S (next_id (ents g))), r)
        else spawn_attempts n' g k r
      else spawn_attempts n' g k r
  end.

Definition spawn_single_zombie (g : game) (k : zkind) (r : R) : game * R :=
  spawn_attempts 100 g k r.

(** [n] classes drawn with [random.random() < threshold]. *)
Fixpoint draw_classes (n : nat) (threshold : F) (r : R) : list zkind * R :=
  match n with
  | O => ([], r)
  | S n' =>
      let (u, r) := random_random r in
      let k := if flt u threshold then Fast else Standard in
      let (ks, r) := draw_classes n' threshold r in (k :: ks, r)
  end.

Definition set_spawn_counts (s : spawn_state) (timer spawned : Z) (bs : bool) (wave : Z) : spawn_state :=
  mk_spawn timer spawned (max_zombies s) (spawn_interval s) (zombies_per_wave s) bs
    (boss_killed s) wave.

Fixpoint spawn_wave_members (ks : list zkind) (g : game) (r : R) : game * R :=
  match ks with
  | [] => (g, r)
  | k :: rest =>
      let s := spawner g in
      if zombies_spawned s <? max_zombies s then
        let (g, r) := spawn_single_zombie g k r in
        let s := spawner g in
        let g := set_spawner g (set_spawn_counts s (zombie_spawn_timer s) (zombies_spawned s + 1)
                                  (boss_spawned s) (current_wave s)) in
        spawn_wave_members rest g r
      else spawn_wave_members rest g r
  end.

(** [Game._spawn_zombie_wave]. *)
Definition spawn_zombie_wave (g : game) (now : Z) (r : R) : game * R :=
  let s := spawner g in
  if boss_killed s then (g, r)
  else if (spawn_interval s <? now - zombie_spawn_timer s) && (zombies_spawned s <? max_zombies s) then
    let n := Z.to_nat (zombies_per_wave s) in
    let '(wave_zombies, bs, r) :=
      if current_wave s <? 2 then let (ks, r) := draw_classes n (flit (15 # 100)) r in (ks, boss_spawned s, r)
      else if current_wave s <? 4 then let (ks, r) := draw_classes n (flit (3 # 10)) r in (ks, boss_spawned s, r)
      else if negb (boss_spawned s) then (Boss :: repeat Fast (Z.to_nat (zombies_per_wave s - 1)), true, r)
      else (repeat Fast n, boss_spawned s, r) in
    let g := set_spawner g (set_spawn_counts s (zombie_spawn_timer s) (zombies_spawned s) bs
                              (current_wave s)) in
    let (g, r) := spawn_wave_members wave_zombies g r in
    let s := spawner g in
    (set_spawner g (set_spawn_counts s now (zombies_spawned s) (boss_spawned s) (current_wave s + 1)), r)
  else (g, r).

(** The power-up loop of [update_game]. *)
Definition powerup_phase (g : game) (now : Z) : game :=
  let '(us, p) := fold_left (fun '(acc, p) u =>
      let (u', picked) := powerup_update_and_check u (px p) (py p) in
      if picked then (acc, activate_insta_kill p (duration u') now) else (acc ++ [u'], p))
    (powerups (ents g)) ([], gplayer g) in
  set_player (set_powerups g us) p.

(** First zombie (in list order) that a bullet touches. *)
Definition bullet_target (b : bullet) (zs : list zombie) : option zombie :=
  find (fun z => flt (dist (bx b) (by_ b) (zx z) (zy z)) (fofZ (bsize b + zsize z))) zs.

(** The bullet-zombie collision loop: first hit wins, the bullet is removed. *)
Fixpoint bullet_hit_loop (bs kept : list bullet) (g : game) (now : Z) : game :=
  match bs with
  | [] => set_bullets g (rev kept)
  | b :: rest =>
      match bullet_target b (game_zombies g) with
      | None => bullet_hit_loop rest (b :: kept) g now
      | Some z =>
          let (z', died) := zombie_take_damage z (bdamage b) now in
          let g := set_zombies g (replace_zombie z' (game_zombies g)) in
          let g := if died then on_zombie_killed g z' now else g in
          bullet_hit_loop rest kept g now
      end
  end.

Definition bullet_hit_phase (g : game) (now : Z) : game :=
  bullet_hit_loop (bullets (ents g)) [] g now.

(** The zombie-player contact pass with its one-second cooldown; the boolean
    reports whether a hit was applied. *)
Definition contact_phase (g : game) (now : Z) : game * bool :=
  if 1000 <? now - last_zombie_damage g then
    match find (fun z => can_damage_player z (px (gplayer g)) (py (gplayer g))) (game_zombies g) with
    | None => (g, false)
    | Some _ =>
        let (p, died) := player_take_damage (gplayer g) in
        let g := set_player g p in
        if died then (set_state g Lost, true)
        else (set_last_zombie_damage g now, true)
    end
  else (g, false).

(** The weapon-pickup loop. *)
Definition pickup_phase (g : game) : game :=
  let '(ks, p) := fold_left (fun '(acc, p) k =>
      let (k', picked) := weapon_check_pickup k (px p) (py p) in
      (acc ++ [k'], if picked then add_weapon p (weapon_type k') else p))
    (weapon_pickups (ents g)) ([], gplayer g) in
  set_player (set_pickups g ks) p.

Definition win_check (g : game) : game :=
  let p := gplayer g in
  let prect := mk_rect (rect_coord (px p -. fofZ (psize p / 2))) (rect_coord (py p -. fofZ (psize p / 2)))
                 (psize p) (psize p) in
  if colliderect prect (exit_rect g) then set_state g Won else g.

(** [Game.update_game], one tick at clock [now].  [None] is an exception
    escaping the tick; the boolean reports whether the contact pass hit the
    player (an observation: the Python method returns nothing). *)
Definition update_game (g : game) (now : Z) (r : R) : option (game * R * bool) :=
  if negb (is_playing (game_state g)) then Some (g, r, false) else
  let g := bullet_move_phase g now in
  let g := grenade_phase g now in
  if negb (is_playing (game_state g)) then Some (g, r, false) else
  let (g, r) := zombie_move_phase g r in
  match update_reload (gplayer g) now with
  | None => None
  | Some p =>
      let g := set_player g (update_powerups p now) in
      let (g, r) := spawn_zombie_wave g now r in
      let g := powerup_phase g now in
      let g := bullet_hit_phase g now in
      let (g, hit) := contact_phase g now in
      if negb (is_playing (game_state g)) then Some (g, r, hit) else
      let g := pickup_phase g in
      Some (win_check g, r, hit)
  end.

(** Ticks at the given clock readings; returns the last state and the clock
    readings at which the contact pass hit the player. *)
Fixpoint run (g : game) (times : list Z) (r : R) : game * list Z :=
  match times with
  | [] => (g, [])
  | t :: ts =>
      match update_game g t r with
      | None => (g, [])
      | Some (g', r', hit) =>
          let (gf, hits) := run g' ts r' in (gf, if hit then t :: hits else hits)
      end
  end.

End Sim.

Section Runs.

Context {F R : Type} {FO : FloatOps F} {RO : RandomOps F R}.

(** Successive [add_kill] calls; returns the player and the bonuses returned. *)
Fixpoint kill_run (p : @player F) (ks : list kill_type) : @player F * list Z :=
  match ks with
  | [] => (p, [])
  | k :: rest =>
      let (p', b) := add_kill p k in
      let (pf, bs) := kill_run p' rest in (pf, b :: bs)
  end.

(** [update_reload] called at each clock reading in turn. *)
Definition reload_run (p : @player F) (times : list Z) : option (@player F) :=
  fold_left (fun op t => match op with Some p => update_reload p t | None => None end) times (Some p).

(** Contact hits that are more than one second apart, each after [l]. *)
Fixpoint spaced_after (l : Z) (hits : list Z) : Prop :=
  match hits with
  | [] => True
  | h :: rest => l + 1000 < h /\ spaced_after h rest
  end.

(** Clock readings falling in the one-second window [[a, a + 1000]]. *)
Definition in_window (a : Z) (hits : list Z) : list Z :=
  filter (fun t => (a <=? t) && (t <=? a + 1000)) hits.

End Runs.

(** Clock readings that never go backwards, starting from [t0]. *)
Fixpoint nondecreasing (t0 : Z) (ts : list Z) : bool :=
  match ts with
  | [] => true
  | t :: rest => (t0 <=? t) && nondecreasing t rest
  end.

(** ** A concrete instance, for evaluating the model on examples

    Rationals stand in for doubles (square root, cosine and sine by truncated
    expansions, [finf] by a large bound), and a linear congruential generator
    stands in for the Mersenne Twister. *)

Definition q_sqrt (q : Q) : Q :=
  Qmake (Z.sqrt (Qnum q * Zpos (Qden q) * 1000000)) (Qden q * 1000).

Definition q_cos (x : Q) : Q :=
  Qred (1 - x * x / 2 + x * x * x * x / 24 - x * x * x * x * x * x / 720)%Q.

Definition q_sin (x : Q) : Q :=
  Qred (x - x * x * x / 6 + x * x * x * x * x / 120)%Q.

Definition q_pi : Q := 355 # 113.

Definition q_atan (t : Q) : Q := Qred (t - t * t * t / 3 + t * t * t * t * t / 5)%Q.

Definition q_atan2 (y x : Q) : Q :=
  if Qeq_bool x 0 then
    (if Qle_bool 0 y then q_pi / 2 else - (q_pi / 2))%Q
  else if Qle_bool 0 x then q_atan (y / x)
  else if Qle_bool 0 y then (q_atan (y / x) + q_pi)%Q
  else (q_atan (y / x) - q_pi)%Q.

#[global] Instance Q_float : FloatOps Q := {
  fadd := Qplus; fsub := Qminus; fmul := Qmult; fdiv := Qdiv; fneg := Qopp;
  fsqrt := q_sqrt; fcos := q_cos; fsin := q_sin; fatan2 := q_atan2;
  flt := fun a b => negb (Qle_bool b a); fle := Qle_bool;
  fofZ := inject_Z; flit := fun q => q; fpi := q_pi; finf := inject_Z 1000000000;
  rect_coord := fun q => Z.quot (Qnum q) (Zpos (Qden q))
}.

Definition lcg (s : Z) : Z := (1103515245 * s + 12345) mod 2147483648.

#[global] Instance Z_random : RandomOps Q Z := {
  random_random := fun s => ((s mod 10000) # 10000, lcg s);
  randint := fun a b s => (a + s mod (b - a + 1), lcg s)
}.

Definition initial_ammo (w : weapon) : amount :=
  match w with
  | PISTOL => Fin 12 | SHOTGUN => Fin 5 | MACHINE_GUN => Fin 30 | GRENADE => Inf | MINIGUN => Fin 200
  end.

(** [Player(100, 100)]: Nathan with a pistol and grenades. *)
Definition sample_player : @player Q :=
  mk_player (100 # 1) (100 # 1) 20 5 PLAYER_MAX_HEALTH PLAYER_MAX_HEALTH [Some PISTOL; Some GRENADE] 0 0 2
    initial_ammo no_reload false 0 (mk_scoring 0 0 0 0 0 0 0) (mk_hero NATHAN 0 false 0).

(** A game in the playing state with the given zombies, grenades and obstacles. *)
Definition sample_game (zs : list (@zombie Q)) (gs : list (@grenade Q)) (obs : list rect) : @game Q :=
  mk_game sample_player (mk_entities [] gs zs [] [] 10) obs (mk_rect 1400 1400 80 80)
    (mk_spawn 0 0 100 5000 7 false false 0) 0 Playing None 0.

(** A grenade thrown east from the player's position towards a wall 20 px
    away: it detonates on the third tick, within blast range of the player. *)
Definition c1_game : @game Q :=
  sample_game [] [new_grenade (100 # 1) (100 # 1) (inject_Z 6) (0 # 1) 5 80]
    [mk_rect 120 90 20 20].

(** Clock readings of seven ticks at about 60 frames per second. *)
Definition c1_ticks : list Z := [100; 117; 134; 151; 168; 185; 202].

(** A player holding only a shotgun, with [n] shells. *)
Definition shotgun_player (n : Z) : @player Q :=
  set_ammo (set_weapons sample_player [Some SHOTGUN]) SHOTGUN (Fin n).

(** * The rest of the player and of the game loop *)

Section More.

Context {F R : Type} {FO : FloatOps F} {RO : RandomOps F R}.

Local Infix "+." := fadd (at level 50, left associativity).
Local Infix "-." := fsub (at level 50, left associativity).

(** [Player.__init__]. *)
Definition new_player (x y : F) (hero_type : hero) : player :=
  mk_player x y 20 5 PLAYER_MAX_HEALTH PLAYER_MAX_HEALTH [Some PISTOL; Some GRENADE] 0 0 2
    initial_ammo no_reload false 0 (mk_scoring 0 0 0 0 0 0 0) (mk_hero hero_type 0 false 0).

Definition set_ppos (p : @player F) (x y : F) : player :=
  mk_player x y (psize p) (pspeed p) (phealth p) (pmax_health p) (weapons p)
    (current_weapon_index p) (last_shot p) (grenade_count p) (ammo p) (reload p)
    (insta_kill_active p) (insta_kill_end_time p) (scores p) (heroes p).

Definition set_weapon_index (p : @player F) (i : nat) : player :=
  mk_player (px p) (py p) (psize p) (pspeed p) (phealth p) (pmax_health p) (weapons p)
    i (last_shot p) (grenade_count p) (ammo p) (reload p)
    (insta_kill_active p) (insta_kill_end_time p) (scores p) (heroes p).

(** Python's [min(b, x)] and [max(a, x)]: the first argument unless the
    second is strictly smaller (larger). *)
Definition py_min (b x : F) : F := if flt x b then x else b.
Definition py_max (a x : F) : F := if flt a x then x else a.

(** [Player._check_collision]. *)
Definition player_check_collision (p : @player F) (x y : F) (obstacles : list rect) : bool :=
  existsb (colliderect (mk_rect (rect_coord (x -. fofZ (psize p / 2)))
                          (rect_coord (y -. fofZ (psize p / 2))) (psize p) (psize p)))
    obstacles.

(** [Player.move], with the direction components [dx], [dy] in {-1, 0, 1}
    as [handle_input] passes them. *)
Definition player_move (p : @player F) (dx dy : Z) (obstacles : list rect) : player :=
  let new_x := px p +. fofZ (dx * pspeed p) in
  let new_y := py p +. fofZ (dy * pspeed p) in
  let p := if negb (player_check_collision p new_x new_y obstacles)
           then set_ppos p new_x new_y else p in
  let p := set_ppos p (py_max (fofZ (psize p)) (py_min (fofZ (1500 - psize p)) (px p))) (py p) in
  set_ppos p (px p) (py_max (fofZ (psize p)) (py_min (fofZ (1500 - psize p)) (py p))).

(** The [for _ in range(len(self.weapons))] loop of [Player.switch_weapon]. *)
Fixpoint switch_loop (fuel : nat) (ws : list (option weapon)) (idx : nat) (direction : Z) : nat :=
  match fuel with
  | O => idx
  | S fuel' =>
      let idx := Z.to_nat ((Z.of_nat idx + direction) mod Z.of_nat (length ws)) in
      match nth_error ws idx with
      | Some (Some _) => idx
      | _ => switch_loop fuel' ws idx direction
      end
  end.

(** [Player.switch_weapon]. *)
Definition switch_weapon (p : @player F) (direction : Z) : player :=
  let p := clear_reload_state p in
  set_weapon_index p (switch_loop (length (weapons p)) (weapons p) (current_weapon_index p) direction).

(** [Player.switch_to_weapon_slot]. *)
Definition switch_to_weapon_slot (p : @player F) (slot_index : Z) : player :=
  if (0 <=? slot_index) && (slot_index <? Z.of_nat (length (weapons p))) &&
     match nth_error (weapons p) (Z.to_nat slot_index) with Some (Some _) => true | _ => false end
  then set_weapon_index (clear_reload_state p) (Z.to_nat slot_index)
  else p.

(** [Player.activate_hero_ability]: returns whether the ability fired. *)
Definition activate_hero_ability (p : @player F) (now : Z) : player * bool :=
  let h := heroes p in
  if 100 <=? ability_charge h then
    let p := match hero_type h with
             | NATHAN => set_heroes p (mk_hero NATHAN (ability_charge h) true (now + 10000))
             | KELLY => set_phealth p (pmax_health p)
             end in
    let h := heroes p in
    (set_heroes p (mk_hero (hero_type h) 0 (ability_active h) (ability_end_time h)), true)
  else (p, false).

(** The obstacle loop of [Game._generate_map], appending to [self.obstacles]. *)
Fixpoint generate_obstacles (n : nat) (obstacles : list rect) (r : R) : list rect * R :=
  match n with
  | O => (obstacles, r)
  | S n' =>
      let (x, r) := randint 50 (MAP_SIZE - 50) r in
      let (y, r) := randint 50 (MAP_SIZE - 50) r in
      let (width, r) := randint 30 80 r in
      let (height, r) := randint 30 80 r in
      generate_obstacles n' (obstacles ++ [mk_rect x y width height]) r
  end.

(** [Game._generate_map]: the obstacles and the exit. *)
Definition generate_map (obstacles : list rect) (r : R) : list rect * rect * R :=
  let (obs, r) := generate_obstacles 30 obstacles r in
  (obs, mk_rect (MAP_SIZE - 100) (MAP_SIZE - 100) 80 80, r).

(** The [max_attempts] loop of [_spawn_weapon_pickups] and [_spawn_powerups]:
    a random point whose square [Rect(x - off, y - off, side, side)] meets
    no obstacle. *)
Fixpoint place_attempts (n : nat) (off side : Z) (obstacles : list rect) (r : R)
    : option (Z * Z) * R :=
  match n with
  | O => (None, r)
  | S n' =>
      let (x, r) := randint 100 (MAP_SIZE - 100) r in
      let (y, r) := randint 100 (MAP_SIZE - 100) r in
      if negb (existsb (colliderect (mk_rect (x - off) (y - off) side side)) obstacles)
      then (Some (x, y), r)
      else place_attempts n' off side obstacles r
  end.

(** [Game._spawn_weapon_pickups]. *)
Definition spawn_weapon_pickups (ks : list (@weapon_pickup F)) (obstacles : list rect) (r : R)
    : list weapon_pickup * R :=
  fold_left (fun '(ks, r) w =>
      let (res, r) := place_attempts 50 15 30 obstacles r in
      match res with
      | Some (x, y) => (ks ++ [new_weapon_pickup (fofZ x) (fofZ y) w], r)
      | None => (ks, r)
      end)
    [MACHINE_GUN; SHOTGUN; GRENADE; MACHINE_GUN; GRENADE] (ks, r).

(** [InstaKillPowerUp.__init__]. *)
Definition new_insta_kill (x y : F) : powerup := mk_powerup x y 20 false 0 10000.

(** [Game._spawn_powerups]. *)
Definition spawn_powerups (us : list (@powerup F)) (obstacles : list rect) (r : R) : list powerup * R :=
  let (res, r) := place_attempts 50 20 40 obstacles r in
  match res with
  | Some (x, y) => (us ++ [new_insta_kill (fofZ x) (fofZ y)], r)
  | None => (us, r)
  end.

(** [Game.restart_game]. *)
Definition restart_game (g : @game F) (selected_hero : hero) (r : R) : game * R :=
  let '(obs, exit, r) := generate_map [] r in
  let (ks, r) := spawn_weapon_pickups [] obs r in
  let (us, r) := spawn_powerups [] obs r in
  let s := spawner g in
  (mk_game (new_player (fofZ 100) (fofZ 100) selected_hero)
     (mk_entities [] [] [] ks us (next_id (ents g))) obs exit
     (mk_spawn 0 0 (max_zombies s) (spawn_interval s) (zombies_per_wave s) false false 0)
     0 Playing None 0, r).

(** [for _ in range(n): self._spawn_single_zombie(zombie_class)]. *)
Fixpoint spawn_repeat (n : nat) (k : zkind) (g : @game F) (r : R) : game * R :=
  match n with
  | O => (g, r)
  | S n' => let (g, r) := spawn_single_zombie g k r in spawn_repeat n' k g r
  end.

(** [Game._spawn_zombies]. *)
Definition spawn_zombies (g : @game F) (count : Z) (r : R) : game * R :=
  let fast_zombie_count := count / 5 in
  let normal_zombie_count := count - fast_zombie_count in
  let (g, r) := spawn_repeat (Z.to_nat normal_zombie_count) Standard g r in
  spawn_repeat (Z.to_nat fast_zombie_count) Fast g r.

(** The events [Game.run] reacts to. *)
Inductive key := K_RETURN | K_ESCAPE | K_1 | K_2 | K_UP | K_DOWN | K_r | K_other.

Inductive event := QUIT | KEYDOWN (k : key) | MOUSEBUTTONDOWN (button : Z).

(** The game object together with the [running] flag of [Game.run]. *)
Record session := mk_session { sgame : @game F; selected_hero : hero; running : bool }.

(** One iteration of the [for event in pygame.event.get()] loop of [Game.run]. *)
Definition handle_event (s : session) (ev : event) (r : R) : session * R :=
  let g := sgame s in
  match ev with
  | QUIT => (mk_session g (selected_hero s) false, r)
  | KEYDOWN k =>
      match game_state g with
      | Menu =>
          match k with
          | K_RETURN => (mk_session (set_state g HeroSelect) (selected_hero s) (running s), r)
          | K_ESCAPE => (mk_session g (selected_hero s) false, r)
          | _ => (s, r)
          end
      | HeroSelect =>
          match k with
          | K_1 | K_UP => (mk_session g NATHAN (running s), r)
          | K_2 | K_DOWN => (mk_session g KELLY (running s), r)
          | K_RETURN =>
              (mk_session (set_state (set_player g (new_player (fofZ 100) (fofZ 100) (selected_hero s)))
                             Playing) (selected_hero s) (running s), r)
          | K_ESCAPE => (mk_session (set_state g Menu) (selected_hero s) (running s), r)
          | _ => (s, r)
          end
      | Won | Lost =>
          match k with
          | K_r => let (g, r) := restart_game g (selected_hero s) r in
                   (mk_session g (selected_hero s) (running s), r)
          | _ => (s, r)
          end
      | Playing => (s, r)
      end
  | MOUSEBUTTONDOWN button =>
      if is_playing (game_state g) then
        if button =? 4 then
          (mk_session (set_player g (switch_weapon (gplayer g) (-1))) (selected_hero s) (running s), r)
        else if button =? 5 then
          (mk_session (set_player g (switch_weapon (gplayer g) 1)) (selected_hero s) (running s), r)
        else (s, r)
      else (s, r)
  end.

(** A sequence of events, handled in order. *)
Fixpoint handle_events (s : session) (evs : list event) (r : R) : session * R :=
  match evs with
  | [] => (s, r)
  | ev :: rest => let (s, r) := handle_event s ev r in handle_events s rest r
  end.

(** The ammunition bookkeeping the player code keeps: a magazine count
    within [[0, max_ammo]], [inf] for the grenade, and a non-negative
    [grenade_count]. *)
Definition ammo_in_range (max_ammo a : amount) : bool :=
  match max_ammo, a with
  | Fin m, Fin n => (0 <=? n) && (n <=? m)
  | Inf, Inf => true
  | _, _ => false
  end.

Definition ammo_okb (p : @player F) : bool :=
  forallb (fun w => ammo_in_range (w_max_ammo (WEAPON_STATS w)) (ammo p w))
    [PISTOL; SHOTGUN; MACHINE_GUN; GRENADE; MINIGUN] && (0 <=? grenade_count p).

(** Some slot holds a weapon. *)
Definition has_any_weapon (ws : list (option weapon)) : bool :=
  existsb (fun o => match o with Some _ => true | None => false end) ws.

(** The stuck and avoidance counters of a zombie within [[0, 60]]. *)
Definition zombie_counters_ok (z : @zombie F) : Prop :=
  0 <= stuck_counter z <= 60 /\ 0 <= avoidance_timer z <= 60.

End More.

(** * Properties *)

Section Props.

Context {F R : Type} {FO : FloatOps F} {RO : RandomOps F R}.

(** ** Kill streak bonuses *)

Lemma add_kill_score (p : @player F) (k : kill_type) :
  score (scores (fst (add_kill p k))) =
  score (scores p) + (match k with normal => 100 | fast => 150 | boss => 1500 end) + snd (add_kill p k).
Proof.
  unfold add_kill; destruct k; cbn;
  match goal with |- context [if ?c then _ else _] => destruct c end; cbn; lia.
Qed.

Lemma add_kill_streak (p : @player F) (k : kill_type) (n : Z) :
  0 <= n -> kills_without_hit (scores p) = n -> last_skill_bonus_at (scores p) = n / 10 * 10 ->
  kills_without_hit (scores (fst (add_kill p k))) = n + 1 /\
  last_skill_bonus_at (scores (fst (add_kill p k))) = (n + 1) / 10 * 10 /\
  snd (add_kill p k) = (if (n + 1) mod 10 =? 0 then (n + 1) * 50 else 0).
Proof.
  intros Hn Hk Hl. unfold add_kill.
  destruct k; cbn; rewrite Hk, Hl;
  destruct (Z.eqb_spec ((n + 1) mod 10) 0) as [E | E].
  all: try (assert (Hm : (n + 1) / 10 * 10 = n + 1 /\ n / 10 * 10 = n + 1 - 10)
              by (Z.div_mod_to_equations; lia);
            destruct Hm as [Hm1 Hm2]; rewrite Hm1, Hm2;
            replace (n + 1 - 10 <? n + 1) with true by (symmetry; apply Z.ltb_lt; lia);
            replace (10 <=? n + 1) with true by (symmetry; apply Z.leb_le; Z.div_mod_to_equations; lia);
            cbn; repeat split; lia).
  all: assert (Hm : (n + 1) / 10 = n / 10) by (Z.div_mod_to_equations; lia);
       rewrite Hm; rewrite Z.ltb_irrefl; cbn; repeat split; lia.
Qed.

Lemma kill_run_bonuses (ks : list kill_type) :
  forall (p : @player F) (n : Z) (i : nat),
  0 <= n -> kills_without_hit (scores p) = n -> last_skill_bonus_at (scores p) = n / 10 * 10 ->
  (i < length ks)%nat ->
  nth i (snd (kill_run p ks)) 0 =
  (let m := n + Z.of_nat (S i) in if m mod 10 =? 0 then m * 50 else 0).
Proof.
  induction ks as [| k ks IH]; intros p n i Hn Hk Hl Hi; cbn in Hi; [lia |].
  cbn. destruct (add_kill p k) as [p' b] eqn:E.
  destruct (add_kill_streak p k n Hn Hk Hl) as [H1 [H2 H3]]. rewrite E in H1, H2, H3. cbn in H1, H2, H3.
  destruct (kill_run p' ks) as [pf bs] eqn:E2. cbn.
  destruct i as [| i].
  - rewrite H3. cbn. replace (n + 1) with (n + Z.pos 1) by lia. reflexivity.
  - specialize (IH p' (n + 1) i ltac:(lia) H1 H2 ltac:(lia)).
    rewrite E2 in IH. cbv zeta in IH. cbn [snd] in IH. rewrite IH.
    replace (n + 1 + Z.of_nat (S i)) with (n + Z.pos (Pos.of_succ_nat (S i))) by lia.
    reflexivity.
Qed.

(** C3: from a fresh streak (never hit), the k-th kill returns and adds a
    bonus of 50 k exactly when k is a multiple of ten and 0 otherwise: the
    10th kill grants 500, the 11th to 19th nothing, the 20th 1000, and no
    milestone is rewarded twice; each kill adds its points plus its bonus to
    the score. *)
Theorem streak_bonus_milestones (p : @player F) (ks : list kill_type)
    (Hk : kills_without_hit (scores p) = 0) (Hl : last_skill_bonus_at (scores p) = 0) :
  (forall i : nat, (i < length ks)%nat ->
     nth i (snd (kill_run p ks)) 0 =
     (if Z.of_nat (S i) mod 10 =? 0 then Z.of_nat (S i) * 50 else 0)) /\
  (forall (q : @player F) (k : kill_type),
     score (scores (fst (add_kill q k))) =
     score (scores q) + (match k with normal => 100 | fast => 150 | boss => 1500 end) +
     snd (add_kill q k)).
Proof.
  split.
  - intros i Hi. rewrite (kill_run_bonuses ks p 0 i ltac:(lia) Hk ltac:(rewrite Hl; reflexivity) Hi).
    reflexivity.
  - apply add_kill_score.
Qed.

(** ** Boss damage *)

(** C5: the boss loses [d / 500] health for [d >= 1000] and [d] otherwise;
    a full-health boss survives the instant-kill damage 1000 with 28 health. *)
Theorem boss_take_damage_attenuated (z : @zombie F) (d now : Z) (Hb : zkind_of z = Boss) :
  zhealth (fst (zombie_take_damage z d now)) = zhealth z - (if 1000 <=? d then d / 500 else d) /\
  (forall (id : nat) (x y : F) (t : Z),
     zhealth (fst (zombie_take_damage (new_zombie Boss id x y) 1000 t)) = 28 /\
     snd (zombie_take_damage (new_zombie Boss id x y) 1000 t) = false).
Proof.
  split.
  - unfold zombie_take_damage. rewrite Hb. reflexivity.
  - intros. split; reflexivity.
Qed.

(** ** Boss-death conversion *)

Lemma to_fast_fields (z : @zombie F) (n : nat) :
  zkind_of (to_fast z n) = Fast /\ zx (to_fast z n) = zx z /\ zy (to_fast z n) = zy z /\
  zhealth (to_fast z n) = zhealth z /\ zmax_health (to_fast z n) = FAST_ZOMBIE_HEALTH.
Proof. repeat split. Qed.

(** ** Shooting during a shotgun reload *)

(** C9: shooting a loaded shotgun during its reload inside the 500 ms
    cooldown produces nothing but still clears the reloading flag. *)
Theorem shoot_on_cooldown_clears_reload (p : @player F) (tx ty : F) (now a : Z)
    (Hw : get_current_weapon p = Some SHOTGUN) (Hr : is_reloading (reload p) = true)
    (Ha : ammo p SHOTGUN = Fin a) (Ha1 : 1 <= a) (Hc : now - last_shot p <= 500) :
  shoot p tx ty now = (set_reloading_flag p false, ([], [])) /\
  is_reloading (reload p) = true /\
  is_reloading (reload (fst (shoot p tx ty now))) = false.
Proof.
  assert (E : shoot p tx ty now = (set_reloading_flag p false, ([], []))).
  { unfold shoot. rewrite Hw, Hr. cbn. rewrite Ha. cbn.
    replace (a <? 1) with false by (symmetry; apply Z.ltb_ge; lia).
    replace (0 <? a) with true by (symmetry; apply Z.ltb_lt; lia). cbn.
    replace (500 <? now - last_shot p) with false by (symmetry; apply Z.ltb_ge; lia).
    reflexivity. }
  rewrite E. repeat split; auto.
Qed.

(** ** Shotgun reload *)

Lemma load_shells_shotgun (n : nat) :
  forall (p : @player F) (a due : Z),
  ammo p SHOTGUN = Fin a -> shotgun_shells_reloaded (reload p) = a -> 0 <= a <= 5 ->
  Z.of_nat n = due - a ->
  ammo (load_shells n p SHOTGUN due (Fin 5)) SHOTGUN = Fin (Z.min 5 due) /\
  shotgun_shells_reloaded (reload (load_shells n p SHOTGUN due (Fin 5))) = Z.min 5 due /\
  is_reloading (reload (load_shells n p SHOTGUN due (Fin 5))) = is_reloading (reload p) /\
  reload_start_time (reload (load_shells n p SHOTGUN due (Fin 5))) = reload_start_time (reload p) /\
  reload_weapon (reload (load_shells n p SHOTGUN due (Fin 5))) = reload_weapon (reload p).
Proof.
  induction n as [| n IH]; intros p a due Ha Hs Hb Hn.
  - cbn. rewrite Ha, Hs. replace (Z.min 5 due) with a by lia. repeat split.
  - cbn [load_shells]. rewrite Hs, Ha. cbn [amount_lt].
    replace (a <? due) with true by (symmetry; apply Z.ltb_lt; lia).
    destruct (Z.ltb_spec a 5) as [H5 | H5]; cbn [andb].
    + destruct (IH (set_reload (set_ammo p SHOTGUN (amount_add (ammo p SHOTGUN) 1))
                   (mk_reload (is_reloading (reload p)) (reload_start_time (reload p))
                      (reload_weapon (reload p)) (shotgun_shells_reloaded (reload p) + 1)))
                   (a + 1) due) as [H1 [H2 [H3 [H4 H6]]]].
      * cbn. rewrite Ha. reflexivity.
      * cbn. rewrite Hs. reflexivity.
      * lia.
      * lia.
      * rewrite <- Ha, <- Hs. repeat split; [exact H1 | exact H2 | exact H3 | exact H4 | exact H6].
    + rewrite Ha, Hs. replace (Z.min 5 due) with a by lia. repeat split.
Qed.

Lemma shotgun_reload_step (p : @player F) (t0 t t' : Z) :
  t0 <= t -> t <= t' ->
  reload_weapon (reload p) = Some SHOTGUN -> reload_start_time (reload p) = t0 ->
  ammo p SHOTGUN = Fin (Z.min 5 ((t - t0) / 1000)) ->
  shotgun_shells_reloaded (reload p) = Z.min 5 ((t - t0) / 1000) ->
  is_reloading (reload p) = ((t - t0) / 1000 <? 5) ->
  exists p', update_reload p t' = Some p' /\
    reload_weapon (reload p') = Some SHOTGUN /\ reload_start_time (reload p') = t0 /\
    ammo p' SHOTGUN = Fin (Z.min 5 ((t' - t0) / 1000)) /\
    shotgun_shells_reloaded (reload p') = Z.min 5 ((t' - t0) / 1000) /\
    is_reloading (reload p') = ((t' - t0) / 1000 <? 5).
Proof.
  intros H0 Ht Hw Hst Ha Hs Hr.
  assert (Hd0 : 0 <= (t - t0) / 1000) by (apply Z.div_pos; lia).
  assert (Hdd : (t - t0) / 1000 <= (t' - t0) / 1000) by (apply Z.div_le_mono; lia).
  destruct (Z.ltb_spec ((t - t0) / 1000) 5) as [Hlt | Hge].
  - unfold update_reload. rewrite Hr, Hw. cbn [negb WEAPON_STATS w_reload_time w_max_ammo].
    rewrite Hst, Hs.
    replace (Z.min 5 ((t - t0) / 1000)) with ((t - t0) / 1000) in * by lia.
    destruct (load_shells_shotgun (Z.to_nat ((t' - t0) / 1000 - (t - t0) / 1000)) p
                ((t - t0) / 1000) ((t' - t0) / 1000) Ha Hs ltac:(lia) ltac:(lia))
      as [H1 [H2 [H3 [H4 H5]]]].
    rewrite H1. unfold amount_ge, amount_lt.
    destruct (Z.ltb_spec (Z.min 5 ((t' - t0) / 1000)) 5) as [L | L]; cbn [negb].
    + eexists. split; [reflexivity |].
      rewrite H2, H3, H4, H5, Hw, Hst, Hr. repeat split; auto.
      symmetry. apply Z.ltb_lt. lia.
    + eexists. split; [reflexivity |]. cbn.
      rewrite H1, H2, H4, H5, Hw, Hst. repeat split; auto.
      symmetry. apply Z.ltb_ge. lia.
  - unfold update_reload. rewrite Hr.
    replace ((t - t0) / 1000 <? 5) with false by (symmetry; apply Z.ltb_ge; lia). cbn [negb].
    exists p. split; [reflexivity |].
    rewrite Hw, Hst, Ha, Hs, Hr.
    replace (Z.min 5 ((t - t0) / 1000)) with 5 by lia.
    replace (Z.min 5 ((t' - t0) / 1000)) with 5 by lia.
    replace ((t' - t0) / 1000 <? 5) with false by (symmetry; apply Z.ltb_ge; lia).
    replace ((t - t0) / 1000 <? 5) with false by (symmetry; apply Z.ltb_ge; lia).
    repeat split.
Qed.

Lemma last_cons (l : list Z) : forall x d : Z, last (x :: l) d = last l x.
Proof.
  induction l as [| y l IH]; intros x d; [reflexivity |].
  change (last (y :: l) d = last (y :: l) x). rewrite !IH. reflexivity.
Qed.

Lemma shotgun_reload_run (ts : list Z) :
  forall (p : @player F) (t0 t : Z),
  t0 <= t -> nondecreasing t ts = true ->
  reload_weapon (reload p) = Some SHOTGUN -> reload_start_time (reload p) = t0 ->
  ammo p SHOTGUN = Fin (Z.min 5 ((t - t0) / 1000)) ->
  shotgun_shells_reloaded (reload p) = Z.min 5 ((t - t0) / 1000) ->
  is_reloading (reload p) = ((t - t0) / 1000 <? 5) ->
  exists p', reload_run p ts = Some p' /\
    ammo p' SHOTGUN = Fin (Z.min 5 ((last ts t - t0) / 1000)) /\
    is_reloading (reload p') = ((last ts t - t0) / 1000 <? 5).
Proof.
  induction ts as [| t' ts IH]; intros p t0 t H0 Hn Hw Hst Ha Hs Hr.
  - exists p. cbn. auto.
  - cbn [nondecreasing] in Hn. apply andb_prop in Hn. destruct Hn as [Ht Hn].
    apply Z.leb_le in Ht.
    destruct (shotgun_reload_step p t0 t t' H0 Ht Hw Hst Ha Hs Hr)
      as [p' [E [H1 [H2 [H3 [H4 H5]]]]]].
    destruct (IH p' t0 t' ltac:(lia) Hn H1 H2 H3 H4 H5) as [pf [Ef Hf]].
    exists pf. split.
    + unfold reload_run in *. cbn [fold_left]. rewrite E. exact Ef.
    + replace (last (t' :: ts) t) with (last ts t').
      * exact Hf.
      * symmetry. apply last_cons.
Qed.

(** C4: an empty shotgun whose reload starts at [t0] and is then updated at
    non-decreasing clock readings holds, at the last reading [t], one shell
    per whole [reload_time] (1000 ms) elapsed, capped at the magazine size 5,
    and stays in the reloading state exactly until the magazine is full. *)
Theorem shotgun_reload_per_shell (p : @player F) (t0 : Z) (ts : list Z)
    (Hw : get_current_weapon p = Some SHOTGUN) (Ha : ammo p SHOTGUN = Fin 0)
    (Hr : is_reloading (reload p) = false) (Ht : nondecreasing t0 ts = true) :
  snd (start_reload p t0) = true /\
  exists p', reload_run (fst (start_reload p t0)) ts = Some p' /\
    ammo p' SHOTGUN = Fin (Z.min 5 ((last ts t0 - t0) / 1000)) /\
    is_reloading (reload p') = ((last ts t0 - t0) / 1000 <? 5).
Proof.
  assert (E : start_reload p t0 = (set_reload p (mk_reload true t0 (Some SHOTGUN) 0), true)).
  { unfold start_reload. rewrite Hw, Hr, Ha. reflexivity. }
  rewrite E. split; [reflexivity |].
  apply (shotgun_reload_run ts _ t0 t0); cbn; auto; try lia.
  all: rewrite ?Ha, ?Z.sub_diag; reflexivity.
Qed.

(** ** The collision ladder *)

Lemma check_collision_ext (z1 z2 : @zombie F) (x y : F) (obs : list rect)
    (o : option (list zombie)) :
  zid z1 = zid z2 -> zsize z1 = zsize z2 ->
  check_collision z1 x y obs o = check_collision z2 x y obs o.
Proof. intros H1 H2. unfold check_collision, zombie_rect. rewrite H1, H2. reflexivity. Qed.

Lemma check_collision_obstacles (z : @zombie F) (x y : F) (obs : list rect)
    (o : option (list zombie)) :
  check_collision z x y obs o = false ->
  existsb (colliderect (zombie_rect z x y)) obs = false.
Proof.
  unfold check_collision. destruct (existsb _ obs); [discriminate | reflexivity].
Qed.

Lemma try_direct_movement_checked (z : @zombie F) a obs o z' :
  try_direct_movement z a obs o = Some z' ->
  zid z' = zid z /\ zsize z' = zsize z /\ check_collision z (zx z') (zy z') obs o = false.
Proof.
  unfold try_direct_movement. cbv zeta.
  destruct (check_collision z (fadd (zx z) _) (fadd (zy z) _) obs o) eqn:E; cbn; intros H; inversion H; subst; cbn; auto.
Qed.

Lemma try_axis_aligned_movement_checked (z : @zombie F) a obs o z' :
  try_axis_aligned_movement z a obs o = Some z' ->
  zid z' = zid z /\ zsize z' = zsize z /\ check_collision z (zx z') (zy z') obs o = false.
Proof.
  unfold try_axis_aligned_movement. cbv zeta.
  destruct (check_collision z (fadd (zx z) _) (zy z) obs o) eqn:E1; cbn.
  - destruct (check_collision z (zx z) (fadd (zy z) _) obs o) eqn:E2; cbn;
      intros H; inversion H; subst; cbn; auto.
  - intros H; inversion H; subst; cbn; auto.
Qed.

Lemma first_free_checked (z : @zombie F) scale angles obs o z' :
  first_free z scale angles obs o = Some z' ->
  zid z' = zid z /\ zsize z' = zsize z /\ check_collision z (zx z') (zy z') obs o = false.
Proof.
  induction angles as [| a rest IH]; cbn; [discriminate |].
  destruct (check_collision z (fadd (zx z) _) (fadd (zy z) _) obs o) eqn:E; cbn; [exact IH |].
  intros H; inversion H; subst; cbn; auto.
Qed.

Lemma try_unstuck_loop_checked (n : nat) :
  forall (z : @zombie F) obs o (r : R) z' r',
  try_unstuck_loop n z obs o r = (Some z', r') ->
  zid z' = zid z /\ zsize z' = zsize z /\ check_collision z (zx z') (zy z') obs o = false.
Proof.
  induction n as [| n IH]; intros z obs o r z' r'; cbn; [discriminate |].
  destruct (uniform _ _ r) as [a r1]. cbv zeta.
  destruct (check_collision z (fadd (zx z) _) (fadd (zy z) _) obs o) eqn:E; cbn; [apply IH |].
  intros H; inversion H; subst; cbn; auto.
Qed.

Lemma determine_movement_angle_keeps (z : @zombie F) d (r : R) a zi r' :
  determine_movement_angle z d r = (a, zi, r') ->
  zid zi = zid z /\ zsize zi = zsize z /\ zx zi = zx z /\ zy zi = zy z.
Proof.
  unfold determine_movement_angle.
  destruct (0 <? _); [intros H; inversion H; subst; cbn; auto |].
  destruct (ZOMBIE_STUCK_THRESHOLD <? stuck_counter z).
  - destruct (uniform _ _ r). intros H; inversion H; subst; cbn; auto.
  - intros H; inversion H; subst; cbn; auto.
Qed.

Lemma zombie_update_committed (z : @zombie F) px py obs o (r : R) :
  let z' := fst (zombie_update z px py obs o r) in
  zid z' = zid z /\ zsize z' = zsize z /\
  ((zx z' = zx z /\ zy z' = zy z) \/ check_collision z (zx z') (zy z') obs o = false).
Proof.
  cbv zeta. unfold zombie_update, zombie_base_update.
  destruct (determine_movement_angle _ _ r) as [[a zi] r1] eqn:Ed.
  apply determine_movement_angle_keeps in Ed. cbn [zid zsize zx zy set_ai] in Ed.
  destruct Ed as [Ei [Es [Ex Ey]]].
  assert (K : forall z1 : @zombie F, zid z1 = zid zi -> zsize z1 = zsize zi ->
            check_collision zi (zx z1) (zy z1) obs o = false ->
            forall b, zid (update_stuck_detection z1 (zx z) (zy z) b) = zid z /\
              zsize (update_stuck_detection z1 (zx z) (zy z) b) = zsize z /\
              ((zx (update_stuck_detection z1 (zx z) (zy z) b) = zx z /\
                zy (update_stuck_detection z1 (zx z) (zy z) b) = zy z) \/
               check_collision z (zx (update_stuck_detection z1 (zx z) (zy z) b))
                 (zy (update_stuck_detection z1 (zx z) (zy z) b)) obs o = false)).
  { intros z1 H1 H2 H3 b. cbn. repeat split; try congruence. right.
    rewrite (check_collision_ext z zi) by congruence. exact H3. }
  assert (Fin : forall zf : @zombie F, zid zf = zid z /\ zsize zf = zsize z /\
            ((zx zf = zx z /\ zy zf = zy z) \/ check_collision z (zx zf) (zy zf) obs o = false) ->
            forall r2 : R,
            zid (fst (match zkind_of z with Boss => (set_pulse zf (boss_pulse_time zf + 1), r2)
                                          | _ => (zf, r2) end)) = zid z /\
            zsize (fst (match zkind_of z with Boss => (set_pulse zf (boss_pulse_time zf + 1), r2)
                                            | _ => (zf, r2) end)) = zsize z /\
            ((zx (fst (match zkind_of z with Boss => (set_pulse zf (boss_pulse_time zf + 1), r2)
                                           | _ => (zf, r2) end)) = zx z /\
              zy (fst (match zkind_of z with Boss => (set_pulse zf (boss_pulse_time zf + 1), r2)
                                           | _ => (zf, r2) end)) = zy z) \/
             check_collision z
               (zx (fst (match zkind_of z with Boss => (set_pulse zf (boss_pulse_time zf + 1), r2)
                                             | _ => (zf, r2) end)))
               (zy (fst (match zkind_of z with Boss => (set_pulse zf (boss_pulse_time zf + 1), r2)
                                             | _ => (zf, r2) end))) obs o = false)).
  { intros zf Hf r2. destruct (zkind_of z); exact Hf. }
  destruct (try_direct_movement zi a obs o) as [z1 |] eqn:E1.
  { apply try_direct_movement_checked in E1. destruct E1 as [H1 [H2 H3]].
    apply Fin, K; assumption. }
  destruct (try_axis_aligned_movement zi a obs o) as [z1 |] eqn:E2.
  { apply try_axis_aligned_movement_checked in E2. destruct E2 as [H1 [H2 H3]].
    apply Fin, K; assumption. }
  destruct (try_wall_sliding zi a obs o) as [z1 |] eqn:E3.
  { apply first_free_checked in E3. destruct E3 as [H1 [H2 H3]].
    apply Fin, K; assumption. }
  destruct (try_unstuck_movement zi obs o r1) as [[z1 |] r2] eqn:E4.
  - apply try_unstuck_loop_checked in E4. destruct E4 as [H1 [H2 H3]].
    apply Fin, K; assumption.
  - apply Fin. cbn. repeat split; try congruence. left. split; congruence.
Qed.

(** C2: if the zombie's square overlaps no obstacle before its update, it
    overlaps none after it; and the committed position is either the old one
    (every rung of the ladder failed) or one that [_check_collision] accepted. *)
Theorem zombie_update_avoids_obstacles (z : @zombie F) (px py : F) (obs : list rect)
    (others : option (list zombie)) (r : R)
    (Hfree : existsb (colliderect (zombie_rect z (zx z) (zy z))) obs = false) :
  let z' := fst (zombie_update z px py obs others r) in
  existsb (colliderect (zombie_rect z' (zx z') (zy z'))) obs = false /\
  ((zx z' = zx z /\ zy z' = zy z) \/ check_collision z (zx z') (zy z') obs others = false).
Proof.
  destruct (zombie_update_committed z px py obs others r) as [Hi [Hs Hc]].
  cbv zeta. split; [| exact Hc].
  unfold zombie_rect. rewrite Hs. fold (zombie_rect z (zx (fst (zombie_update z px py obs others r)))
                                       (zy (fst (zombie_update z px py obs others r)))).
  destruct Hc as [[Hx Hy] | Hc].
  - rewrite Hx, Hy. exact Hfree.
  - exact (check_collision_obstacles _ _ _ _ _ Hc).
Qed.

(** ** Spawn placement *)

Lemma new_zombie_fields (k : zkind) (id : nat) (x y : F) :
  zkind_of (new_zombie k id x y) = k /\ zx (new_zombie k id x y) = x /\
  zy (new_zombie k id x y) = y /\ zid (new_zombie k id x y) = id.
Proof. destruct k; repeat split. Qed.

Lemma spawn_attempts_placement (n : nat) :
  forall (g : @game F) (k : zkind) (r : R),
  let g' := fst (spawn_attempts n g k r) in
  g' = g \/
  exists z, g' = set_next_id (set_zombies g (game_zombies g ++ [z])) (S (next_id (ents g))) /\
    zkind_of z = k /\ zid z = next_id (ents g) /\
    flt (fofZ ZOMBIE_MIN_SPAWN_DISTANCE) (dist (zx z) (zy z) (px (gplayer g)) (py (gplayer g))) = true /\
    check_collision z (zx z) (zy z) (obstacles g) None = false.
Proof.
  induction n as [| n IH]; intros g k r; cbv zeta; cbn [spawn_attempts]; [left; reflexivity |].
  destruct (randint 50 (MAP_SIZE - 50) r) as [x r1].
  destruct (randint 50 (MAP_SIZE - 50) r1) as [y r2].
  destruct (flt _ _) eqn:Ed; [| apply IH].
  destruct (check_collision _ _ _ _ None) eqn:Ec; cbn [negb]; [apply IH |].
  right. exists (new_zombie k (next_id (ents g)) (fofZ x) (fofZ y)).
  destruct (new_zombie_fields k (next_id (ents g)) (fofZ x) (fofZ y)) as [H1 [H2 [H3 H4]]].
  rewrite H1, H2, H3, H4. repeat split; assumption.
Qed.

(** C7: [_spawn_single_zombie] either leaves the game as it was (no
    attempt succeeded, no error) or appends exactly one zombie of the
    requested kind, strictly farther than [ZOMBIE_MIN_SPAWN_DISTANCE] from the
    player and overlapping no obstacle. *)
Theorem spawn_single_zombie_placement (g : @game F) (k : zkind) (r : R) :
  let g' := fst (spawn_single_zombie g k r) in
  g' = g \/
  exists z, g' = set_next_id (set_zombies g (game_zombies g ++ [z])) (S (next_id (ents g))) /\
    zkind_of z = k /\
    flt (fofZ ZOMBIE_MIN_SPAWN_DISTANCE) (dist (zx z) (zy z) (px (gplayer g)) (py (gplayer g))) = true /\
    check_collision z (zx z) (zy z) (obstacles g) None = false /\
    existsb (colliderect (zombie_rect z (zx z) (zy z))) (obstacles g) = false.
Proof.
  destruct (spawn_attempts_placement 100 g k r) as [E | [z [E [H1 [_ [H2 H3]]]]]].
  - left. exact E.
  - right. exists z. repeat split; try assumption.
    exact (check_collision_obstacles _ _ _ _ _ H3).
Qed.

(** ** Frame lemmas for the phases of a tick

    A relation between game states that every setter and the boss handler
    respect is respected by every phase of [update_game] that does not spawn
    and is not the contact pass. *)

Section Frame.

Variable rel : @game F -> @game F -> Prop.
Hypothesis rel_refl : forall g, rel g g.
Hypothesis rel_trans : forall g1 g2 g3, rel g1 g2 -> rel g2 g3 -> rel g1 g3.
Hypothesis rel_set_player : forall g p, rel g (set_player g p).
Hypothesis rel_set_ents : forall g e, rel g (set_ents g e).
Hypothesis rel_set_state : forall g s, rel g (set_state g s).
Hypothesis rel_set_notification : forall g b t, rel g (set_notification g b t).
Hypothesis rel_handle_boss_death : forall g x y, rel g (handle_boss_death g x y).

Ltac rel_step :=
  first [ apply rel_refl
        | eapply rel_trans; [| first [ apply rel_set_player | apply rel_set_ents
                                      | apply rel_set_state | apply rel_set_notification
                                      | apply rel_handle_boss_death ] ] ].

Lemma on_zombie_killed_rel (g : @game F) z now : rel g (on_zombie_killed g z now).
Proof.
  unfold on_zombie_killed. destruct (add_kill _ _) as [p b]. cbv zeta.
  destruct (0 <? b); destruct (zkind_of z); repeat rel_step.
Qed.

Lemma damage_targets_rel (targets : list zombie) :
  forall (g : @game F) d now, rel g (damage_targets g targets d now).
Proof.
  induction targets as [| t ts IH]; intros g d now; [apply rel_refl |].
  unfold damage_targets in *. cbn [fold_left]. eapply rel_trans; [| apply IH].
  destruct (find_zombie _ _) as [z |]; [| apply rel_refl].
  destruct (zombie_take_damage z d now) as [z' died]. cbv zeta.
  destruct died; [eapply rel_trans; [| apply on_zombie_killed_rel] |]; repeat rel_step.
Qed.

Lemma grenade_loop_rel (gs : list grenade) :
  forall (kept : list grenade) (g : @game F) now, rel g (grenade_loop gs kept g now).
Proof.
  induction gs as [| gr rest IH]; intros kept g now; cbn [grenade_loop]; [repeat rel_step |].
  cbv zeta.
  repeat match goal with
         | |- context [if ?c then _ else _] => destruct c
         | |- context [let (_, _) := ?p in _] => destruct p
         end;
  repeat first [ rel_step | eapply rel_trans; [| apply IH]
               | eapply rel_trans; [| apply damage_targets_rel] ].
Qed.

Lemma grenade_phase_rel (g : @game F) now : rel g (grenade_phase g now).
Proof. apply grenade_loop_rel. Qed.

Lemma bullet_move_phase_rel (g : @game F) now : rel g (bullet_move_phase g now).
Proof. unfold bullet_move_phase. repeat rel_step. Qed.

Lemma zombie_move_phase_rel (g : @game F) (r : R) : rel g (fst (zombie_move_phase g r)).
Proof.
  unfold zombie_move_phase. destruct (zombie_move_loop _ _ _ _ _ _). cbn [fst]. repeat rel_step.
Qed.

Lemma powerup_phase_rel (g : @game F) now : rel g (powerup_phase g now).
Proof. unfold powerup_phase. destruct (fold_left _ _ _). repeat rel_step. Qed.

Lemma bullet_hit_loop_rel (bs : list bullet) :
  forall (kept : list bullet) (g : @game F) now, rel g (bullet_hit_loop bs kept g now).
Proof.
  induction bs as [| b rest IH]; intros kept g now; cbn [bullet_hit_loop]; [repeat rel_step |].
  destruct (bullet_target _ _) as [z |]; [| apply IH].
  destruct (zombie_take_damage _ _ _) as [z' died]. cbv zeta.
  eapply rel_trans; [| apply IH].
  destruct died; [eapply rel_trans; [| apply on_zombie_killed_rel] |]; repeat rel_step.
Qed.

Lemma bullet_hit_phase_rel (g : @game F) now : rel g (bullet_hit_phase g now).
Proof. apply bullet_hit_loop_rel. Qed.

Lemma pickup_phase_rel (g : @game F) : rel g (pickup_phase g).
Proof. unfold pickup_phase. destruct (fold_left _ _ _). repeat rel_step. Qed.

Lemma win_check_rel (g : @game F) : rel g (win_check g).
Proof. unfold win_check. destruct (colliderect _ _); repeat rel_step. Qed.

(** One tick: the state before the contact pass is related to the initial
    one, and the final state to the one after the contact pass; a tick that
    ends lost after the contact pass returns that state as it is. *)
Lemma update_game_frame
    (Hspawn : forall (g : @game F) now (r : R), rel g (fst (spawn_zombie_wave g now r)))
    (g : @game F) t (r : R) g' r' hit :
  update_game g t r = Some (g', r', hit) ->
  exists g1 g2, rel g g1 /\ rel g2 g' /\ (is_playing (game_state g2) = false -> g' = g2) /\
    ((g2 = g1 /\ hit = false) \/ contact_phase g1 t = (g2, hit)).
Proof.
  unfold update_game.
  destruct (negb (is_playing (game_state g))) eqn:E0.
  { intros H; injection H as <- <- <-. exists g, g. repeat split; auto. }
  destruct (negb (is_playing (game_state (grenade_phase (bullet_move_phase g t) t)))) eqn:E1.
  { intros H; injection H as <- <- <-.
    exists (grenade_phase (bullet_move_phase g t) t), (grenade_phase (bullet_move_phase g t) t).
    repeat split; auto.
    eapply rel_trans; [apply bullet_move_phase_rel | apply grenade_phase_rel]. }
  assert (H1 : rel g (grenade_phase (bullet_move_phase g t) t))
    by (eapply rel_trans; [apply bullet_move_phase_rel | apply grenade_phase_rel]).
  destruct (zombie_move_phase (grenade_phase (bullet_move_phase g t) t) r) as [g3 r3] eqn:E3.
  assert (H3 : rel g g3).
  { eapply rel_trans; [exact H1 |]. change g3 with (fst (g3, r3)). rewrite <- E3.
    apply zombie_move_phase_rel. }
  destruct (update_reload (gplayer g3) t) as [p |]; [| discriminate].
  destruct (spawn_zombie_wave (set_player g3 (update_powerups p t)) t r3) as [g5 r5] eqn:E5.
  assert (H5 : rel g g5).
  { eapply rel_trans; [exact H3 |]. eapply rel_trans; [apply (rel_set_player g3 (update_powerups p t)) |].
    change g5 with (fst (g5, r5)). rewrite <- E5. apply Hspawn. }
  assert (H6 : rel g (bullet_hit_phase (powerup_phase g5 t) t)).
  { eapply rel_trans; [exact H5 |].
    eapply rel_trans; [apply powerup_phase_rel | apply bullet_hit_phase_rel]. }
  destruct (contact_phase (bullet_hit_phase (powerup_phase g5 t) t) t) as [g6 h6] eqn:E6.
  destruct (negb (is_playing (game_state g6))) eqn:E7; intros H; injection H as <- <- <-.
  - exists (bullet_hit_phase (powerup_phase g5 t) t), g6. repeat split; auto.
  - exists (bullet_hit_phase (powerup_phase g5 t) t), g6. repeat split; auto.
    + eapply rel_trans; [apply pickup_phase_rel | apply win_check_rel].
    + intros Hp. rewrite Hp in E7. discriminate.
Qed.

End Frame.

(** ** The contact cooldown *)

Lemma spawn_attempts_last (n : nat) :
  forall (g : @game F) k (r : R),
  last_zombie_damage (fst (spawn_attempts n g k r)) = last_zombie_damage g.
Proof.
  induction n as [| n IH]; intros g k r; cbn [spawn_attempts]; [reflexivity |].
  destruct (randint _ _ r) as [x r1]. destruct (randint _ _ r1) as [y r2]. cbv zeta.
  destruct (flt _ _); [destruct (negb _) |]; auto.
Qed.

Lemma spawn_wave_members_last (ks : list zkind) :
  forall (g : @game F) (r : R),
  last_zombie_damage (fst (spawn_wave_members ks g r)) = last_zombie_damage g.
Proof.
  induction ks as [| k ks IH]; intros g r; cbn [spawn_wave_members]; [reflexivity |].
  destruct (_ <? _); [| apply IH].
  destruct (spawn_single_zombie g k r) as [g1 r1] eqn:E. cbv zeta. rewrite IH. cbn.
  change g1 with (fst (g1, r1)). rewrite <- E. apply spawn_attempts_last.
Qed.

Lemma spawn_zombie_wave_last (g : @game F) now (r : R) :
  last_zombie_damage (fst (spawn_zombie_wave g now r)) = last_zombie_damage g.
Proof.
  unfold spawn_zombie_wave.
  destruct (boss_killed _); [reflexivity |].
  destruct (_ && _); [| reflexivity].
  repeat match goal with
         | |- context [if ?c then _ else _] => destruct c
         | |- context [let (_, _) := ?p in _] => destruct p eqn:?
         | |- context [match ?p with (_, _) => _ end] => destruct p eqn:?
         end.
  all: match goal with
       | H : spawn_wave_members ?ks ?ga ?ra = (?gb, ?rb) |- _ =>
           assert (X := spawn_wave_members_last ks ga ra); rewrite H in X; cbn in X |- *;
           rewrite X; reflexivity
       end.
Qed.

Lemma update_game_last (g : @game F) t (r : R) g' r' hit :
  update_game g t r = Some (g', r', hit) ->
  exists g1 g2, last_zombie_damage g1 = last_zombie_damage g /\
    last_zombie_damage g' = last_zombie_damage g2 /\
    (is_playing (game_state g2) = false -> g' = g2) /\
    ((g2 = g1 /\ hit = false) \/ contact_phase g1 t = (g2, hit)).
Proof.
  apply (update_game_frame (fun g1 g2 => last_zombie_damage g2 = last_zombie_damage g1));
    intros; cbn; try reflexivity; try congruence.
  - unfold handle_boss_death. destruct (convert_to_fast _ _). reflexivity.
  - apply spawn_zombie_wave_last.
Qed.

Lemma contact_phase_cases (g : @game F) t g2 hit :
  contact_phase g t = (g2, hit) ->
  (hit = false /\ g2 = g) \/
  (hit = true /\ 1000 < t - last_zombie_damage g /\
   (last_zombie_damage g2 = t \/ is_playing (game_state g2) = false) /\
   phealth (gplayer g2) = phealth (gplayer g) - 1).
Proof.
  unfold contact_phase.
  destruct (1000 <? t - last_zombie_damage g) eqn:E;
    [| intros H; injection H as <- <-; left; auto].
  apply Z.ltb_lt in E.
  destruct (find _ _); [| intros H; injection H as <- <-; left; auto].
  destruct (player_take_damage (gplayer g)) as [p died] eqn:Ep.
  unfold player_take_damage in Ep. injection Ep as Ep _.
  destruct died; intros H; injection H as <- <-; right; repeat split; auto;
    rewrite <- Ep; reflexivity.
Qed.

Lemma run_not_playing (ts : list Z) :
  forall (g : @game F) (r : R), is_playing (game_state g) = false -> snd (run g ts r) = [].
Proof.
  induction ts as [| t ts IH]; intros g r H; [reflexivity |].
  cbn [run]. unfold update_game at 1. rewrite H. cbn [negb].
  destruct (run g ts r) as [gf hits] eqn:E. cbn. rewrite <- (IH g r H), E. reflexivity.
Qed.

Lemma run_contact_spaced (ts : list Z) :
  forall (g : @game F) (r : R), spaced_after (last_zombie_damage g) (snd (run g ts r)).
Proof.
  induction ts as [| t ts IH]; intros g r; cbn [run]; [exact I |].
  destruct (update_game g t r) as [[[g' r'] hit] |] eqn:E; [| exact I].
  destruct (run g' ts r') as [gf hits] eqn:Er. cbn [snd].
  destruct (update_game_last g t r g' r' hit E) as [g1 [g2 [L1 [L2 [Lp Hc]]]]].
  assert (IH' := IH g' r'). rewrite Er in IH'. cbn [snd] in IH'.
  destruct hit.
  - destruct Hc as [[_ Hf] | Hc]; [discriminate |].
    destruct (contact_phase_cases g1 t g2 true Hc) as [[Hf _] | [_ [Hl [Hs _]]]]; [discriminate |].
    cbn. split; [lia |].
    destruct Hs as [Hs | Hs].
    + rewrite <- Hs, <- L2. exact IH'.
    + rewrite (Lp Hs) in Er. assert (Hn := run_not_playing ts g2 r' Hs).
      rewrite Er in Hn. cbn in Hn. rewrite Hn. exact I.
  - assert (Hg : g2 = g1).
    { destruct Hc as [[Hg _] | Hc]; [exact Hg |].
      destruct (contact_phase_cases g1 t g2 false Hc) as [[_ Hg] | [Hf _]];
        [exact Hg | discriminate]. }
    rewrite L2, Hg, L1 in IH'. exact IH'.
Qed.

Lemma spaced_after_later (hits : list Z) :
  forall l, spaced_after l hits -> Forall (fun h => l + 1000 < h) hits.
Proof.
  induction hits as [| h rest IH]; intros l H; constructor.
  - apply H.
  - destruct H as [H1 H2]. apply IH in H2.
    eapply Forall_impl; [| exact H2]. cbv beta. intros x Hx. lia.
Qed.

Lemma in_window_spaced (hits : list Z) :
  forall l a, spaced_after l hits -> (length (in_window a hits) <= 1)%nat.
Proof.
  induction hits as [| h rest IH]; intros l a H; [cbn; lia |].
  unfold in_window. cbn [filter].
  destruct ((a <=? h) && (h <=? a + 1000)) eqn:E.
  - apply andb_prop in E. destruct E as [E1 E2]. apply Z.leb_le in E1, E2.
    destruct H as [_ H]. apply spaced_after_later in H.
    assert (Hn : filter (fun t => (a <=? t) && (t <=? a + 1000)) rest = []).
    { clear IH. induction H as [| x rest Hx Hr IHr]; [reflexivity |]. cbn.
      replace (x <=? a + 1000) with false by (symmetry; apply Z.leb_gt; lia).
      rewrite andb_false_r. exact IHr. }
    rewrite Hn. cbn. lia.
  - apply (IH h a). apply H.
Qed.

(** C8: over any sequence of ticks, the clock readings at which the contact
    pass hits the player are each more than 1000 ms after the previous one
    (and after the initial cooldown stamp), so every closed one-second window
    holds at most one of them; one contact pass costs the player at most one
    health point, however many zombies are in reach. *)
Theorem contact_damage_once_per_second (g : @game F) (ts : list Z) (r : R) :
  spaced_after (last_zombie_damage g) (snd (run g ts r)) /\
  (forall a : Z, (length (in_window a (snd (run g ts r))) <= 1)%nat) /\
  (forall t : Z, phealth (gplayer g) - 1 <= phealth (gplayer (fst (contact_phase g t)))).
Proof.
  split; [apply run_contact_spaced |]. split.
  - intros a. apply (in_window_spaced _ (last_zombie_damage g)). apply run_contact_spaced.
  - intros t. destruct (contact_phase g t) as [g2 hit] eqn:E. cbn [fst].
    destruct (contact_phase_cases g t g2 hit E) as [[_ ->] | [_ [_ [_ Hh]]]]; lia.
Qed.

(** ** Boss death *)

Lemma convert_to_fast_fields (zs : list (@zombie F)) :
  forall next,
  Forall2 (fun z z' => zkind_of z' = Fast /\ zx z' = zx z /\ zy z' = zy z /\ zhealth z' = zhealth z)
    zs (fst (convert_to_fast zs next)).
Proof.
  induction zs as [| z rest IH]; intros next; cbn [convert_to_fast]; [constructor |].
  destruct (zkind_of z) eqn:Ek.
  - destruct (convert_to_fast rest (S next)) as [rest' n] eqn:E. cbn [fst]. constructor.
    + repeat split.
    + change rest' with (fst (rest', n)). rewrite <- E. apply IH.
  - destruct (convert_to_fast rest next) as [rest' n] eqn:E. cbn [fst]. constructor.
    + auto.
    + change rest' with (fst (rest', n)). rewrite <- E. apply IH.
  - destruct (convert_to_fast rest (S next)) as [rest' n] eqn:E. cbn [fst]. constructor.
    + repeat split.
    + change rest' with (fst (rest', n)). rewrite <- E. apply IH.
Qed.

Lemma handle_boss_death_zombies (g : @game F) x y :
  game_zombies (handle_boss_death g x y) =
  fst (convert_to_fast (game_zombies g) (next_id (ents g))).
Proof.
  unfold handle_boss_death. cbn. destruct (convert_to_fast _ _). reflexivity.
Qed.

Lemma convert_to_fast_health (zs : list (@zombie F)) :
  forall next,
  Forall2 (fun z z' =>
      (zkind_of z = Fast -> z' = z) /\
      (zkind_of z <> Fast ->
         zkind_of z' = Fast /\ zhealth z' = zhealth z /\ zmax_health z' = FAST_ZOMBIE_HEALTH))
    zs (fst (convert_to_fast zs next)).
Proof.
  induction zs as [| z rest IH]; intros next; cbn [convert_to_fast]; [constructor |].
  destruct (zkind_of z) eqn:Ek.
  - destruct (convert_to_fast rest (S next)) as [rest' n] eqn:E. cbn [fst]. constructor.
    + rewrite Ek. split; [discriminate | intros _; repeat split].
    + change rest' with (fst (rest', n)). rewrite <- E. apply IH.
  - destruct (convert_to_fast rest next) as [rest' n] eqn:E. cbn [fst]. constructor.
    + rewrite Ek. split; [reflexivity | intros H; exfalso; apply H; reflexivity].
    + change rest' with (fst (rest', n)). rewrite <- E. apply IH.
  - destruct (convert_to_fast rest (S next)) as [rest' n] eqn:E. cbn [fst]. constructor.
    + rewrite Ek. split; [discriminate | intros _; repeat split].
    + change rest' with (fst (rest', n)). rewrite <- E. apply IH.
Qed.

(** C10: [_handle_boss_death] copies the current health of every hostile it
    converts into the new fast zombie without clamping it to the fast maximum
    [FAST_ZOMBIE_HEALTH] (2): for any zombie list, each converted (non-fast)
    zombie becomes a fast zombie with the same health and maximum health 2, so
    one with health 3 yields a fast zombie whose health exceeds its maximum
    (fast zombies are kept as they are).  A fresh standard zombie has health 3
    at or below its maximum, so health at or below maximum health is not
    preserved by the conversion. *)
Theorem boss_death_conversion_unclamped (g : @game F) (bx by0 : F) :
  Forall2 (fun z z' =>
      (zkind_of z = Fast -> z' = z) /\
      (zkind_of z <> Fast ->
         zkind_of z' = Fast /\ zhealth z' = zhealth z /\ zmax_health z' = FAST_ZOMBIE_HEALTH /\
         (zhealth z = 3 -> zmax_health z' < zhealth z')))
    (game_zombies g) (game_zombies (handle_boss_death g bx by0)) /\
  (forall (id : nat) (x y : F),
     zhealth (new_zombie Standard id x y) = 3 /\
     zhealth (new_zombie Standard id x y) <= zmax_health (new_zombie Standard id x y)).
Proof.
  split; [| intros; cbn; split; [reflexivity | lia]].
  rewrite handle_boss_death_zombies.
  eapply Forall2_impl; [| apply convert_to_fast_health].
  intros z z' [H1 H2]. split; [exact H1 |].
  intros Hk. destruct (H2 Hk) as [Hf [Hh Hm]].
  split; [exact Hf | split; [exact Hh | split; [exact Hm |]]].
  intros H3. rewrite Hm, Hh, H3. unfold FAST_ZOMBIE_HEALTH. lia.
Qed.

Lemma handle_boss_death_spawner (g : @game F) x y :
  spawner (handle_boss_death g x y) =
  mk_spawn (zombie_spawn_timer (spawner g)) (zombies_spawned (spawner g)) (max_zombies (spawner g))
    (spawn_interval (spawner g)) (zombies_per_wave (spawner g)) (boss_spawned (spawner g)) true
    (current_wave (spawner g)).
Proof.
  unfold handle_boss_death. cbn. destruct (convert_to_fast _ _). reflexivity.
Qed.

Lemma spawn_zombie_wave_halted (g : @game F) now (r : R) :
  boss_killed (spawner g) = true -> spawn_zombie_wave g now r = (g, r).
Proof. intros H. unfold spawn_zombie_wave. rewrite H. reflexivity. Qed.

Lemma contact_phase_spawner (g : @game F) t :
  spawner (fst (contact_phase g t)) = spawner g.
Proof.
  unfold contact_phase. destruct (_ <? _); [| reflexivity].
  destruct (find _ _); [| reflexivity].
  destruct (player_take_damage _) as [p []]; reflexivity.
Qed.

Lemma update_game_spawner (g : @game F) t (r : R) g' r' hit :
  boss_killed (spawner g) = true ->
  update_game g t r = Some (g', r', hit) -> spawner g' = spawner g.
Proof.
  intros Hk E.
  destruct (update_game_frame
              (fun g1 g2 => boss_killed (spawner g1) = true -> spawner g2 = spawner g1))
    with (9 := E) as [g1 [g2 [R1 [R2 [_ Hc]]]]].
  - auto.
  - cbv beta. intros g3 g4 g5 H1 H2 H. rewrite H2; rewrite H1; auto.
  - reflexivity.
  - reflexivity.
  - reflexivity.
  - reflexivity.
  - cbv beta. intros g0 x y H. rewrite handle_boss_death_spawner.
    destruct (spawner g0); cbn in *; subst; reflexivity.
  - cbv beta. intros g0 now r0 H. rewrite spawn_zombie_wave_halted by exact H. reflexivity.
  - assert (S1 : spawner g1 = spawner g) by (apply R1; exact Hk).
    assert (S2 : spawner g2 = spawner g1).
    { destruct Hc as [[-> _] | Hc]; [reflexivity |].
      change g2 with (fst (g2, hit)). rewrite <- Hc. apply contact_phase_spawner. }
    rewrite R2; congruence.
Qed.

Lemma run_spawner (ts : list Z) :
  forall (g : @game F) (r : R),
  boss_killed (spawner g) = true -> spawner (fst (run g ts r)) = spawner g.
Proof.
  induction ts as [| t ts IH]; intros g r Hk; cbn [run]; [reflexivity |].
  destruct (update_game g t r) as [[[g' r'] hit] |] eqn:E; [| reflexivity].
  assert (Hs := update_game_spawner g t r g' r' hit Hk E).
  destruct (run g' ts r') as [gf hits] eqn:Er. cbn [fst].
  change gf with (fst (gf, hits)). rewrite <- Er, IH; [exact Hs |]. rewrite Hs. exact Hk.
Qed.

(** C6: [_handle_boss_death] turns every zombie left in the list into a fast
    zombie at the same position with the same current health (fast ones are
    kept as they are) and sets [boss_killed]; from any state where
    [boss_killed] holds, [_spawn_zombie_wave] does nothing and no sequence of
    ticks changes the spawn bookkeeping any more. *)
Theorem boss_death_converts_and_halts_spawning (g : @game F) (bx by0 : F)
    (g0 : @game F) (ts : list Z) (r : R) (Hk : boss_killed (spawner g0) = true) :
  Forall2 (fun z z' => zkind_of z' = Fast /\ zx z' = zx z /\ zy z' = zy z /\ zhealth z' = zhealth z)
    (game_zombies g) (game_zombies (handle_boss_death g bx by0)) /\
  boss_killed (spawner (handle_boss_death g bx by0)) = true /\
  (forall (now : Z) (r' : R), spawn_zombie_wave g0 now r' = (g0, r')) /\
  spawner (fst (run g0 ts r)) = spawner g0.
Proof.
  split; [rewrite handle_boss_death_zombies; apply convert_to_fast_fields |].
  split; [rewrite handle_boss_death_spawner; reflexivity |].
  split.
  - intros now r'. apply spawn_zombie_wave_halted. exact Hk.
  - apply run_spawner. exact Hk.
Qed.

End Props.

(** * Further properties of the player and game code *)

Section Extras.

Context {F R : Type} {FO : FloatOps F} {RO : RandomOps F R}.

(** ** Grenade timing *)

Lemma grenade_iter (gr : @grenade F) (k : nat) :
  exploded gr = false -> flight_time gr < max_flight_time gr ->
  let d := max_flight_time gr - flight_time gr in
  let g' := Nat.iter k grenade_update gr in
  exploded g' = (d <=? Z.of_nat k) /\
  flight_time g' = flight_time gr + Z.min (Z.of_nat k) d /\
  explosion_timer g' = explosion_timer gr + Z.max 0 (Z.of_nat k - d) /\
  max_flight_time g' = max_flight_time gr /\ max_explosion_time g' = max_explosion_time gr.
Proof.
  intros Hx Hf d. induction k as [| k IH]; cbv zeta in *.
  - change (Nat.iter 0 grenade_update gr) with gr. rewrite Hx. repeat split; try lia.
    symmetry. apply Z.leb_gt. lia.
  - change (Nat.iter (S k) grenade_update gr) with (grenade_update (Nat.iter k grenade_update gr)).
    destruct IH as [H1 [H2 [H3 [H4 H5]]]].
    set (g := Nat.iter k grenade_update gr) in *.
    rewrite Nat2Z.inj_succ. unfold grenade_update. rewrite H1.
    destruct (Z.leb_spec d (Z.of_nat k)) as [Hk | Hk]; cbn.
    + rewrite H2, H3, H4, H5. repeat split; try lia.
      symmetry. apply Z.leb_le. lia.
    + rewrite H2, H3, H4, H5. repeat split; try lia.
      unfold d in *.
      destruct (Z.leb_spec (max_flight_time gr) (flight_time gr + Z.min (Z.of_nat k) (max_flight_time gr - flight_time gr) + 1)),
        (Z.leb_spec (max_flight_time gr - flight_time gr) (Z.succ (Z.of_nat k))); try reflexivity; lia.
Qed.

(** ** Kills and the hero ability *)

Lemma add_kill_heroes (p : @player F) (k : kill_type) :
  let h := heroes p in
  heroes (fst (add_kill p k)) =
    mk_hero (hero_type h) (if ability_charge h <? 100 then Z.min 100 (ability_charge h + 20)
                           else ability_charge h) (ability_active h) (ability_end_time h) /\
  phealth (fst (add_kill p k)) = phealth p /\ pmax_health (fst (add_kill p k)) = pmax_health p.
Proof.
  unfold add_kill. destruct k; cbn;
  match goal with |- context [if ?c then _ else _] => destruct c end; cbn; auto.
Qed.

Lemma kill_run_charge (ks : list kill_type) :
  forall p : @player F, ability_charge (heroes p) <= 100 ->
  let p' := fst (kill_run p ks) in
  ability_charge (heroes p') = Z.min 100 (ability_charge (heroes p) + 20 * Z.of_nat (length ks)) /\
  hero_type (heroes p') = hero_type (heroes p) /\
  ability_active (heroes p') = ability_active (heroes p) /\
  ability_end_time (heroes p') = ability_end_time (heroes p) /\
  pmax_health p' = pmax_health p.
Proof.
  induction ks as [| k ks IH]; intros p Hc; cbv zeta.
  - cbn. repeat split; lia.
  - cbn [kill_run]. destruct (add_kill p k) as [p1 b] eqn:E.
    destruct (add_kill_heroes p k) as [Hh [_ Hm]]. rewrite E in Hh, Hm. cbn [fst] in Hh, Hm.
    assert (Hc1 : ability_charge (heroes p1) <= 100).
    { rewrite Hh. cbn. destruct (Z.ltb_spec (ability_charge (heroes p)) 100); lia. }
    destruct (kill_run p1 ks) as [pf bs] eqn:Er. cbn [fst].
    specialize (IH p1 Hc1). rewrite Er in IH. cbn [fst] in IH.
    destruct IH as [I1 [I2 [I3 [I4 I5]]]].
    rewrite I1, I2, I3, I4, I5, Hm, Hh.
    cbn [ability_charge hero_type ability_active ability_end_time length]. rewrite Nat2Z.inj_succ.
    repeat split; auto.
    destruct (Z.ltb_spec (ability_charge (heroes p)) 100); lia.
Qed.

(** X2: after a run of kills starting from a charge of at most 100, the
    ability charge is [min 100 (charge + 20 * kills)]; [activate_hero_ability]
    then fires exactly when that reaches 100, and when it fires the charge
    drops to 0 and Nathan's homing ability is active for 10 seconds, or
    Kelly's health is back at its maximum. *)
Theorem kills_charge_hero_ability (p : @player F) (ks : list kill_type) (now : Z)
    (Hc : ability_charge (heroes p) <= 100) :
  let c := ability_charge (heroes p) + 20 * Z.of_nat (length ks) in
  let p1 := fst (kill_run p ks) in
  ability_charge (heroes p1) = Z.min 100 c /\
  let (p2, fired) := activate_hero_ability p1 now in
  fired = (100 <=? c) /\
  (fired = true ->
   ability_charge (heroes p2) = 0 /\
   match hero_type (heroes p) with
   | NATHAN => ability_active (heroes p2) = true /\ ability_end_time (heroes p2) = now + 10000
   | KELLY => phealth p2 = pmax_health p
   end).
Proof.
  cbv zeta. destruct (kill_run_charge ks p Hc) as [H1 [H2 [_ [_ H5]]]].
  split; [exact H1 |].
  unfold activate_hero_ability. rewrite H1.
  destruct (Z.leb_spec 100 (Z.min 100 (ability_charge (heroes p) + 20 * Z.of_nat (length ks)))) as [Hl | Hl].
  - replace (100 <=? ability_charge (heroes p) + 20 * Z.of_nat (length ks)) with true
      by (symmetry; apply Z.leb_le; lia).
    rewrite H2. destruct (hero_type (heroes p)); cbn; split; auto.
  - replace (100 <=? ability_charge (heroes p) + 20 * Z.of_nat (length ks)) with false
      by (symmetry; apply Z.leb_gt; lia).
    split; [reflexivity | discriminate].
Qed.

(** X3: [take_damage] restarts the kill streak: whatever the streak was, the
    [i]-th kill after a hit earns a skill bonus exactly when [i] is a
    multiple of 10, and the bonus is [50 * i]. *)
Theorem streak_restarts_after_hit (p : @player F) (ks : list kill_type) (i : nat)
    (Hi : (i < length ks)%nat) :
  nth i (snd (kill_run (fst (player_take_damage p)) ks)) 0 =
  (if Z.of_nat (S i) mod 10 =? 0 then Z.of_nat (S i) * 50 else 0).
Proof.
  rewrite (kill_run_bonuses ks _ 0 i); cbn; auto; lia.
Qed.

(** X1: a grenade that no collision stops explodes on update number
    [max_flight_time - flight_time] (the 90th for a new grenade), stays at
    that point, and is finished after [max_explosion_time - explosion_timer]
    further updates (110 updates in all for a new grenade). *)
Theorem grenade_timeline (gr : @grenade F) (k : nat)
    (Hx : exploded gr = false) (Hf : flight_time gr < max_flight_time gr)
    (He : explosion_timer gr <= max_explosion_time gr) :
  let d := max_flight_time gr - flight_time gr in
  exploded (Nat.iter k grenade_update gr) = (d <=? Z.of_nat k) /\
  grenade_is_finished (Nat.iter k grenade_update gr) =
    (d + (max_explosion_time gr - explosion_timer gr) <=? Z.of_nat k).
Proof.
  cbv zeta. destruct (grenade_iter gr k Hx Hf) as [H1 [_ [H3 [_ H5]]]].
  split; [exact H1 |].
  unfold grenade_is_finished. rewrite H1, H3, H5.
  destruct (Z.leb_spec (max_flight_time gr - flight_time gr) (Z.of_nat k)); cbn.
  - rewrite Z.max_r by lia.
    destruct (Z.leb_spec (max_explosion_time gr)
               (explosion_timer gr + (Z.of_nat k - (max_flight_time gr - flight_time gr))));
    apply eq_sym; [apply Z.leb_le | apply Z.leb_gt]; lia.
  - symmetry. apply Z.leb_gt. lia.
Qed.

(** ** Power-up timers *)

(** X4: an insta-kill picked up at [t0] with duration [d] is still active
    after [update_powerups] at any clock reading up to [t0 + d] and gone
    after it. *)
Theorem insta_kill_window (p : @player F) (d t0 t : Z) :
  insta_kill_active (update_powerups (activate_insta_kill p d t0) t) = (t <=? t0 + d).
Proof.
  unfold update_powerups, activate_insta_kill. cbn.
  destruct (Z.ltb_spec (t0 + d) t); cbn;
  (destruct (ability_active (heroes p) && (ability_end_time (heroes p) <? t)); cbn;
   [destruct (hero_type (heroes p));
    [match goal with |- context [get_current_weapon ?q] => destruct (get_current_weapon q) as [cw |] end;
     [destruct (w_max_ammo (WEAPON_STATS cw)) |] |] |]; cbn);
  apply eq_sym; first [apply Z.leb_gt | apply Z.leb_le]; lia.
Qed.

(** ** Shooting *)

Lemma start_reload_cases (p : @player F) (now : Z) :
  fst (start_reload p now) = p \/ exists r, fst (start_reload p now) = set_reload p r.
Proof.
  unfold start_reload.
  destruct (get_current_weapon p) as [[] |]; cbn; auto;
  repeat match goal with |- context [if ?c then _ else _] => destruct c end; cbn; eauto.
Qed.

Lemma start_reload_keeps (p : @player F) (now : Z) :
  let p' := fst (start_reload p now) in
  last_shot p' = last_shot p /\ grenade_count p' = grenade_count p /\ ammo p' = ammo p /\
  weapons p' = weapons p /\ current_weapon_index p' = current_weapon_index p /\
  heroes p' = heroes p /\ insta_kill_active p' = insta_kill_active p /\
  px p' = px p /\ py p' = py p.
Proof.
  destruct (start_reload_cases p now) as [E | [r E]]; cbv zeta; rewrite E; cbn; auto 10.
Qed.

Ltac ltb_hyps :=
  repeat match goal with
  | H : (_ <? _) = true |- _ => apply Z.ltb_lt in H
  | H : (_ <? _) = false |- _ => apply Z.ltb_ge in H
  | H : (_ <=? _) = true |- _ => apply Z.leb_le in H
  | H : (_ <=? _) = false |- _ => apply Z.leb_gt in H
  end.

(** X5: a call to [shoot] either fires nothing and leaves [last_shot] alone,
    or fires only when the current weapon's cooldown has elapsed, stamps
    [last_shot] with the current time, and fires exactly one grenade (using
    up one of a positive [grenade_count]), five shotgun pellets, or one
    bullet for the other weapons; never bullets and grenades together. *)
Theorem shoot_output (p : @player F) (tx ty : F) (now : Z) :
  let (p', out) := shoot p tx ty now in
  let (bs, gs) := out in
  (bs = [] /\ gs = [] /\ last_shot p' = last_shot p) \/
  (exists cw, get_current_weapon p = Some cw /\ w_cooldown (WEAPON_STATS cw) < now - last_shot p /\
   last_shot p' = now /\
   ((cw = GRENADE /\ bs = [] /\ length gs = 1%nat /\ 0 < grenade_count p /\
     grenade_count p' = grenade_count p - 1) \/
    (cw = SHOTGUN /\ length bs = 5%nat /\ gs = []) \/
    (cw <> GRENADE /\ cw <> SHOTGUN /\ length bs = 1%nat /\ gs = []))).
Proof.
  unfold shoot. destruct (get_current_weapon p) as [cw |] eqn:Hw; [| left; auto].
  repeat match goal with |- context [if ?c then _ else _] => destruct c eqn:? end.
  all: destruct cw; cbn [weapon_eqb negb andb] in *; try discriminate; cbv beta zeta;
    repeat match goal with |- context [if ?c then _ else _] => destruct c eqn:? end.
  all: try match goal with |- context [match ammo ?q ?w with _ => _ end] => destruct (ammo q w) eqn:? end.
  all: try match goal with |- context [if ?c then _ else _] => destruct c eqn:? end.
  all: cbn in *; rewrite ?(proj1 (start_reload_keeps _ _)), ?(proj1 (proj2 (start_reload_keeps _ _))); cbn.
  all: ltb_hyps.
  all: first
    [ left; solve [repeat split; reflexivity]
    | right; eexists; split; [reflexivity |]; cbn; split; [lia |]; split; [reflexivity |];
      solve [ left; repeat split; first [reflexivity | discriminate | lia]
            | right; left; repeat split; first [reflexivity | discriminate | lia]
            | right; right; repeat split; first [reflexivity | discriminate | lia] ] ].
Qed.

Ltac shoot_split :=
  repeat match goal with |- context [if ?c then _ else _] => destruct c eqn:? end.

(** X6: while Nathan's ability is active, shooting never changes a
    magazine (the [ammo] table); a grenade throw still spends one grenade
    of [grenade_count], and nothing else changes that count.  Every bullet
    fired by a weapon other than the shotgun is homing. *)
Theorem nathan_ability_shots (p : @player F) (tx ty : F) (now : Z)
    (Hn : hero_type (heroes p) = NATHAN) (Ha : ability_active (heroes p) = true) :
  let (p', out) := shoot p tx ty now in
  ammo p' = ammo p /\
  grenade_count p' = grenade_count p - Z.of_nat (length (snd out)) /\
  (get_current_weapon p = Some GRENADE \/ snd out = []) /\
  (get_current_weapon p <> Some SHOTGUN -> Forall (fun b => homing b = true) (fst out)).
Proof.
  unfold shoot. destruct (get_current_weapon p) as [cw |] eqn:Hw;
    [| cbn; split; [reflexivity | split; [lia | split; [right; reflexivity | auto]]]].
  shoot_split.
  all: destruct cw; cbn [weapon_eqb negb andb] in *; try discriminate; cbv beta zeta; shoot_split.
  all: try match goal with |- context [match ammo ?q ?w with _ => _ end] => destruct (ammo q w) eqn:? end.
  all: shoot_split.
  all: cbn in *; rewrite ?Hn, ?Ha in *; cbn in *; try discriminate.
  all: split; [reflexivity |].
  all: split; [lia |].
  all: split; [first [left; reflexivity | right; reflexivity] |].
  all: intros Hs; try (exfalso; apply Hs; reflexivity); repeat constructor.
Qed.

(** X7: while insta-kill is active, every bullet and grenade that [shoot]
    creates deals 1000 damage, whatever the weapon. *)
Theorem insta_kill_shots (p : @player F) (tx ty : F) (now : Z)
    (Hi : insta_kill_active p = true) :
  let (p', out) := shoot p tx ty now in
  Forall (fun b => bdamage b = 1000) (fst out) /\ Forall (fun g => gdamage g = 1000) (snd out).
Proof.
  unfold shoot. destruct (get_current_weapon p) as [cw |] eqn:Hw; [| split; auto].
  shoot_split.
  all: destruct cw; cbn [weapon_eqb negb andb] in *; try discriminate; cbv beta zeta; shoot_split.
  all: try match goal with |- context [match ammo ?q ?w with _ => _ end] => destruct (ammo q w) eqn:? end.
  all: shoot_split.
  all: cbn in *; rewrite ?Hi in *; cbn in *; try discriminate.
  all: split; repeat constructor.
Qed.

(** X8: the shot that fires the last round of a pistol, machine gun or
    minigun (outside Nathan's ability) starts the reload on its own: the
    magazine is at 0 and reloading, [update_reload] leaves the player as is
    until [reload_time] has passed since the shot, and from then on refills
    the magazine to [max_ammo] and ends the reload. *)
Theorem emptying_shot_auto_reload (p : @player F) (tx ty : F) (now : Z) (cw : weapon)
    (Hw : get_current_weapon p = Some cw)
    (Hs : weapon_eqb cw SHOTGUN = false) (Hg : weapon_eqb cw GRENADE = false)
    (Ha : ammo p cw = Fin 1) (Hr : is_reloading (reload p) = false)
    (Hu : ability_active (heroes p) = false)
    (Hc : w_cooldown (WEAPON_STATS cw) < now - last_shot p) :
  let p1 := fst (shoot p tx ty now) in
  ammo p1 cw = Fin 0 /\ is_reloading (reload p1) = true /\ reload_weapon (reload p1) = Some cw /\
  (forall t, t < now + w_reload_time (WEAPON_STATS cw) -> update_reload p1 t = Some p1) /\
  (forall t, now + w_reload_time (WEAPON_STATS cw) <= t ->
   exists p2, update_reload p1 t = Some p2 /\
     ammo p2 cw = w_max_ammo (WEAPON_STATS cw) /\ is_reloading (reload p2) = false).
Proof.
  unfold shoot. rewrite Hw, Hr. cbn [andb negb].
  destruct cw; cbn [weapon_eqb] in Hs, Hg; try discriminate; cbn [weapon_eqb negb].
  all: rewrite Ha; cbn [amount_lt].
  all: replace (0 <? 1) with true by reflexivity; cbn [negb].
  all: apply Z.ltb_lt in Hc; rewrite Hc; cbv beta zeta.
  all: cbn [ammo set_last_shot]; rewrite Ha.
  all: cbn -[start_reload]; rewrite ?Hu; cbn -[start_reload].
  all: unfold start_reload; unfold get_current_weapon in *; cbn in *; rewrite Hw, Hr; cbn.
  all: destruct (hero_type (heroes p)); cbn.
  all: repeat split.
  all: intros t Ht; unfold update_reload; cbn.
  all: first [ replace (_ <=? t - now) with false by (symmetry; apply Z.leb_gt; lia); reflexivity
             | replace (_ <=? t - now) with true by (symmetry; apply Z.leb_le; lia); eexists; repeat split ].
Qed.

(** ** Ammunition bookkeeping *)

Ltac zbool :=
  repeat match goal with
  | |- context [?a <=? ?b] => destruct (Z.leb_spec a b)
  | |- context [?a <? ?b] => destruct (Z.ltb_spec a b)
  | H : context [?a <=? ?b] |- _ => destruct (Z.leb_spec a b)
  | H : context [?a <? ?b] |- _ => destruct (Z.ltb_spec a b)
  end; cbn in *; try discriminate; try reflexivity; try lia.

Lemma weapon_eqb_eq (a b : weapon) : weapon_eqb a b = true -> a = b.
Proof. destruct a, b; cbn; congruence. Qed.

Lemma ammo_okb_spec (p : @player F) :
  ammo_okb p = true <->
  (forall w, ammo_in_range (w_max_ammo (WEAPON_STATS w)) (ammo p w) = true) /\ 0 <= grenade_count p.
Proof.
  unfold ammo_okb. rewrite andb_true_iff, forallb_forall, Z.leb_le. split.
  - intros [H1 H2]. split; [| exact H2]. intros w. apply H1. destruct w; cbn; tauto.
  - intros [H1 H2]. split; [intros w _; apply H1 | exact H2].
Qed.

Lemma max_ammo_in_range (w : weapon) :
  ammo_in_range (w_max_ammo (WEAPON_STATS w)) (w_max_ammo (WEAPON_STATS w)) = true.
Proof. destruct w; reflexivity. Qed.

Lemma ammo_okb_ext (q p : @player F) :
  ammo q = ammo p -> grenade_count q = grenade_count p -> ammo_okb q = ammo_okb p.
Proof. intros H1 H2. unfold ammo_okb. rewrite H1, H2. reflexivity. Qed.

Lemma ammo_okb_set_ammo (p : @player F) (w : weapon) (a : amount) :
  ammo_okb p = true -> ammo_in_range (w_max_ammo (WEAPON_STATS w)) a = true ->
  ammo_okb (set_ammo p w a) = true.
Proof.
  rewrite !ammo_okb_spec. intros [H1 H2] Ha. split; [| exact H2].
  intros w'. cbn. destruct (weapon_eqb w' w) eqn:E; [apply weapon_eqb_eq in E; subst; exact Ha | apply H1].
Qed.

Lemma ammo_okb_consume (p : @player F) (w : weapon) :
  ammo_okb p = true -> amount_lt (Fin 0) (ammo p w) = true ->
  ammo_okb (set_ammo p w (amount_add (ammo p w) (-1))) = true.
Proof.
  intros H Hl. apply ammo_okb_set_ammo; [exact H |].
  apply ammo_okb_spec in H. destruct H as [H1 _]. specialize (H1 w).
  destruct (w_max_ammo (WEAPON_STATS w)), (ammo p w); cbn in *; try discriminate; auto.
  apply andb_prop in H1. destruct H1 as [A B]. apply Z.leb_le in A, B. apply Z.ltb_lt in Hl.
  apply andb_true_intro; split; apply Z.leb_le; lia.
Qed.

Lemma start_reload_ammo (p : @player F) (now : Z) :
  ammo (fst (start_reload p now)) = ammo p /\ grenade_count (fst (start_reload p now)) = grenade_count p.
Proof. destruct (start_reload_keeps p now) as [_ [H2 [H3 _]]]. auto. Qed.

Lemma load_shells_ok (fuel : nat) :
  forall (p : @player F) (w : weapon) (due : Z),
  ammo_okb p = true -> ammo_okb (load_shells fuel p w due (w_max_ammo (WEAPON_STATS w))) = true.
Proof.
  induction fuel as [| fuel IH]; intros p w due H; cbn; [exact H |].
  destruct (_ && _) eqn:E; [| exact H].
  apply andb_prop in E. destruct E as [_ E].
  apply IH.
  rewrite (ammo_okb_ext _ (set_ammo p w (amount_add (ammo p w) 1))) by reflexivity.
  apply ammo_okb_set_ammo; [exact H |].
  apply ammo_okb_spec in H. destruct H as [H1 _]. specialize (H1 w).
  destruct (w_max_ammo (WEAPON_STATS w)), (ammo p w); cbn in *; try discriminate; auto.
  apply andb_prop in H1. destruct H1 as [A B]. apply Z.leb_le in A, B. apply Z.ltb_lt in E.
  apply andb_true_intro; split; apply Z.leb_le; lia.
Qed.

Lemma fill_empty_slot_length (ws : list (option weapon)) (w : weapon) :
  forall ws', fill_empty_slot ws w = Some ws' -> length ws' = length ws /\ has_weapon ws' w = true.
Proof.
  induction ws as [| [o |] ws IH]; intros ws' H; cbn in H; try discriminate.
  - destruct (fill_empty_slot ws w) as [l |] eqn:E; cbn in H; [| discriminate].
    injection H as <-. destruct (IH l eq_refl) as [H1 H2]. cbn [length]. rewrite H1.
    split; [reflexivity |]. unfold has_weapon in *. cbn. rewrite H2. apply orb_true_r.
  - injection H as <-. cbn. destruct w; auto.
Qed.

Lemma replace_slot_length (ws : list (option weapon)) (w : weapon) :
  forall i, length (replace_slot ws i w) = length ws /\
  ((i < length ws)%nat -> has_weapon (replace_slot ws i w) w = true).
Proof.
  induction ws as [| o ws IH]; intros i; cbn; [split; [reflexivity | lia] |].
  destruct i as [| i]; cbn.
  - split; [reflexivity |]. intros _. destruct w; reflexivity.
  - destruct (IH i) as [H1 H2]. rewrite H1. split; [reflexivity |].
    intros Hi. unfold has_weapon in *. cbn. rewrite H2 by lia. apply orb_true_r.
Qed.

Lemma ammo_okb_add_weapon (p : @player F) (w : weapon) :
  ammo_okb p = true -> ammo_okb (add_weapon p w) = true.
Proof.
  intros H. unfold add_weapon. destruct w.
  all: try (destruct (has_weapon _ _);
            [apply ammo_okb_set_ammo; [exact H | apply max_ammo_in_range] |];
            destruct (fill_empty_slot _ _);
            apply ammo_okb_set_ammo; [| apply max_ammo_in_range | | apply max_ammo_in_range];
            rewrite (ammo_okb_ext _ p) by reflexivity; exact H).
  apply ammo_okb_spec in H. destruct H as [H1 H2].
  destruct (negb _); [destruct (fill_empty_slot _ _) |];
    apply ammo_okb_spec; cbn; split; auto; lia.
Qed.

(** X9: the ammunition bookkeeping (every magazine within [[0, max_ammo]],
    the grenade's entry [inf], a non-negative grenade count) holds for a new
    player and is kept by every player operation the game calls: shooting,
    reloading, picking up weapons, power-up expiry, weapon switching, the
    hero ability, kills, damage and movement. *)
Theorem ammo_bookkeeping (p : @player F) (H : ammo_okb p = true) :
  (forall (x y : F) (h : hero), ammo_okb (new_player x y h) = true) /\
  (forall tx ty now, ammo_okb (fst (shoot p tx ty now)) = true) /\
  (forall now, ammo_okb (fst (start_reload p now)) = true) /\
  (forall now p', update_reload p now = Some p' -> ammo_okb p' = true) /\
  (forall w, ammo_okb (add_weapon p w) = true) /\
  (forall now, ammo_okb (update_powerups p now) = true) /\
  (forall d, ammo_okb (switch_weapon p d) = true) /\
  (forall s, ammo_okb (switch_to_weapon_slot p s) = true) /\
  (forall now, ammo_okb (fst (activate_hero_ability p now)) = true) /\
  (forall k, ammo_okb (fst (add_kill p k)) = true) /\
  ammo_okb (fst (player_take_damage p)) = true /\
  (forall dx dy obs, ammo_okb (player_move p dx dy obs) = true).
Proof.
  repeat match goal with |- _ /\ _ => split end.
  - intros. reflexivity.
  - intros tx ty now. unfold shoot. destruct (get_current_weapon p) as [cw |] eqn:Hw; [| exact H].
    shoot_split.
    all: destruct cw; cbn [weapon_eqb negb andb] in *; try discriminate; cbv beta zeta; shoot_split.
    all: try match goal with |- context [match ammo ?q ?w with _ => _ end] => destruct (ammo q w) eqn:? end.
    all: shoot_split.
    all: cbn [fst].
    all: try match goal with |- ammo_okb (fst (start_reload ?q ?t)) = true =>
               rewrite (ammo_okb_ext (fst (start_reload q t)) q) by apply start_reload_ammo end.
    all: try (rewrite (ammo_okb_ext _ p) by reflexivity; exact H).
    all: try (apply ammo_okb_set_ammo; [rewrite (ammo_okb_ext _ p) by reflexivity; exact H |]).
    all: apply ammo_okb_spec in H; destruct H as [H1 H2].
    all: try (match goal with |- ammo_in_range (w_max_ammo (WEAPON_STATS ?w)) _ = true =>
                specialize (H1 w) end;
              cbn in *; repeat match goal with E : ammo _ _ = _ |- _ => rewrite E in * end;
              cbn in *; zbool).
    all: apply ammo_okb_spec; cbn in *; split; [exact H1 | ltb_hyps; lia].
  - intros now. rewrite (ammo_okb_ext _ p) by apply start_reload_ammo. exact H.
  - intros now p'. unfold update_reload.
    destruct (negb _); [congruence |].
    destruct (reload_weapon (reload p)) as [w |]; [| discriminate].
    destruct w; cbn -[load_shells].
    all: try (destruct (_ <=? _); intros E; injection E as <-;
              [apply ammo_okb_set_ammo; [exact H | apply max_ammo_in_range] | exact H]).
    pose proof (load_shells_ok (Z.to_nat ((now - reload_start_time (reload p)) / 1000 -
                  shotgun_shells_reloaded (reload p))) p SHOTGUN
                  ((now - reload_start_time (reload p)) / 1000) H) as L.
    cbn in L. destruct (amount_ge _ _); intros E; injection E as <-; [| exact L].
    rewrite (ammo_okb_ext _ (load_shells (Z.to_nat ((now - reload_start_time (reload p)) / 1000 -
               shotgun_shells_reloaded (reload p))) p SHOTGUN
               ((now - reload_start_time (reload p)) / 1000) (Fin 5))) by reflexivity.
    exact L.
  - intros w. apply ammo_okb_add_weapon. exact H.
  - intros now. unfold update_powerups.
    assert (H' : ammo_okb (if insta_kill_active p && (insta_kill_end_time p <? now)
                           then set_insta_kill p false (insta_kill_end_time p) else p) = true)
      by (destruct (_ && _); [rewrite (ammo_okb_ext _ p) by reflexivity |]; exact H).
    revert H'. generalize (if insta_kill_active p && (insta_kill_end_time p <? now)
                           then set_insta_kill p false (insta_kill_end_time p) else p).
    intros q Hq.
    destruct (_ && _); [| exact Hq].
    destruct (hero_type (heroes q)); [| cbn; rewrite (ammo_okb_ext _ q) by reflexivity; exact Hq].
    match goal with |- context [get_current_weapon ?q'] => destruct (get_current_weapon q') as [cw |] end;
      [| rewrite (ammo_okb_ext _ q) by reflexivity; exact Hq].
    destruct cw; cbn [WEAPON_STATS w_max_ammo];
      try (rewrite (ammo_okb_ext _ q) by reflexivity; exact Hq).
    all: match goal with |- ammo_okb (clear_reload_state ?x) = true =>
           rewrite (ammo_okb_ext (clear_reload_state x) x) by reflexivity end;
         apply ammo_okb_set_ammo; [rewrite (ammo_okb_ext _ q) by reflexivity; exact Hq | reflexivity].
  - intros d. rewrite (ammo_okb_ext _ p) by reflexivity. exact H.
  - intros s. unfold switch_to_weapon_slot. destruct (_ && _); [| exact H].
    rewrite (ammo_okb_ext _ p) by reflexivity. exact H.
  - intros now. unfold activate_hero_ability. destruct (_ <=? _); [| exact H].
    destruct (hero_type (heroes p)); cbn; rewrite (ammo_okb_ext _ p) by reflexivity; exact H.
  - intros k. unfold add_kill. destruct k; cbn;
      (destruct (_ && _); cbn; rewrite (ammo_okb_ext _ p) by reflexivity; exact H).
  - rewrite (ammo_okb_ext _ p) by reflexivity. exact H.
  - intros dx dy obs. unfold player_move. destruct (negb _); cbn;
      rewrite (ammo_okb_ext _ p) by reflexivity; exact H.
Qed.

(** ** Weapon pickups and switching *)

Ltac add_weapon_cases p w :=
  destruct (has_weapon (weapons p) w) eqn:Eh;
  [| destruct (fill_empty_slot (weapons p) w) as [l |] eqn:Ef].

(** X10: [add_weapon] (with the weapon index on one of the slots) always
    leaves the picked-up weapon in a slot, keeps the number of slots and the
    selected index, leaves the other weapons' ammunition alone, and either
    fills the new weapon's magazine or, for a grenade, adds one grenade. *)
Theorem add_weapon_result (p : @player F) (w : weapon)
    (Hi : (current_weapon_index p < length (weapons p))%nat) :
  let p' := add_weapon p w in
  has_weapon (weapons p') w = true /\ length (weapons p') = length (weapons p) /\
  current_weapon_index p' = current_weapon_index p /\
  (forall w', weapon_eqb w' w = false -> ammo p' w' = ammo p w') /\
  match w with
  | GRENADE => grenade_count p' = grenade_count p + 1
  | _ => ammo p' w = w_max_ammo (WEAPON_STATS w) /\ grenade_count p' = grenade_count p
  end.
Proof.
  cbv zeta. unfold add_weapon.
  assert (RS1 : forall w, length (replace_slot (weapons p) (current_weapon_index p) w) = length (weapons p))
    by (intros w'; apply replace_slot_length).
  assert (RS2 : forall w, has_weapon (replace_slot (weapons p) (current_weapon_index p) w) w = true)
    by (intros w'; apply replace_slot_length; exact Hi).
  assert (FE : forall w l, fill_empty_slot (weapons p) w = Some l ->
                 length l = length (weapons p) /\ has_weapon l w = true)
    by (intros w' l; apply fill_empty_slot_length).
  destruct w;
    [add_weapon_cases p PISTOL | add_weapon_cases p SHOTGUN | add_weapon_cases p MACHINE_GUN |
     cbn [weapons set_grenade_count negb];
     destruct (has_weapon (weapons p) GRENADE) eqn:Eh;
     [| destruct (fill_empty_slot (weapons p) GRENADE) as [l |] eqn:Ef] |
     add_weapon_cases p MINIGUN].
  all: try destruct (FE _ _ Ef) as [L1 L2].
  all: cbn -[has_weapon]; rewrite ?RS1, ?RS2; repeat split; auto.
  all: intros w' E; rewrite E; reflexivity.
Qed.

Lemma switch_loop_finds (ws : list (option weapon)) (direction : Z) (fuel : nat) :
  (0 < length ws)%nat ->
  forall (idx : nat) (j : Z), 1 <= j <= Z.of_nat fuel ->
  (exists w, nth_error ws (Z.to_nat ((Z.of_nat idx + j * direction) mod Z.of_nat (length ws))) = Some (Some w)) ->
  exists w, nth_error ws (switch_loop fuel ws idx direction) = Some (Some w).
Proof.
  intros Hn. induction fuel as [| fuel IH]; intros idx j Hj Hw; [lia |].
  cbn [switch_loop].
  set (i := Z.to_nat ((Z.of_nat idx + direction) mod Z.of_nat (length ws))).
  destruct (nth_error ws i) as [[w |] |] eqn:E; [eauto | |].
  all: destruct (Z.eq_dec j 1) as [-> | Hj1];
       [rewrite Z.mul_1_l in Hw; destruct Hw as [w Hw]; fold i in Hw; congruence |].
  all: apply (IH i (j - 1)); [lia |].
  all: replace ((Z.of_nat i + (j - 1) * direction) mod Z.of_nat (length ws))
         with ((Z.of_nat idx + j * direction) mod Z.of_nat (length ws)); [exact Hw |].
  all: unfold i; rewrite Z2Nat.id by (apply Z.mod_pos_bound; lia).
  all: rewrite Z.add_mod_idemp_l by lia; f_equal; ring.
Qed.

Lemma nth_error_slot (ws : list (option weapon)) (s : nat) (w : weapon) :
  nth_error ws s = Some (Some w) -> (s < length ws)%nat.
Proof. intros H. apply nth_error_Some. congruence. Qed.

Lemma has_any_weapon_slot (ws : list (option weapon)) :
  has_any_weapon ws = true -> exists s w, nth_error ws s = Some (Some w).
Proof.
  induction ws as [| [w |] ws IH]; cbn; [discriminate | |].
  - intros _. exists O, w. reflexivity.
  - intros H. destruct (IH H) as [s [w Hs]]. exists (S s), w. exact Hs.
Qed.

(** X11: scrolling the mouse wheel ([switch_weapon] with direction 1 or -1)
    always lands on a slot that holds a weapon when some slot does, and
    cancels any reload in progress. *)
Theorem switch_weapon_lands (p : @player F) (direction : Z)
    (Hd : direction = 1 \/ direction = -1) (Hs : has_any_weapon (weapons p) = true) :
  (exists w, get_current_weapon (switch_weapon p direction) = Some w) /\
  reload (switch_weapon p direction) = no_reload.
Proof.
  split; [| reflexivity].
  destruct (has_any_weapon_slot _ Hs) as [s [w Hw]].
  pose proof (nth_error_slot _ _ _ Hw) as Hsl.
  set (n := Z.of_nat (length (weapons p))).
  set (idx := Z.of_nat (current_weapon_index p)).
  assert (Hn : 0 < n) by (unfold n; lia).
  unfold switch_weapon, get_current_weapon. cbn [weapons current_weapon_index clear_reload_state set_reload set_weapon_index].
  destruct (switch_loop_finds (weapons p) direction (length (weapons p)) ltac:(lia)
              (current_weapon_index p)
              (if Z.eqb direction 1 then (Z.of_nat s - idx - 1) mod n + 1 else (idx - Z.of_nat s - 1) mod n + 1))
    as [w' Hw'].
  - pose proof (Z.mod_pos_bound (Z.of_nat s - idx - 1) n Hn).
    pose proof (Z.mod_pos_bound (idx - Z.of_nat s - 1) n Hn).
    destruct (Z.eqb direction 1); fold n; lia.
  - exists w. fold n. fold idx.
    replace ((idx + (if direction =? 1 then (Z.of_nat s - idx - 1) mod n + 1
                     else (idx - Z.of_nat s - 1) mod n + 1) * direction) mod n) with (Z.of_nat s).
    + rewrite Nat2Z.id. exact Hw.
    + destruct Hd as [-> | ->]; cbn [Z.eqb Pos.eqb].
      * replace (idx + ((Z.of_nat s - idx - 1) mod n + 1) * 1)
          with (Z.of_nat s + (- ((Z.of_nat s - idx - 1) / n)) * n)
          by (rewrite (Z.mod_eq (Z.of_nat s - idx - 1) n) by lia; ring).
        rewrite Z.mod_add by lia. rewrite Z.mod_small by lia. reflexivity.
      * replace (idx + ((idx - Z.of_nat s - 1) mod n + 1) * -1)
          with (Z.of_nat s + ((idx - Z.of_nat s - 1) / n) * n)
          by (rewrite (Z.mod_eq (idx - Z.of_nat s - 1) n) by lia; ring).
        rewrite Z.mod_add by lia. rewrite Z.mod_small by lia. reflexivity.
  - exists w'. rewrite Hw'. reflexivity.
Qed.

(** ** Zombie movement counters *)

Lemma try_direct_movement_pos (z : @zombie F) a obs o z' :
  try_direct_movement z a obs o = Some z' -> exists x y, z' = set_pos z x y.
Proof.
  unfold try_direct_movement. cbv zeta.
  destruct (negb _); intros H; [injection H as <-; eauto | discriminate].
Qed.

Lemma try_axis_aligned_movement_pos (z : @zombie F) a obs o z' :
  try_axis_aligned_movement z a obs o = Some z' -> exists x y, z' = set_pos z x y.
Proof.
  unfold try_axis_aligned_movement. cbv zeta.
  destruct (negb _); [intros H; injection H as <-; eauto |].
  destruct (negb _); intros H; [injection H as <-; eauto | discriminate].
Qed.

Lemma first_free_pos (z : @zombie F) scale angles obs o z' :
  first_free z scale angles obs o = Some z' -> exists x y, z' = set_pos z x y.
Proof.
  induction angles as [| a rest IH]; cbn; [discriminate |].
  destruct (negb _); [intros H; injection H as <-; eauto | exact IH].
Qed.

Lemma try_unstuck_loop_pos (n : nat) :
  forall (z : @zombie F) obs o (r : R) z' r',
  try_unstuck_loop n z obs o r = (Some z', r') -> exists x y, z' = set_pos z x y.
Proof.
  induction n as [| n IH]; intros z obs o r z' r'; cbn; [discriminate |].
  destruct (uniform _ _ r) as [a r1]. cbv zeta.
  destruct (negb _); [intros H; injection H as <- _; eauto | apply IH].
Qed.

Lemma determine_movement_angle_counters (z : @zombie F) d (r : R) a zi r' :
  zombie_counters_ok z -> determine_movement_angle z d r = (a, zi, r') ->
  zombie_counters_ok zi /\ zid zi = zid z /\ zkind_of zi = zkind_of z /\
  zhealth zi = zhealth z /\ zmax_health zi = zmax_health z /\ zsize zi = zsize z /\
  zspeed zi = zspeed z.
Proof.
  unfold zombie_counters_ok, determine_movement_angle. intros [H1 H2].
  destruct (Z.ltb_spec 0 (avoidance_timer z)).
  - destruct (Z.ltb_spec 0 (avoidance_timer z - 1)).
    + intros E; injection E as _ <- _. cbn. repeat split; lia.
    + destruct (ZOMBIE_STUCK_THRESHOLD <? stuck_counter z).
      * destruct (uniform _ _ r). intros E; injection E as _ <- _. cbn.
        unfold ZOMBIE_AVOIDANCE_DURATION. repeat split; lia.
      * intros E; injection E as _ <- _. cbn. repeat split; lia.
  - destruct (Z.ltb_spec 0 (avoidance_timer z)); [lia |].
    destruct (ZOMBIE_STUCK_THRESHOLD <? stuck_counter z).
    + destruct (uniform _ _ r). intros E; injection E as _ <- _. cbn.
      unfold ZOMBIE_AVOIDANCE_DURATION. repeat split; lia.
    + intros E; injection E as _ <- _. cbn. repeat split; lia.
Qed.

Lemma update_stuck_detection_counters (z : @zombie F) x y b :
  zombie_counters_ok z ->
  let z' := update_stuck_detection z x y b in
  zombie_counters_ok z' /\ zid z' = zid z /\ zkind_of z' = zkind_of z /\
  zhealth z' = zhealth z /\ zmax_health z' = zmax_health z /\ zsize z' = zsize z /\
  zspeed z' = zspeed z.
Proof.
  unfold zombie_counters_ok, update_stuck_detection, ZOMBIE_STUCK_THRESHOLD. intros [H1 H2]. cbn.
  repeat split; try lia;
  destruct (b && _); lia.
Qed.

Lemma zombie_base_update_counters (z : @zombie F) (player_x player_y : F) (obs : list rect)
    (others : option (list zombie)) (r : R) :
  zombie_counters_ok z ->
  let z' := fst (zombie_base_update z player_x player_y obs others r) in
  zombie_counters_ok z' /\ zid z' = zid z /\ zkind_of z' = zkind_of z /\
  zhealth z' = zhealth z /\ zmax_health z' = zmax_health z /\ zsize z' = zsize z /\
  zspeed z' = zspeed z.
Proof.
  intros H. cbv zeta. unfold zombie_base_update.
  set (z0 := set_ai z _ _ _ _).
  assert (H0 : zombie_counters_ok z0) by exact H.
  destruct (determine_movement_angle z0 _ r) as [[a zi] r1] eqn:Ed.
  destruct (determine_movement_angle_counters z0 _ r a zi r1 H0 Ed)
    as [Hi [I1 [I2 [I3 [I4 [I5 I6]]]]]].
  assert (K : forall z1 x y b, (exists x' y', z1 = set_pos zi x' y') \/ z1 = zi ->
            let z' := update_stuck_detection z1 x y b in
            zombie_counters_ok z' /\ zid z' = zid z /\ zkind_of z' = zkind_of z /\
            zhealth z' = zhealth z /\ zmax_health z' = zmax_health z /\ zsize z' = zsize z /\
            zspeed z' = zspeed z).
  { intros z1 x y b Hz1.
    assert (Hz : zombie_counters_ok z1 /\ zid z1 = zid z0 /\ zkind_of z1 = zkind_of z0 /\
                 zhealth z1 = zhealth z0 /\ zmax_health z1 = zmax_health z0 /\
                 zsize z1 = zsize z0 /\ zspeed z1 = zspeed z0)
      by (destruct Hz1 as [[x' [y' ->]] | ->]; unfold zombie_counters_ok in *; cbn;
          rewrite <- ?I1, <- ?I2, <- ?I3, <- ?I4, <- ?I5, <- ?I6; tauto).
    destruct Hz as [C [E1 [E2 [E3 [E4 [E5 E6]]]]]].
    destruct (update_stuck_detection_counters z1 x y b C) as [D [F1 [F2 [F3 [F4 [F5 F6]]]]]].
    cbv zeta. rewrite F1, F2, F3, F4, F5, F6, E1, E2, E3, E4, E5, E6.
    split; [exact D |]. subst z0; cbn. tauto. }
  destruct (try_direct_movement zi a obs others) as [z1 |] eqn:E1.
  { apply K. left. exact (try_direct_movement_pos _ _ _ _ _ E1). }
  destruct (try_axis_aligned_movement zi a obs others) as [z1 |] eqn:E2.
  { apply K. left. exact (try_axis_aligned_movement_pos _ _ _ _ _ E2). }
  destruct (try_wall_sliding zi a obs others) as [z1 |] eqn:E3.
  { apply K. left. exact (first_free_pos _ _ _ _ _ _ E3). }
  destruct (try_unstuck_movement zi obs others r1) as [[z1 |] r2] eqn:E4; apply K.
  - left. exact (try_unstuck_loop_pos _ _ _ _ _ _ _ E4).
  - right. reflexivity.
Qed.

(** X12: one [Zombie.update] keeps the stuck counter and the avoidance timer
    within [[0, 60]] (the cap [ZOMBIE_STUCK_THRESHOLD * 2] and the
    [ZOMBIE_AVOIDANCE_DURATION]) when they start there, and never changes
    the zombie's identity, class, health, size or speed. *)
Theorem zombie_update_counters (z : @zombie F) (player_x player_y : F) (obs : list rect)
    (others : option (list zombie)) (r : R) (H : zombie_counters_ok z) :
  let z' := fst (zombie_update z player_x player_y obs others r) in
  zombie_counters_ok z' /\ zid z' = zid z /\ zkind_of z' = zkind_of z /\
  zhealth z' = zhealth z /\ zmax_health z' = zmax_health z /\ zsize z' = zsize z /\
  zspeed z' = zspeed z.
Proof.
  pose proof (zombie_base_update_counters z player_x player_y obs others r H) as B.
  unfold zombie_update. cbv zeta in *.
  destruct (zombie_base_update z player_x player_y obs others r) as [z1 r1].
  cbn [fst] in *. destruct (zkind_of z); exact B.
Qed.

(** ** Pickups are collected once *)

Lemma add_weapon_pos (p : @player F) w : px (add_weapon p w) = px p /\ py (add_weapon p w) = py p.
Proof.
  unfold add_weapon.
  destruct w; repeat match goal with
    | |- context [if ?c then _ else _] => destruct c
    | |- context [match fill_empty_slot ?ws ?w with _ => _ end] => destruct (fill_empty_slot ws w)
    end; split; reflexivity.
Qed.

Lemma weapon_check_pickup_again (k k' : @weapon_pickup F) x y b :
  weapon_check_pickup k x y = (k', b) -> weapon_check_pickup k' x y = (k', false).
Proof.
  unfold weapon_check_pickup.
  destruct (wcollected k) eqn:Ec.
  - intros E; injection E as <- _. rewrite Ec. reflexivity.
  - destruct (flt _ _) eqn:Ed.
    + intros E; injection E as <- _. reflexivity.
    + intros E; injection E as <- _. rewrite Ec, Ed. reflexivity.
Qed.

Lemma weapon_check_pickup_fields (k k' : @weapon_pickup F) x y b :
  weapon_check_pickup k x y = (k', b) ->
  wpx k' = wpx k /\ wpy k' = wpy k /\ weapon_type k' = weapon_type k /\ wsize k' = wsize k /\
  (wcollected k = true -> k' = k) /\ (wcollected k' = false -> k' = k).
Proof.
  unfold weapon_check_pickup.
  destruct (wcollected k) eqn:Ec.
  - intros E; injection E as <- _. repeat split; auto.
  - destruct (flt _ _).
    + intros E; injection E as <- _. cbn. repeat split; try discriminate.
    + intros E; injection E as <- _. repeat split; auto.
Qed.

Section PickupFold.
Variable pickup_step : list (@weapon_pickup F) * @player F -> @weapon_pickup F ->
  list (@weapon_pickup F) * @player F.
Hypothesis pickup_step_eq : forall acc p k,
  pickup_step (acc, p) k =
  let (k', picked) := weapon_check_pickup k (px p) (py p) in
  (acc ++ [k'], if picked then add_weapon p (weapon_type k') else p).

Lemma pickup_fold_first (ks acc : list (@weapon_pickup F)) (p : @player F) :
  let '(ks', p') := fold_left pickup_step ks (acc, p) in
  px p' = px p /\ py p' = py p /\
  exists ks1, ks' = acc ++ ks1 /\
    Forall (fun k => weapon_check_pickup k (px p) (py p) = (k, false)) ks1 /\
    Forall2 (fun k k' => exists b, weapon_check_pickup k (px p) (py p) = (k', b)) ks ks1.
Proof.
  revert acc p. induction ks as [| k ks IH]; intros acc p; cbn [fold_left].
  - split; [reflexivity | split; [reflexivity |]]. exists []. rewrite app_nil_r. auto.
  - rewrite pickup_step_eq.
    destruct (weapon_check_pickup k (px p) (py p)) as [k' b] eqn:Ek.
    set (p1 := if b then add_weapon p (weapon_type k') else p).
    assert (Hp : px p1 = px p /\ py p1 = py p)
      by (subst p1; destruct b; [apply add_weapon_pos | split; reflexivity]).
    specialize (IH (acc ++ [k']) p1).
    destruct (fold_left pickup_step ks (acc ++ [k'], p1)) as [ks' p'].
    destruct IH as [E1 [E2 [ks1 [-> [HF HF2]]]]]. destruct Hp as [Hx Hy].
    split; [congruence | split; [congruence |]].
    exists (k' :: ks1). split; [rewrite <- app_assoc; reflexivity |].
    rewrite Hx, Hy in HF, HF2. split.
    + constructor; [exact (weapon_check_pickup_again _ _ _ _ _ Ek) | exact HF].
    + constructor; [exists b; exact Ek | exact HF2].
Qed.

Lemma pickup_fold_stable (ks acc : list (@weapon_pickup F)) (p : @player F) :
  Forall (fun k => weapon_check_pickup k (px p) (py p) = (k, false)) ks ->
  fold_left pickup_step ks (acc, p) = (acc ++ ks, p).
Proof.
  revert acc. induction ks as [| k ks IH]; intros acc HF; cbn [fold_left].
  - rewrite app_nil_r. reflexivity.
  - inversion HF as [| ? ? Hk HF']; subst. rewrite pickup_step_eq, Hk.
    rewrite IH by exact HF'. rewrite <- app_assoc. reflexivity.
Qed.

End PickupFold.

(** X13: the weapon-pickup pass of [Game.update_game] is idempotent: running it
    a second time right after the first changes nothing, so no pickup is
    ever collected twice.  The pass keeps every pickup in the list, in its
    place, with its position, weapon and size: a pickup collected before
    the pass is left as it is, and a pickup the pass changes is one it
    marks collected. *)
Theorem pickup_phase_idempotent (g : @game F) :
  pickup_phase (pickup_phase g) = pickup_phase g /\
  Forall2 (fun k k' => wpx k' = wpx k /\ wpy k' = wpy k /\ weapon_type k' = weapon_type k /\
                       wsize k' = wsize k /\
                       (wcollected k = true -> k' = k) /\ (wcollected k' = false -> k' = k))
    (weapon_pickups (ents g)) (weapon_pickups (ents (pickup_phase g))).
Proof.
  unfold pickup_phase.
  match goal with |- context [fold_left ?f (weapon_pickups (ents g)) _] => set (pickup_step := f) end.
  assert (Hs : forall acc p k, pickup_step (acc, p) k =
            let (k', picked) := weapon_check_pickup k (px p) (py p) in
            (acc ++ [k'], if picked then add_weapon p (weapon_type k') else p))
    by reflexivity.
  pose proof (pickup_fold_first pickup_step Hs (weapon_pickups (ents g)) [] (gplayer g)) as H.
  destruct (fold_left pickup_step (weapon_pickups (ents g)) ([], gplayer g)) as [ks p].
  destruct H as [Hx [Hy [ks1 [Eks [HF HF2]]]]]. cbn in Eks. subst ks1.
  assert (HK : Forall2 (fun k k' => wpx k' = wpx k /\ wpy k' = wpy k /\ weapon_type k' = weapon_type k /\
                       wsize k' = wsize k /\
                       (wcollected k = true -> k' = k) /\ (wcollected k' = false -> k' = k))
                 (weapon_pickups (ents g)) ks).
  { eapply Forall2_impl; [| exact HF2]. intros k k' [b Hb]. exact (weapon_check_pickup_fields _ _ _ _ _ Hb). }
  destruct g as [p0 [bs gs zs ks0 us n] obs ex sp lz st nb nt]. cbn in *.
  split; [| exact HK].
  rewrite <- Hx, <- Hy in HF.
  rewrite (pickup_fold_stable pickup_step Hs ks [] p HF). reflexivity.
Qed.

Lemma powerup_update_and_check_again (u u' : @powerup F) x y :
  powerup_update_and_check u x y = (u', false) ->
  powerup_update_and_check u' x y =
    (mk_powerup (pux u') (puy u') (pickup_radius u') (pcollected u') (pulse_time u' + 1)
       (duration u'), false).
Proof.
  unfold powerup_update_and_check. cbv zeta. cbn [pcollected pux puy pickup_radius pulse_time duration].
  destruct (pcollected u) eqn:Ec.
  - intros E; injection E as <-. cbn. reflexivity.
  - destruct (flt _ _) eqn:Ed; [discriminate |].
    intros E; injection E as <-. cbn. rewrite ?Ec, ?Ed. reflexivity.
Qed.

Lemma powerup_update_and_check_kept (u u' : @powerup F) x y :
  powerup_update_and_check u x y = (u', false) ->
  u' = mk_powerup (pux u) (puy u) (pickup_radius u) (pcollected u) (pulse_time u + 1) (duration u).
Proof.
  unfold powerup_update_and_check. cbv zeta. cbn [pcollected pux puy pickup_radius pulse_time duration].
  destruct (pcollected u).
  - intros E; injection E as <-. reflexivity.
  - destruct (flt _ _); [discriminate |]. intros E; injection E as <-. reflexivity.
Qed.

Section PowerupFold.
Variable now : Z.
Variable powerup_step : list (@powerup F) * @player F -> @powerup F ->
  list (@powerup F) * @player F.
Hypothesis powerup_step_eq : forall acc p u,
  powerup_step (acc, p) u =
  let (u', picked) := powerup_update_and_check u (px p) (py p) in
  if picked then (acc, activate_insta_kill p (duration u') now) else (acc ++ [u'], p).

Lemma powerup_fold_first (us acc : list (@powerup F)) (p : @player F) :
  let '(us', p') := fold_left powerup_step us (acc, p) in
  px p' = px p /\ py p' = py p /\
  exists us1, us' = acc ++ us1 /\
    Forall (fun u => powerup_update_and_check u (px p) (py p) =
      (mk_powerup (pux u) (puy u) (pickup_radius u) (pcollected u) (pulse_time u + 1)
         (duration u), false)) us1 /\
    us1 = map (fun u => mk_powerup (pux u) (puy u) (pickup_radius u) (pcollected u)
                          (pulse_time u + 1) (duration u))
            (filter (fun u => negb (snd (powerup_update_and_check u (px p) (py p)))) us).
Proof.
  revert acc p. induction us as [| u us IH]; intros acc p; cbn [fold_left].
  - split; [reflexivity | split; [reflexivity |]]. exists []. rewrite app_nil_r. auto.
  - rewrite powerup_step_eq. cbn [filter].
    destruct (powerup_update_and_check u (px p) (py p)) as [u' b] eqn:Eu. destruct b.
    + specialize (IH acc (activate_insta_kill p (duration u') now)).
      destruct (fold_left powerup_step us _) as [us' p']. exact IH.
    + specialize (IH (acc ++ [u']) p).
      destruct (fold_left powerup_step us _) as [us' p'].
      destruct IH as [E1 [E2 [us1 [-> [HF Hm]]]]].
      split; [exact E1 | split; [exact E2 |]].
      exists (u' :: us1). split; [rewrite <- app_assoc; reflexivity |].
      split.
      * constructor; [exact (powerup_update_and_check_again _ _ _ _ Eu) | exact HF].
      * cbn [negb snd map]. rewrite <- Hm. f_equal.
        exact (powerup_update_and_check_kept _ _ _ _ Eu).
Qed.

Lemma powerup_fold_stable (us acc : list (@powerup F)) (p : @player F) :
  Forall (fun u => powerup_update_and_check u (px p) (py p) =
      (mk_powerup (pux u) (puy u) (pickup_radius u) (pcollected u) (pulse_time u + 1)
         (duration u), false)) us ->
  fold_left powerup_step us (acc, p) =
    (acc ++ map (fun u => mk_powerup (pux u) (puy u) (pickup_radius u) (pcollected u)
                            (pulse_time u + 1) (duration u)) us, p).
Proof.
  revert acc. induction us as [| u us IH]; intros acc HF; cbn [fold_left map].
  - rewrite app_nil_r. reflexivity.
  - inversion HF as [| ? ? Hu HF']; subst. rewrite powerup_step_eq, Hu.
    rewrite IH by exact HF'. rewrite <- app_assoc. reflexivity.
Qed.

End PowerupFold.

(** X14: a power-up is consumed at most once.  The power-up pass of
    [Game.update_game] keeps exactly the power-ups it does not collect at the
    player's position, in their order and with their pulse advanced, so it
    removes every power-up it collects; running the pass again at any clock
    collects nothing, leaves the player as it is and only advances the pulse
    of the remaining power-ups. *)
Theorem powerup_phase_again (g : @game F) (now now' : Z) :
  let g1 := powerup_phase g now in
  powerups (ents g1) =
    map (fun u => mk_powerup (pux u) (puy u) (pickup_radius u) (pcollected u)
                    (pulse_time u + 1) (duration u))
      (filter (fun u => negb (snd (powerup_update_and_check u (px (gplayer g)) (py (gplayer g)))))
         (powerups (ents g))) /\
  powerup_phase g1 now' =
    set_powerups g1 (map (fun u => mk_powerup (pux u) (puy u) (pickup_radius u) (pcollected u)
                                     (pulse_time u + 1) (duration u)) (powerups (ents g1))).
Proof.
  cbv zeta. remember (powerup_phase g now) as g1 eqn:E1.
  unfold powerup_phase in E1.
  match type of E1 with context [fold_left ?f (powerups (ents g)) _] => set (step := f) in E1 end.
  assert (Hs : forall acc p u, step (acc, p) u =
            let (u', picked) := powerup_update_and_check u (px p) (py p) in
            if picked then (acc, activate_insta_kill p (duration u') now) else (acc ++ [u'], p))
    by reflexivity.
  pose proof (powerup_fold_first now step Hs (powerups (ents g)) [] (gplayer g)) as H.
  destruct (fold_left step (powerups (ents g)) ([], gplayer g)) as [us p].
  destruct H as [Hx [Hy [us1 [Eus [HF Hm]]]]]. cbn in Eus. subst us1 g1.
  split.
  { rewrite <- Hm. destruct g as [p0 [bs gs zs ks us0 n] obs ex sp lz st nb nt]. reflexivity. }
  unfold powerup_phase.
  match goal with |- context [fold_left ?f _ _] => set (step' := f) end.
  assert (Hs' : forall acc p u, step' (acc, p) u =
            let (u', picked) := powerup_update_and_check u (px p) (py p) in
            if picked then (acc, activate_insta_kill p (duration u') now') else (acc ++ [u'], p))
    by reflexivity.
  rewrite <- Hx, <- Hy in HF.
  replace (powerups (ents (set_player (set_powerups g us) p))) with us
    by (destruct g as [p0 [bs gs zs ks us0 n] obs ex sp lz st nb nt]; reflexivity).
  replace (gplayer (set_player (set_powerups g us) p)) with p
    by (destruct g; reflexivity).
  rewrite (powerup_fold_stable now' step' Hs' us [] p HF).
  destruct g as [p0 [bs gs zs ks us0 n] obs ex sp lz st nb nt]. reflexivity.
Qed.

(** ** Map, pickups and restart *)

Lemma generate_obstacles_length (n : nat) :
  forall (obs : list rect) (r : R), length (fst (generate_obstacles n obs r)) = (length obs + n)%nat.
Proof.
  induction n as [| n IH]; intros obs r; cbn [generate_obstacles].
  - cbn. lia.
  - destruct (randint _ _ r) as [x r1]. destruct (randint _ _ r1) as [y r2].
    destruct (randint _ _ r2) as [w r3]. destruct (randint _ _ r3) as [h r4].
    rewrite IH, length_app. cbn. lia.
Qed.

Lemma place_attempts_free (n : nat) :
  forall off side obs (r : R) x y r',
  place_attempts n off side obs r = (Some (x, y), r') ->
  existsb (colliderect (mk_rect (x - off) (y - off) side side)) obs = false.
Proof.
  induction n as [| n IH]; intros off side obs r x y r'; cbn [place_attempts]; [discriminate |].
  destruct (randint _ _ r) as [x0 r1]. destruct (randint _ _ r1) as [y0 r2].
  destruct (existsb _ obs) eqn:Ec; cbn [negb].
  - apply IH.
  - intros E; injection E as <- <- _. exact Ec.
Qed.

Lemma spawn_pickups_fold (ws : list weapon) :
  forall (ks : list (@weapon_pickup F)) obs (r : R),
  let (ks', _) := fold_left (fun '(ks, r) w =>
      let (res, r) := place_attempts 50 15 30 obs r in
      match res with
      | Some (x, y) => (ks ++ [new_weapon_pickup (fofZ x) (fofZ y) w], r)
      | None => (ks, r)
      end) ws (ks, r) in
  exists ps : list (Z * Z * weapon),
    ks' = ks ++ map (fun '(x, y, w) => new_weapon_pickup (fofZ x) (fofZ y) w) ps /\
    (length ps <= length ws)%nat /\
    Forall (fun '(x, y, w) =>
      existsb (colliderect (mk_rect (x - 15) (y - 15) 30 30)) obs = false /\ In w ws) ps /\
    exists mask : list bool, length mask = length ws /\
      map (fun '(_, _, w) => w) ps = map snd (filter fst (combine mask ws)).
Proof.
  induction ws as [| w ws IH]; intros ks obs r; cbn [fold_left].
  - exists []. rewrite app_nil_r. cbn. split; [reflexivity | split; [lia | split; [constructor |]]].
    exists []. split; reflexivity.
  - destruct (place_attempts 50 15 30 obs r) as [[[x y] |] r1] eqn:Ep.
    + specialize (IH (ks ++ [new_weapon_pickup (fofZ x) (fofZ y) w]) obs r1).
      destruct (fold_left _ ws _) as [ks' r'].
      destruct IH as [ps [-> [Hl [HF [mask [Hm Em]]]]]].
      exists ((x, y, w) :: ps). rewrite <- app_assoc. split; [reflexivity |].
      split; [cbn; lia |].
      split.
      * constructor; [split; [exact (place_attempts_free _ _ _ _ _ _ _ _ Ep) | left; reflexivity] |].
        eapply Forall_impl; [| exact HF]. intros [[a b] c] [H1 H2]. split; [exact H1 | right; exact H2].
      * exists (true :: mask). split; [cbn; rewrite Hm; reflexivity |].
        cbn. rewrite Em. reflexivity.
    + specialize (IH ks obs r1).
      destruct (fold_left _ ws _) as [ks' r'].
      destruct IH as [ps [-> [Hl [HF [mask [Hm Em]]]]]].
      exists ps. split; [reflexivity |]. split; [cbn; lia |].
      split.
      * eapply Forall_impl; [| exact HF]. intros [[a b] c] [H1 H2]. split; [exact H1 | right; exact H2].
      * exists (false :: mask). split; [cbn; rewrite Hm; reflexivity |].
        cbn. exact Em.
Qed.

Lemma spawn_weapon_pickups_spec (ks : list (@weapon_pickup F)) obs (r : R) :
  let (ks', _) := spawn_weapon_pickups ks obs r in
  exists ps : list (Z * Z * weapon),
    ks' = ks ++ map (fun '(x, y, w) => new_weapon_pickup (fofZ x) (fofZ y) w) ps /\
    (length ps <= 5)%nat /\
    Forall (fun '(x, y, w) =>
      existsb (colliderect (mk_rect (x - 15) (y - 15) 30 30)) obs = false /\
      In w [MACHINE_GUN; SHOTGUN; GRENADE; MACHINE_GUN; GRENADE]) ps.
Proof.
  pose proof (spawn_pickups_fold [MACHINE_GUN; SHOTGUN; GRENADE; MACHINE_GUN; GRENADE] ks obs r) as H.
  unfold spawn_weapon_pickups.
  destruct (fold_left _ _ _) as [ks' r'].
  destruct H as [ps [E [Hl [HF _]]]]. exists ps. auto.
Qed.

Lemma spawn_powerups_spec (us : list (@powerup F)) obs (r : R) :
  let (us', _) := spawn_powerups us obs r in
  us' = us \/
  exists x y, us' = us ++ [new_insta_kill (fofZ x) (fofZ y)] /\
    existsb (colliderect (mk_rect (x - 20) (y - 20) 40 40)) obs = false.
Proof.
  unfold spawn_powerups.
  destruct (place_attempts 50 20 40 obs r) as [[[x y] |] r1] eqn:Ep.
  - right. exists x, y. split; [reflexivity | exact (place_attempts_free _ _ _ _ _ _ _ _ Ep)].
  - left. reflexivity.
Qed.

(** X15: [Game._spawn_weapon_pickups] keeps the pickups already there and
    appends at most five new ones, in the order of its weapon list
    [MG, SG, GR, MG, GR]: their weapons are that list with the weapons whose
    placement failed left out.  Each is a fresh uncollected pickup of one of
    the listed weapons at a point [(x, y)] whose square
    [Rect(x-15, y-15, 30, 30)] meets no obstacle. *)
Theorem spawn_weapon_pickups_placed (ks : list (@weapon_pickup F)) (obs : list rect) (r : R) :
  let (ks', _) := spawn_weapon_pickups ks obs r in
  exists ps : list (Z * Z * weapon),
    ks' = ks ++ map (fun '(x, y, w) => new_weapon_pickup (fofZ x) (fofZ y) w) ps /\
    (length ps <= 5)%nat /\
    Forall (fun '(x, y, w) =>
      existsb (colliderect (mk_rect (x - 15) (y - 15) 30 30)) obs = false /\
      In w [MACHINE_GUN; SHOTGUN; GRENADE]) ps /\
    exists mask : list bool, length mask = 5%nat /\
      map (fun '(_, _, w) => w) ps =
        map snd (filter fst (combine mask [MACHINE_GUN; SHOTGUN; GRENADE; MACHINE_GUN; GRENADE])).
Proof.
  pose proof (spawn_pickups_fold [MACHINE_GUN; SHOTGUN; GRENADE; MACHINE_GUN; GRENADE] ks obs r) as H.
  unfold spawn_weapon_pickups.
  destruct (fold_left _ _ _) as [ks' r'].
  destruct H as [ps [E [Hl [HF Hm]]]]. exists ps. split; [exact E | split; [exact Hl |]].
  split; [| exact Hm].
  eapply Forall_impl; [| exact HF]. intros [[x y] w] [H1 H2]. split; [exact H1 |].
  cbn in H2 |- *. tauto.
Qed.

(** X16: [Game._spawn_powerups] either leaves the power-up list as it is (all
    50 attempts hit an obstacle) or appends exactly one insta-kill power-up
    at a point [(x, y)] whose square [Rect(x-20, y-20, 40, 40)] meets no
    obstacle. *)
Theorem spawn_powerups_placed (us : list (@powerup F)) (obs : list rect) (r : R) :
  let (us', _) := spawn_powerups us obs r in
  us' = us \/
  exists x y, us' = us ++ [new_insta_kill (fofZ x) (fofZ y)] /\
    existsb (colliderect (mk_rect (x - 20) (y - 20) 40 40)) obs = false.
Proof.
  exact (spawn_powerups_spec us obs r).
Qed.

Lemma restart_game_spec (g : @game F) (h : hero) (r : R) :
  let g' := fst (restart_game g h r) in
  game_state g' = Playing /\
  gplayer g' = new_player (fofZ 100) (fofZ 100) h /\
  bullets (ents g') = [] /\ grenades (ents g') = [] /\ zombies (ents g') = [] /\
  next_id (ents g') = next_id (ents g) /\
  length (obstacles g') = 30%nat /\
  exit_rect g' = mk_rect 1400 1400 80 80 /\
  (exists ps : list (Z * Z * weapon),
     weapon_pickups (ents g') =
       map (fun '(x, y, w) => new_weapon_pickup (fofZ x) (fofZ y) w) ps /\
     (length ps <= 5)%nat /\
     Forall (fun '(x, y, w) =>
       existsb (colliderect (mk_rect (x - 15) (y - 15) 30 30)) (obstacles g') = false) ps) /\
  (length (powerups (ents g')) <= 1)%nat /\
  spawner g' = mk_spawn 0 0 (max_zombies (spawner g)) (spawn_interval (spawner g))
                 (zombies_per_wave (spawner g)) false false 0 /\
  last_zombie_damage g' = 0 /\
  skill_bonus_notification g' = None /\ skill_bonus_notification_time g' = 0.
Proof.
  cbv zeta. unfold restart_game, generate_map.
  pose proof (generate_obstacles_length 30 [] r) as Hl.
  destruct (generate_obstacles 30 [] r) as [obs r1]. cbn [fst] in Hl.
  pose proof (spawn_weapon_pickups_spec [] obs r1) as Hk.
  destruct (spawn_weapon_pickups [] obs r1) as [ks r2].
  pose proof (spawn_powerups_spec [] obs r2) as Hu.
  destruct (spawn_powerups [] obs r2) as [us r3].
  cbn [fst game_state gplayer ents bullets grenades zombies next_id obstacles exit_rect
       weapon_pickups powerups spawner last_zombie_damage skill_bonus_notification
       skill_bonus_notification_time].
  repeat match goal with |- _ /\ _ => split end; try reflexivity.
  - exact Hl.
  - destruct Hk as [ps [E [Hn HF]]]. exists ps. split; [exact E | split; [exact Hn |]].
    eapply Forall_impl; [| exact HF]. intros [[x y] w] [H1 _]. exact H1.
  - destruct Hu as [-> | [x [y [-> _]]]]; cbn; lia.
Qed.

(** X17: [Game.restart_game] puts the game back in the playing state with a
    fresh [Player(100, 100, selected_hero)], no bullets, grenades or
    zombies, a new map of 30 obstacles with the exit at
    [(MAP_SIZE - 100, MAP_SIZE - 100)], at most five weapon pickups placed
    clear of the new obstacles, at most one power-up, the spawner counters,
    boss flags and wave reset (its settings kept), and no pending damage
    time or notification. *)
Theorem restart_game_resets (g : @game F) (selected_hero : hero) (r : R) :
  let g' := fst (restart_game g selected_hero r) in
  game_state g' = Playing /\
  gplayer g' = new_player (fofZ 100) (fofZ 100) selected_hero /\
  bullets (ents g') = [] /\ grenades (ents g') = [] /\ zombies (ents g') = [] /\
  length (obstacles g') = 30%nat /\
  exit_rect g' = mk_rect (MAP_SIZE - 100) (MAP_SIZE - 100) 80 80 /\
  (exists ps : list (Z * Z * weapon),
     weapon_pickups (ents g') =
       map (fun '(x, y, w) => new_weapon_pickup (fofZ x) (fofZ y) w) ps /\
     (length ps <= 5)%nat /\
     Forall (fun '(x, y, w) =>
       existsb (colliderect (mk_rect (x - 15) (y - 15) 30 30)) (obstacles g') = false) ps) /\
  (length (powerups (ents g')) <= 1)%nat /\
  spawner g' = mk_spawn 0 0 (max_zombies (spawner g)) (spawn_interval (spawner g))
                 (zombies_per_wave (spawner g)) false false 0 /\
  last_zombie_damage g' = 0 /\
  skill_bonus_notification g' = None /\ skill_bonus_notification_time g' = 0.
Proof.
  pose proof (restart_game_spec g selected_hero r) as H. cbv zeta in *.
  destruct H as [A [B [C [D [E [_ H]]]]]]. auto 10.
Qed.

(** ** The event loop of [Game.run] *)

(** X18: the events handled by [Game.run] change the game phase only along
    these edges: menu to hero selection on RETURN, hero selection back to
    the menu on ESC, hero selection to playing on RETURN (with a fresh
    [Player(100, 100, selected_hero)]), and won or lost to a restarted game
    on R.  The loop stops running exactly on QUIT or on ESC in the menu. *)
Theorem handle_event_transitions (s : session) (ev : event) (r : R) :
  let s' := fst (handle_event s ev r) in
  (game_state (sgame s') = game_state (sgame s) \/
   (game_state (sgame s) = Menu /\ ev = KEYDOWN K_RETURN /\
    sgame s' = set_state (sgame s) HeroSelect) \/
   (game_state (sgame s) = HeroSelect /\ ev = KEYDOWN K_ESCAPE /\
    sgame s' = set_state (sgame s) Menu) \/
   (game_state (sgame s) = HeroSelect /\ ev = KEYDOWN K_RETURN /\
    sgame s' = set_state (set_player (sgame s) (new_player (fofZ 100) (fofZ 100) (selected_hero s)))
                 Playing) \/
   ((game_state (sgame s) = Won \/ game_state (sgame s) = Lost) /\ ev = KEYDOWN K_r /\
    sgame s' = fst (restart_game (sgame s) (selected_hero s) r))) /\
  (running s' = false <->
   running s = false \/ ev = QUIT \/ (game_state (sgame s) = Menu /\ ev = KEYDOWN K_ESCAPE)).
Proof.
  destruct s as [g h run]. cbv zeta. unfold handle_event. cbn [sgame selected_hero running].
  destruct ev as [| k | b];
    [| destruct (game_state g) eqn:Eg; destruct k
     | destruct (is_playing (game_state g)); [destruct (b =? 4); [| destruct (b =? 5)] |]];
    try (destruct (restart_game g h r) as [g1 r1] eqn:Er);
    cbn [fst sgame running selected_hero game_state set_state set_player];
    (split;
     [ first [ left; congruence
             | right; left; split; [congruence | split; reflexivity]
             | right; right; left; split; [congruence | split; reflexivity]
             | right; right; right; left; split; [congruence | split; reflexivity]
             | right; right; right; right; split; [tauto | split; [reflexivity | try rewrite Er; reflexivity]] ]
     | split; [intros Hq | intros [Hq | [Hq | [Hq1 Hq2]]]]; try (left; congruence);
       try discriminate; try congruence; auto ]).
Qed.

Lemma handle_event_playing (s : session) (ev : event) (r : R) :
  game_state (sgame s) = Playing ->
  let s' := fst (handle_event s ev r) in
  selected_hero s' = selected_hero s /\
  ((sgame s' = sgame s) \/
   exists d, (d = 1 \/ d = -1) /\ sgame s' = set_player (sgame s) (switch_weapon (gplayer (sgame s)) d)).
Proof.
  destruct s as [g h run]. cbn [sgame selected_hero]. intros Hg. cbv zeta.
  unfold handle_event. cbn [sgame selected_hero running].
  destruct ev as [| k | b].
  - cbn. auto.
  - rewrite Hg. destruct k; cbn; auto.
  - rewrite Hg. cbn [is_playing].
    destruct (b =? 4); [| destruct (b =? 5)]; cbn; split; auto.
    + right. exists (-1). auto.
    + right. exists 1. auto.
Qed.

(** X19: once the game is playing, no sequence of events handled by
    [Game.run] leaves the playing state or changes anything but the player,
    and the player only goes through weapon switches by one slot in either
    direction (the mouse wheel); the selected hero stays as it is. *)
Theorem handle_events_playing (s : session) (evs : list event) (r : R)
    (H : game_state (sgame s) = Playing) :
  let s' := fst (handle_events s evs r) in
  selected_hero s' = selected_hero s /\
  exists ds : list Z, Forall (fun d => d = 1 \/ d = -1) ds /\
    sgame s' = set_player (sgame s) (fold_left switch_weapon ds (gplayer (sgame s))).
Proof.
  cbv zeta. revert s r H. induction evs as [| ev evs IH]; intros s r H; cbn [handle_events].
  - split; [reflexivity |]. exists []. split; [constructor |].
    destruct s as [[p e o x sp l st nb nt] h run]. reflexivity.
  - pose proof (handle_event_playing s ev r H) as [Hh Hs]. cbv zeta in Hh, Hs.
    destruct (handle_event s ev r) as [s1 r1]. cbn [fst] in Hh, Hs.
    assert (H1 : game_state (sgame s1) = Playing)
      by (destruct Hs as [-> | [d [_ ->]]]; [exact H | exact H]).
    destruct (IH s1 r1 H1) as [Hh' [ds [HF E]]].
    split; [congruence |].
    destruct Hs as [Es | [d [Hd Es]]].
    + exists ds. split; [exact HF |]. rewrite E, Es. reflexivity.
    + exists (d :: ds). split; [constructor; assumption |].
      rewrite E, Es. cbn [fold_left].
      destruct s as [[p e o x sp l st nb nt] h run]. reflexivity.
Qed.

(** ** Wave spawning *)

Lemma spawn_single_zombie_grows (g : @game F) (k : zkind) (r : R) :
  let g' := fst (spawn_single_zombie g k r) in
  spawner g' = spawner g /\
  exists added, game_zombies g' = game_zombies g ++ added /\ (length added <= 1)%nat.
Proof.
  cbv zeta. unfold spawn_single_zombie.
  destruct (spawn_attempts_placement 100 g k r) as [E | [z [E _]]]; rewrite E.
  - split; [reflexivity |]. exists []. rewrite app_nil_r. auto.
  - split; [reflexivity |]. exists [z]. split; [reflexivity | cbn; lia].
Qed.

Lemma spawn_wave_members_count (ks : list zkind) :
  forall (g : @game F) (r : R),
  zombies_spawned (spawner g) <= max_zombies (spawner g) ->
  let g' := fst (spawn_wave_members ks g r) in
  zombies_spawned (spawner g) <= zombies_spawned (spawner g') <= max_zombies (spawner g) /\
  max_zombies (spawner g') = max_zombies (spawner g) /\
  exists added, game_zombies g' = game_zombies g ++ added /\
    Z.of_nat (length added) <= zombies_spawned (spawner g') - zombies_spawned (spawner g).
Proof.
  induction ks as [| k ks IH]; intros g r H; cbv zeta; cbn [spawn_wave_members fst].
  - split; [lia | split; [reflexivity |]]. exists []. rewrite app_nil_r. split; [reflexivity | cbn; lia].
  - destruct (Z.ltb_spec (zombies_spawned (spawner g)) (max_zombies (spawner g))) as [Hl | Hl].
    + pose proof (spawn_single_zombie_grows g k r) as [Hs [a1 [Ea1 La1]]].
      destruct (spawn_single_zombie g k r) as [g1 r1]. cbn [fst] in Hs, Ea1.
      set (g2 := set_spawner g1 _).
      assert (S2 : zombies_spawned (spawner g2) = zombies_spawned (spawner g) + 1 /\
                   max_zombies (spawner g2) = max_zombies (spawner g) /\
                   game_zombies g2 = game_zombies g1)
        by (subst g2; cbn; rewrite Hs; auto).
      destruct S2 as [S2a [S2b S2c]].
      destruct (IH g2 r1 ltac:(lia)) as [C1 [C2 [a2 [Ea2 La2]]]].
      split; [lia | split; [congruence |]].
      exists (a1 ++ a2). split; [rewrite Ea2, S2c, Ea1, app_assoc; reflexivity |].
      rewrite length_app. lia.
    + exact (IH g r H).
Qed.

(** X20: [Game._spawn_zombie_wave] never lets [zombies_spawned] exceed
    [max_zombies] when it starts within it, never lowers it, and only
    appends zombies to the list, at most one for each count it adds (a
    placement that fails after all its attempts is still counted). *)
Theorem spawn_zombie_wave_bounded (g : @game F) (now : Z) (r : R)
    (H : zombies_spawned (spawner g) <= max_zombies (spawner g)) :
  let g' := fst (spawn_zombie_wave g now r) in
  zombies_spawned (spawner g) <= zombies_spawned (spawner g') <= max_zombies (spawner g) /\
  max_zombies (spawner g') = max_zombies (spawner g) /\
  exists added, game_zombies g' = game_zombies g ++ added /\
    Z.of_nat (length added) <= zombies_spawned (spawner g') - zombies_spawned (spawner g).
Proof.
  cbv zeta. unfold spawn_zombie_wave.
  destruct (boss_killed (spawner g)).
  { cbn. split; [lia | split; [reflexivity |]]. exists []. rewrite app_nil_r. split; [reflexivity | cbn; lia]. }
  destruct (_ && _).
  2: { cbn. split; [lia | split; [reflexivity |]]. exists []. rewrite app_nil_r. split; [reflexivity | cbn; lia]. }
  match goal with |- context [match ?e with pair _ _ => _ end] => destruct e as [[ks bs] r1] end.
  set (g1 := set_spawner g _).
  assert (S1 : zombies_spawned (spawner g1) = zombies_spawned (spawner g) /\
               max_zombies (spawner g1) = max_zombies (spawner g) /\
               game_zombies g1 = game_zombies g) by (subst g1; cbn; auto).
  destruct S1 as [S1a [S1b S1c]].
  pose proof (spawn_wave_members_count ks g1 r1 ltac:(lia)) as M. cbv zeta in M.
  destruct (spawn_wave_members ks g1 r1) as [g2 r2]. cbn [fst] in M |- *.
  destruct M as [M1 [M2 [a [Ea La]]]].
  cbn [spawner set_spawner set_spawn_counts zombies_spawned max_zombies].
  split; [lia | split; [congruence |]].
  exists a. split; [| lia].
  unfold game_zombies in *. cbn. rewrite Ea, S1c. reflexivity.
Qed.

(** ** The initial zombies *)

Lemma spawn_repeat_kinds (n : nat) :
  forall (k : zkind) (g : @game F) (r : R),
  let g' := fst (spawn_repeat n k g r) in
  gplayer g' = gplayer g /\ obstacles g' = obstacles g /\ spawner g' = spawner g /\
  exists added, game_zombies g' = game_zombies g ++ added /\ (length added <= n)%nat /\
    Forall (fun z => zkind_of z = k) added.
Proof.
  induction n as [| n IH]; intros k g r; cbv zeta; cbn [spawn_repeat fst].
  - repeat split; try reflexivity. exists []. rewrite app_nil_r. auto.
  - pose proof (spawn_attempts_placement 100 g k r) as P. cbv zeta in P.
    unfold spawn_single_zombie.
    destruct (spawn_attempts 100 g k r) as [g1 r1]. cbn [fst] in P.
    specialize (IH k g1 r1). cbv zeta in IH.
    destruct (spawn_repeat n k g1 r1) as [g2 r2]. cbn [fst] in IH |- *.
    destruct IH as [I1 [I2 [I3 [a [Ea [La Fa]]]]]].
    destruct P as [-> | [z [-> [Hk _]]]].
    + repeat split; try assumption. exists a. split; [exact Ea | split; [lia | exact Fa]].
    + rewrite I1, I2, I3. repeat split; try reflexivity.
      exists (z :: a). rewrite Ea. split; [cbn; rewrite <- app_assoc; reflexivity |].
      split; [cbn; lia | constructor; assumption].
Qed.

(** X21: [Game._spawn_zombies(count)] only appends zombies: first at most
    [count - count // 5] standard zombies, then at most [count // 5] fast
    ones; the player, the obstacles and the spawner are left as they are. *)
Theorem spawn_zombies_composition (g : @game F) (count : Z) (r : R) :
  let g' := fst (spawn_zombies g count r) in
  gplayer g' = gplayer g /\ obstacles g' = obstacles g /\ spawner g' = spawner g /\
  exists standard fast,
    game_zombies g' = game_zombies g ++ standard ++ fast /\
    (length standard <= Z.to_nat (count - count / 5))%nat /\
    Forall (fun z => zkind_of z = Standard) standard /\
    (length fast <= Z.to_nat (count / 5))%nat /\
    Forall (fun z => zkind_of z = Fast) fast.
Proof.
  cbv zeta. unfold spawn_zombies. cbv zeta.
  pose proof (spawn_repeat_kinds (Z.to_nat (count - count / 5)) Standard g r) as A. cbv zeta in A.
  destruct (spawn_repeat (Z.to_nat (count - count / 5)) Standard g r) as [g1 r1].
  pose proof (spawn_repeat_kinds (Z.to_nat (count / 5)) Fast g1 r1) as B. cbv zeta in B.
  cbn [fst] in A.
  destruct A as [A1 [A2 [A3 [a [Ea [La Fa]]]]]].
  destruct B as [B1 [B2 [B3 [b [Eb [Lb Fb]]]]]].
  rewrite B1, B2, B3, A1, A2, A3. repeat split; try reflexivity.
  exists a, b. rewrite Eb, Ea, app_assoc. auto.
Qed.

(** ** Nathan's ability over time *)

(** X22: Nathan's ability, activated with a full charge at clock [t0], uses
    the whole charge and reports success; an [update_powerups] at any clock
    up to [t0 + 10000] leaves the ability active, and one after that ends
    it and, when the current weapon has a finite magazine, refills that
    magazine and cancels any reload. *)
Theorem nathan_ability_lifecycle (p : @player F) (t0 t : Z)
    (Hn : hero_type (heroes p) = NATHAN) (Hc : 100 <= ability_charge (heroes p)) :
  let (p1, ok) := activate_hero_ability p t0 in
  ok = true /\ ability_charge (heroes p1) = 0 /\
  ability_active (heroes (update_powerups p1 t)) = (t <=? t0 + 10000) /\
  (t0 + 10000 < t -> forall cw n,
     get_current_weapon p = Some cw -> w_max_ammo (WEAPON_STATS cw) = Fin n ->
     ammo (update_powerups p1 t) cw = Fin n /\ reload (update_powerups p1 t) = no_reload).
Proof.
  unfold activate_hero_ability.
  destruct (Z.leb_spec 100 (ability_charge (heroes p))) as [_ | C]; [| lia].
  rewrite Hn. cbn [set_heroes heroes hero_type ability_charge ability_active ability_end_time].
  split; [reflexivity | split; [reflexivity |]].
  match goal with |- context [update_powerups ?q t] => set (p1 := q) end.
  assert (Hw1 : get_current_weapon p1 = get_current_weapon p) by reflexivity.
  assert (Hh1 : heroes p1 = mk_hero NATHAN 0 true (t0 + 10000)) by reflexivity.
  clearbody p1.
  unfold update_powerups.
  match goal with |- context [if insta_kill_active p1 && ?c then ?a else p1] =>
    set (p2 := if insta_kill_active p1 && c then a else p1) end.
  assert (Hh : heroes p2 = mk_hero NATHAN 0 true (t0 + 10000))
    by (subst p2; destruct (_ && _); [exact Hh1 | exact Hh1]).
  assert (Hw : get_current_weapon p2 = get_current_weapon p)
    by (subst p2; destruct (_ && _); [exact Hw1 | exact Hw1]).
  rewrite Hh. cbn [ability_active ability_end_time hero_type ability_charge andb].
  destruct (Z.ltb_spec (t0 + 10000) t) as [Lt | Ge].
  - split.
    + replace (t <=? t0 + 10000) with false by (symmetry; apply Z.leb_gt; lia).
      cbv zeta.
      match goal with |- context [get_current_weapon (set_heroes ?a ?b)] =>
        destruct (get_current_weapon (set_heroes a b)) as [w |] end;
        [destruct (w_max_ammo (WEAPON_STATS w)) |]; reflexivity.
    + intros _ cw n Hcw Hm. cbv zeta.
      replace (get_current_weapon (set_heroes p2 (mk_hero NATHAN 0 false (t0 + 10000))))
        with (get_current_weapon p2) by reflexivity.
      rewrite Hw, Hcw, Hm. cbn.
      destruct (weapon_eqb cw cw) eqn:E; [split; reflexivity |].
      destruct cw; discriminate.
  - split.
    + rewrite Hh. cbn. symmetry. apply Z.leb_le. exact Ge.
    + intros L. lia.
Qed.
End Extras.

(** ** Movement bounds with rational coordinates *)

Lemma py_clamp_bounds (a b x : Q) :
  (a <= b)%Q -> (a <= py_max a (py_min b x) <= b)%Q.
Proof.
  intros Hab. unfold py_max, py_min. cbn [flt Q_float].
  destruct (Qle_bool b x) eqn:E1; cbn [negb].
  - destruct (Qle_bool b a) eqn:E2; cbn [negb].
    + split; [apply Qle_refl | exact Hab].
    + apply Qle_bool_iff in E1. split; [| apply Qle_refl].
      apply Qlt_le_weak, Qnot_le_lt. intros C. apply Qle_bool_iff in C. congruence.
  - assert (Hxb : (x < b)%Q) by (apply Qnot_le_lt; intros C; apply Qle_bool_iff in C; congruence).
    destruct (Qle_bool x a) eqn:E2; cbn [negb].
    + split; [apply Qle_refl | exact Hab].
    + assert (Hax : (a < x)%Q) by (apply Qnot_le_lt; intros C; apply Qle_bool_iff in C; congruence).
      split; apply Qlt_le_weak; assumption.
Qed.

(** X23: with rational coordinates, [Player.move] always leaves the player
    inside the map, [size <= x <= 1500 - size] and the same for [y],
    whatever the direction and the obstacles, as long as the map is at
    least twice the player's size; the size itself is unchanged. *)
Theorem player_move_in_bounds (p : @player Q) (dx dy : Z) (obstacles : list rect)
    (H : 2 * psize p <= 1500) :
  let p' := player_move p dx dy obstacles in
  psize p' = psize p /\
  (inject_Z (psize p) <= px p' <= inject_Z (1500 - psize p))%Q /\
  (inject_Z (psize p) <= py p' <= inject_Z (1500 - psize p))%Q.
Proof.
  assert (Hab : (inject_Z (psize p) <= inject_Z (1500 - psize p))%Q)
    by (rewrite <- Zle_Qle; lia).
  cbv zeta. unfold player_move. cbv zeta.
  destruct (negb _); cbn [set_ppos px py psize fofZ Q_float];
    (split; [reflexivity | split; apply py_clamp_bounds; exact Hab]).
Qed.

(** * The model on examples *)

(** C1: one detonation damages the player on every tick of its 20-frame
    display window, not once: the grenade of [c1_game] explodes on the third
    tick and stays in the list, exploded; the player loses one health point
    on that tick and on each following one, and is dead after seven ticks,
    with no contact hit ever recorded. *)
Theorem grenade_blast_reapplied_each_tick :
  phealth (gplayer (fst (run c1_game (firstn 2 c1_ticks) 7))) = 5 /\
  map exploded (grenades (ents (fst (run c1_game (firstn 2 c1_ticks) 7)))) = [false] /\
  phealth (gplayer (fst (run c1_game (firstn 3 c1_ticks) 7))) = 4 /\
  map explosion_timer (grenades (ents (fst (run c1_game (firstn 3 c1_ticks) 7)))) = [0] /\
  phealth (gplayer (fst (run c1_game (firstn 4 c1_ticks) 7))) = 3 /\
  map explosion_timer (grenades (ents (fst (run c1_game (firstn 4 c1_ticks) 7)))) = [1] /\
  phealth (gplayer (fst (run c1_game (firstn 6 c1_ticks) 7))) = 1 /\
  game_state (fst (run c1_game (firstn 6 c1_ticks) 7)) = Playing /\
  game_state (fst (run c1_game c1_ticks 7)) = Lost /\
  map exploded (grenades (ents (fst (run c1_game c1_ticks 7)))) = [true] /\
  snd (run c1_game c1_ticks 7) = [].
Proof. vm_compute. repeat split. Qed.

Lemma zombie_update_avoids_obstacles_witness :
  existsb (colliderect (zombie_rect (new_zombie (F:=Q) Standard 0 (300 # 1) (300 # 1))
                                    (300 # 1) (300 # 1))) [mk_rect 500 500 20 20] = false /\
  existsb (colliderect
    (zombie_rect (fst (zombie_update (new_zombie Standard 0 (300 # 1) (300 # 1)) (100 # 1) (100 # 1)
                         [mk_rect 500 500 20 20] None 7))
       (zx (fst (zombie_update (new_zombie Standard 0 (300 # 1) (300 # 1)) (100 # 1) (100 # 1)
                   [mk_rect 500 500 20 20] None 7)))
       (zy (fst (zombie_update (new_zombie Standard 0 (300 # 1) (300 # 1)) (100 # 1) (100 # 1)
                   [mk_rect 500 500 20 20] None 7))))) [mk_rect 500 500 20 20] = false.
Proof.
  split; [vm_compute; reflexivity |].
  apply (zombie_update_avoids_obstacles (new_zombie Standard 0 (300 # 1) (300 # 1))
           (100 # 1) (100 # 1) [mk_rect 500 500 20 20] None 7).
  vm_compute. reflexivity.
Defined.

Lemma streak_bonus_milestones_witness :
  kills_without_hit (scores sample_player) = 0 /\ last_skill_bonus_at (scores sample_player) = 0 /\
  nth 9%nat (snd (kill_run sample_player (repeat normal 20))) 0 = 500 /\
  nth 19%nat (snd (kill_run sample_player (repeat normal 20))) 0 = 1000.
Proof.
  split; [reflexivity |]. split; [reflexivity |]. split.
  - rewrite (proj1 (streak_bonus_milestones sample_player (repeat normal 20) eq_refl eq_refl) 9%nat);
      [reflexivity | simpl; lia].
  - rewrite (proj1 (streak_bonus_milestones sample_player (repeat normal 20) eq_refl eq_refl) 19%nat);
      [reflexivity | simpl; lia].
Defined.

Lemma shotgun_reload_per_shell_witness :
  get_current_weapon (shotgun_player 0) = Some SHOTGUN /\
  nondecreasing 0 [500; 1200; 2500; 7000] = true /\
  snd (start_reload (shotgun_player 0) 0) = true /\
  exists p', reload_run (fst (start_reload (shotgun_player 0) 0)) [500; 1200; 2500; 7000] = Some p' /\
    ammo p' SHOTGUN = Fin (Z.min 5 ((last [500; 1200; 2500; 7000] 0 - 0) / 1000)) /\
    is_reloading (reload p') = ((last [500; 1200; 2500; 7000] 0 - 0) / 1000 <? 5).
Proof.
  split; [reflexivity |]. split; [reflexivity |].
  apply (shotgun_reload_per_shell (shotgun_player 0) 0 [500; 1200; 2500; 7000]);
    reflexivity.
Defined.

Lemma boss_take_damage_attenuated_witness :
  zkind_of (new_zombie (F:=Q) Boss 0 (500 # 1) (500 # 1)) = Boss /\
  zhealth (fst (zombie_take_damage (new_zombie (F:=Q) Boss 0 (500 # 1) (500 # 1)) 1000 0)) = 28.
Proof.
  split; [reflexivity |].
  rewrite (proj1 (boss_take_damage_attenuated (new_zombie Boss 0 (500 # 1) (500 # 1)) 1000 0
                    ltac:(reflexivity))).
  reflexivity.
Defined.

Lemma boss_death_converts_and_halts_spawning_witness :
  boss_killed (spawner (handle_boss_death (sample_game [] [] []) (0 # 1) (0 # 1))) = true /\
  spawner (fst (run (handle_boss_death (sample_game [] [] []) (0 # 1) (0 # 1)) [100; 6000; 12000] 7)) =
  spawner (handle_boss_death (sample_game [] [] []) (0 # 1) (0 # 1)).
Proof.
  split; [vm_compute; reflexivity |].
  apply (boss_death_converts_and_halts_spawning
           (sample_game [new_zombie Standard 0 (500 # 1) (500 # 1)] [] []) (0 # 1) (0 # 1)
           (handle_boss_death (sample_game [] [] []) (0 # 1) (0 # 1)) [100; 6000; 12000] 7).
  vm_compute. reflexivity.
Defined.

Lemma shoot_on_cooldown_clears_reload_witness :
  is_reloading (reload (set_last_shot (set_reload (shotgun_player 2) (mk_reload true 0 (Some SHOTGUN) 2)) 100)) = true /\
  shoot (set_last_shot (set_reload (shotgun_player 2) (mk_reload true 0 (Some SHOTGUN) 2)) 100)
    (200 # 1) (100 # 1) 300 =
  (set_reloading_flag (set_last_shot (set_reload (shotgun_player 2) (mk_reload true 0 (Some SHOTGUN) 2)) 100) false,
   ([], [])).
Proof.
  split; [reflexivity |].
  apply (shoot_on_cooldown_clears_reload
           (set_last_shot (set_reload (shotgun_player 2) (mk_reload true 0 (Some SHOTGUN) 2)) 100)
           (200 # 1) (100 # 1) 300 2); simpl; try reflexivity; lia.
Defined.

Lemma boss_death_conversion_unclamped_witness :
  exists z', game_zombies (handle_boss_death (sample_game [new_zombie Standard 0 (500 # 1) (500 # 1)] [] [])
                             (0 # 1) (0 # 1)) = [z'] /\
    zkind_of z' = Fast /\ zhealth z' = 3 /\ zmax_health z' < zhealth z'.
Proof.
  pose proof (proj1 (boss_death_conversion_unclamped
                       (sample_game [new_zombie Standard 0 (500 # 1) (500 # 1)] [] []) (0 # 1) (0 # 1))) as H.
  destruct (game_zombies (handle_boss_death (sample_game [new_zombie Standard 0 (500 # 1) (500 # 1)] [] [])
                            (0 # 1) (0 # 1))) as [| z' rest] eqn:E; cbn in H; inversion H as [| ? ? ? ? Hp Hr].
  inversion Hr; subst.
  destruct Hp as [_ Hp]. destruct (Hp ltac:(discriminate)) as [Hf [Hh [_ Hlt]]].
  exists z'. split; [reflexivity |]. split; [exact Hf |]. split; [exact Hh |]. exact (Hlt eq_refl).
Defined.

Lemma kills_charge_hero_ability_witness :
  ability_charge (heroes (set_phealth (new_player (100 # 1) (100 # 1) KELLY) 2)) <= 100 /\
  (let c := ability_charge (heroes (set_phealth (new_player (100 # 1) (100 # 1) KELLY) 2)) +
            20 * Z.of_nat (length (repeat normal 5)) in
   let p1 := fst (kill_run (set_phealth (new_player (100 # 1) (100 # 1) KELLY) 2) (repeat normal 5)) in
   ability_charge (heroes p1) = Z.min 100 c /\
   let (p2, fired) := activate_hero_ability p1 0 in
   fired = (100 <=? c) /\
   (fired = true ->
    ability_charge (heroes p2) = 0 /\
    match hero_type (heroes (set_phealth (new_player (100 # 1) (100 # 1) KELLY) 2)) with
    | NATHAN => ability_active (heroes p2) = true /\ ability_end_time (heroes p2) = 0 + 10000
    | KELLY => phealth p2 = pmax_health (set_phealth (new_player (100 # 1) (100 # 1) KELLY) 2)
    end)).
Proof.
  split; [vm_compute; discriminate |].
  apply (kills_charge_hero_ability (set_phealth (new_player (100 # 1) (100 # 1) KELLY) 2) (repeat normal 5) 0).
  vm_compute. discriminate.
Defined.

Lemma streak_restarts_after_hit_witness :
  (9 < length (repeat fast 12))%nat /\
  nth 9 (snd (kill_run (fst (player_take_damage sample_player)) (repeat fast 12))) 0 =
  (if Z.of_nat 10 mod 10 =? 0 then Z.of_nat 10 * 50 else 0).
Proof.
  split; [simpl; lia |].
  apply (streak_restarts_after_hit sample_player (repeat fast 12) 9). simpl; lia.
Defined.

Lemma grenade_timeline_witness :
  exploded (new_grenade (100 # 1) (100 # 1) (inject_Z 6) (0 # 1) 5 80) = false /\
  flight_time (new_grenade (100 # 1) (100 # 1) (inject_Z 6) (0 # 1) 5 80) <
    max_flight_time (new_grenade (100 # 1) (100 # 1) (inject_Z 6) (0 # 1) 5 80) /\
  explosion_timer (new_grenade (100 # 1) (100 # 1) (inject_Z 6) (0 # 1) 5 80) <=
    max_explosion_time (new_grenade (100 # 1) (100 # 1) (inject_Z 6) (0 # 1) 5 80) /\
  exploded (Nat.iter 90 grenade_update (new_grenade (100 # 1) (100 # 1) (inject_Z 6) (0 # 1) 5 80)) = true /\
  grenade_is_finished (Nat.iter 109 grenade_update (new_grenade (100 # 1) (100 # 1) (inject_Z 6) (0 # 1) 5 80)) = false /\
  grenade_is_finished (Nat.iter 110 grenade_update (new_grenade (100 # 1) (100 # 1) (inject_Z 6) (0 # 1) 5 80)) = true.
Proof.
  split; [reflexivity |]. split; [simpl; lia |]. split; [simpl; lia |].
  split; [| split].
  - rewrite (proj1 (grenade_timeline (new_grenade (100 # 1) (100 # 1) (inject_Z 6) (0 # 1) 5 80) 90
                     eq_refl ltac:(simpl; lia) ltac:(simpl; lia))). reflexivity.
  - rewrite (proj2 (grenade_timeline (new_grenade (100 # 1) (100 # 1) (inject_Z 6) (0 # 1) 5 80) 109
                     eq_refl ltac:(simpl; lia) ltac:(simpl; lia))). reflexivity.
  - rewrite (proj2 (grenade_timeline (new_grenade (100 # 1) (100 # 1) (inject_Z 6) (0 # 1) 5 80) 110
                     eq_refl ltac:(simpl; lia) ltac:(simpl; lia))). reflexivity.
Defined.

Lemma nathan_ability_shots_witness :
  hero_type (heroes (set_heroes sample_player (mk_hero NATHAN 0 true 10000))) = NATHAN /\
  ability_active (heroes (set_heroes sample_player (mk_hero NATHAN 0 true 10000))) = true /\
  ammo (fst (shoot (set_heroes sample_player (mk_hero NATHAN 0 true 10000)) (200 # 1) (100 # 1) 1000)) =
    ammo (set_heroes sample_player (mk_hero NATHAN 0 true 10000)).
Proof.
  split; [reflexivity | split; [reflexivity |]].
  pose proof (nathan_ability_shots (set_heroes sample_player (mk_hero NATHAN 0 true 10000))
                (200 # 1) (100 # 1) 1000 ltac:(reflexivity) ltac:(reflexivity)) as H.
  destruct (shoot _ _ _ _) as [p' out]. exact (proj1 H).
Defined.

Lemma insta_kill_shots_witness :
  insta_kill_active (set_insta_kill sample_player true 5000) = true /\
  Forall (fun b => bdamage b = 1000)
    (fst (snd (shoot (set_insta_kill sample_player true 5000) (200 # 1) (100 # 1) 1000))).
Proof.
  split; [reflexivity |].
  pose proof (insta_kill_shots (set_insta_kill sample_player true 5000) (200 # 1) (100 # 1) 1000
                ltac:(reflexivity)) as H.
  destruct (shoot _ _ _ _) as [p' out]. exact (proj1 H).
Defined.

Lemma emptying_shot_auto_reload_witness :
  get_current_weapon (set_ammo sample_player PISTOL (Fin 1)) = Some PISTOL /\
  ammo (set_ammo sample_player PISTOL (Fin 1)) PISTOL = Fin 1 /\
  ammo (fst (shoot (set_ammo sample_player PISTOL (Fin 1)) (200 # 1) (100 # 1) 1000)) PISTOL = Fin 0 /\
  is_reloading (reload (fst (shoot (set_ammo sample_player PISTOL (Fin 1)) (200 # 1) (100 # 1) 1000))) = true.
Proof.
  split; [reflexivity | split; [reflexivity |]].
  pose proof (emptying_shot_auto_reload (set_ammo sample_player PISTOL (Fin 1)) (200 # 1) (100 # 1) 1000
                PISTOL ltac:(reflexivity) ltac:(reflexivity) ltac:(reflexivity) ltac:(reflexivity)
                ltac:(reflexivity) ltac:(reflexivity) ltac:(vm_compute; reflexivity)) as H.
  cbv zeta in H. split; [exact (proj1 H) | exact (proj1 (proj2 H))].
Defined.

Lemma ammo_bookkeeping_witness :
  ammo_okb sample_player = true /\ ammo_okb (fst (player_take_damage sample_player)) = true.
Proof.
  split; [vm_compute; reflexivity |].
  pose proof (ammo_bookkeeping sample_player ltac:(vm_compute; reflexivity))
    as [_ [_ [_ [_ [_ [_ [_ [_ [_ [_ [H _]]]]]]]]]]].
  exact H.
Defined.

Lemma add_weapon_result_witness :
  (current_weapon_index sample_player < length (weapons sample_player))%nat /\
  has_weapon (weapons (add_weapon sample_player SHOTGUN)) SHOTGUN = true.
Proof.
  split; [simpl; lia |].
  exact (proj1 (add_weapon_result sample_player SHOTGUN ltac:(simpl; lia))).
Defined.

Lemma switch_weapon_lands_witness :
  (1 = 1 \/ 1 = -1) /\ has_any_weapon (weapons sample_player) = true /\
  reload (switch_weapon sample_player 1) = no_reload.
Proof.
  split; [left; reflexivity | split; [reflexivity |]].
  exact (proj2 (switch_weapon_lands sample_player 1 ltac:(left; reflexivity) ltac:(reflexivity))).
Defined.

Lemma zombie_update_counters_witness :
  zombie_counters_ok (new_zombie Standard 0 (300 # 1) (300 # 1)) /\
  zombie_counters_ok (fst (zombie_update (new_zombie Standard 0 (300 # 1) (300 # 1))
                             (100 # 1) (100 # 1) [] None 7)).
Proof.
  split; [unfold zombie_counters_ok; simpl; lia |].
  exact (proj1 (zombie_update_counters (new_zombie Standard 0 (300 # 1) (300 # 1)) (100 # 1) (100 # 1)
                  [] None 7 ltac:(unfold zombie_counters_ok; simpl; lia))).
Defined.

Lemma handle_events_playing_witness :
  game_state (sgame (mk_session (sample_game [] [] []) NATHAN true)) = Playing /\
  selected_hero (fst (handle_events (mk_session (sample_game [] [] []) NATHAN true)
                        [MOUSEBUTTONDOWN 4; KEYDOWN K_ESCAPE; KEYDOWN K_r] 0)) = NATHAN.
Proof.
  split; [reflexivity |].
  exact (proj1 (handle_events_playing (mk_session (sample_game [] [] []) NATHAN true)
                  [MOUSEBUTTONDOWN 4; KEYDOWN K_ESCAPE; KEYDOWN K_r] 0 ltac:(reflexivity))).
Defined.

Lemma spawn_zombie_wave_bounded_witness :
  zombies_spawned (spawner (sample_game [] [] [])) <= max_zombies (spawner (sample_game [] [] [])) /\
  zombies_spawned (spawner (fst (spawn_zombie_wave (sample_game [] [] []) 6000 1))) <= 100.
Proof.
  split; [vm_compute; discriminate |].
  exact (proj2 (proj1 (spawn_zombie_wave_bounded (sample_game [] [] []) 6000 1
                         ltac:(vm_compute; discriminate)))).
Defined.

Lemma player_move_in_bounds_witness :
  2 * psize sample_player <= 1500 /\
  (inject_Z (psize sample_player) <= px (player_move sample_player (-1) 0 []))%Q.
Proof.
  split; [simpl; lia |].
  exact (proj1 (proj1 (proj2 (player_move_in_bounds sample_player (-1) 0 [] ltac:(simpl; lia))))).
Defined.

Lemma nathan_ability_lifecycle_witness :
  hero_type (heroes (set_heroes sample_player (mk_hero NATHAN 100 false 0))) = NATHAN /\
  100 <= ability_charge (heroes (set_heroes sample_player (mk_hero NATHAN 100 false 0))) /\
  snd (activate_hero_ability (set_heroes sample_player (mk_hero NATHAN 100 false 0)) 0) = true.
Proof.
  split; [reflexivity | split; [simpl; lia |]].
  pose proof (nathan_ability_lifecycle (set_heroes sample_player (mk_hero NATHAN 100 false 0)) 0 20000
                ltac:(reflexivity) ltac:(simpl; lia)) as H.
  destruct (activate_hero_ability _ _) as [p1 ok]. exact (proj1 H).
Defined.
